(** * AI-assistant: the upload / extract / notify pipeline, the answer
      formatter, the reply parser, the clipboard poll and the web endpoints

    A shallow embedding of
      - src/FINALBOT/main.py  (module [Finalbot]),
      - src/app.py            (module [App]),
      - src/extractdata.py    (module [Extractdata]),
    over a small model of the Python values they handle (module [Py]).

    Python strings are sequences of Unicode code points; the calls the
    sources make to boto3, PyPDF2, requests and pyperclip are the
    environment: each run is given the outcome of every such call, and
    returns the trace of what it did. *)

From Stdlib Require Import String Ascii Numbers.DecimalString.
From Stdlib Require Import List NArith ZArith Bool Arith Lia.
From Equations Require Import Equations.
From Equations.Prop Require Import Logic.
Import ListNotations.

Set Implicit Arguments.

(* ===================================================================== *)
(** * Python values *)
(* ===================================================================== *)

Module Py.

(** A [str] is a sequence of code points. *)
Definition codepoint := N.
Definition str := list codepoint.

(** ** Literals

    The literals of the sources are written here as they are there; [py]
    decodes the UTF-8 bytes of a literal into its code points. *)

Fixpoint utf8_decode (bs : list N) : str :=
  match bs with
  | [] => []
  | b :: r =>
      if (b <? 128)%N then b :: utf8_decode r
      else if (b <? 224)%N then
        match r with
        | b1 :: r1 => ((b - 192) * 64 + (b1 - 128))%N :: utf8_decode r1
        | _ => []
        end
      else if (b <? 240)%N then
        match r with
        | b1 :: b2 :: r2 =>
            ((b - 224) * 4096 + (b1 - 128) * 64 + (b2 - 128))%N :: utf8_decode r2
        | _ => []
        end
      else
        match r with
        | b1 :: b2 :: b3 :: r3 =>
            ((b - 240) * 262144 + (b1 - 128) * 4096 + (b2 - 128) * 64 + (b3 - 128))%N
              :: utf8_decode r3
        | _ => []
        end
  end.

Definition py (s : string) : str :=
  utf8_decode (map N_of_ascii (list_ascii_of_string s)).
Arguments py s%_string : simpl never.

(** Code points the sources name. *)
Definition LF : codepoint := 10%N.
Definition SP : codepoint := 32%N.
Definition DOT : codepoint := 46%N.
Definition SLASH : codepoint := 47%N.
Definition BACKSLASH : codepoint := 92%N.
Definition QUOTE : codepoint := 34%N.

(** ** Equality, [in], [startswith] *)

Fixpoint str_eqb (a b : str) : bool :=
  match a, b with
  | [], [] => true
  | x :: a', y :: b' => N.eqb x y && str_eqb a' b'
  | _, _ => false
  end.

(** [s.startswith(p)] *)
Fixpoint startswith (p s : str) : bool :=
  match p, s with
  | [], _ => true
  | x :: p', y :: s' => N.eqb x y && startswith p' s'
  | _ :: _, [] => false
  end.

(** [s.endswith(p)] *)
Definition endswith (p s : str) : bool := startswith (rev p) (rev s).

(** [s.find(sub)]: the lowest index where [sub] occurs, [None] for -1. *)
Fixpoint find (sub s : str) : option nat :=
  if startswith sub s then Some 0
  else match s with
       | [] => None
       | _ :: s' => option_map S (find sub s')
       end.

(** [sub in s] *)
Definition contains (sub s : str) : bool :=
  match find sub s with Some _ => true | None => false end.

(** Truth value of a string: [if s]. *)
Definition truthy (s : str) : bool :=
  match s with [] => false | _ :: _ => true end.

(** ** Whitespace: [str.strip()], [str.split()]

    The code points CPython's [Py_UNICODE_ISSPACE] accepts. *)
Definition isspace (c : codepoint) : bool :=
  ((9 <=? c) && (c <=? 13) || (28 <=? c) && (c <=? 32)
   || (c =? 133) || (c =? 160) || (c =? 5760)
   || (8192 <=? c) && (c <=? 8202)
   || (c =? 8232) || (c =? 8233) || (c =? 8239) || (c =? 8287)
   || (c =? 12288))%N.

Fixpoint lstrip (s : str) : str :=
  match s with
  | [] => []
  | c :: s' => if isspace c then lstrip s' else s
  end.

Definition rstrip (s : str) : str := rev (lstrip (rev s)).

(** [s.strip()] *)
Definition strip (s : str) : str := rstrip (lstrip s).

(** [s.split()] with no separator: the maximal runs of characters that
    are not whitespace.  [cur] is the run being read, reversed. *)
Fixpoint split_ws_from (cur : str) (s : str) : list str :=
  match s with
  | [] => match cur with [] => [] | _ => [rev cur] end
  | c :: s' =>
      if isspace c then
        match cur with
        | [] => split_ws_from [] s'
        | _ => rev cur :: split_ws_from [] s'
        end
      else split_ws_from (c :: cur) s'
  end.

Definition split_ws (s : str) : list str := split_ws_from [] s.

(** ** [sep.join(parts)] *)
Fixpoint join (sep : str) (parts : list str) : str :=
  match parts with
  | [] => []
  | [p] => p
  | p :: rest => p ++ sep ++ join sep rest
  end.

(** ** [s.split(sep)] and [s.replace(old, new)]

    Both cut [s] at the occurrences of a separator found from left to
    right, each search starting after the previous occurrence.  Python
    raises [ValueError] for an empty separator; the sources pass
    constants, none empty, and the model leaves [s] whole there. *)
Equations? split (sep s : str) : list str by wf (length s) lt :=
  split [] s := [s];
  split (c :: sep') s with inspect (find (c :: sep') s) => {
    | exist _ None _ := [s];
    | exist _ (Some i) _ := firstn i s :: split (c :: sep') (skipn (i + S (length sep')) s) }.
Proof.
  rewrite length_skipn.
  assert (P : forall sub l, startswith sub l = true -> length sub <= length l).
  { clear. induction sub as [|y sub IH]; intros [|x l]; simpl; intros H;
      try lia; try discriminate.
    apply andb_prop in H as [_ H]. apply IH in H. lia. }
  enough (B : forall sub l j, find sub l = Some j -> j + length sub <= length l)
    by (apply B in e; simpl in e; lia).
  clear - P. intros sub l. induction l as [|x l IH]; intros j.
  - simpl. destruct sub; simpl; [intros [= <-]; simpl; lia | discriminate].
  - cbn [find]. destruct (startswith sub (x :: l)) eqn:E.
    + intros [= <-]. apply P in E. lia.
    + destruct (find sub l) as [k|]; simpl; [|discriminate].
      intros [= <-]. specialize (IH k eq_refl). lia.
Qed.

Definition replace (old new s : str) : str := join new (split old s).

(** ** [s.lower()]

    The ASCII letters are mapped as Python maps them.  Python also maps
    the cased letters outside ASCII, to code points that are not ASCII
    letters (or to [i] and [k]); the sources only search lowered text for
    the needles [example] and [e.g.], which such letters cannot form. *)
Definition lower_char (c : codepoint) : codepoint :=
  if ((65 <=? c) && (c <=? 90))%N then (c + 32)%N else c.

Definition lower (s : str) : str := map lower_char s.

(** ** [str(n)] and f-string formatting of integers *)
Definition str_of_nat (n : nat) : str :=
  py (NilEmpty.string_of_uint (Nat.to_uint n)).

Definition str_of_Z (z : Z) : str :=
  py (NilEmpty.string_of_int (Z.to_int z)).

(** An optional string read from the environment ([os.getenv]), as an
    f-string writes it and as [if] tests it. *)
Definition fmt_opt (o : option str) : str :=
  match o with Some s => s | None => py "None" end.

Definition truthy_opt (o : option str) : bool :=
  match o with Some s => truthy s | None => false end.

(** ** [os.path.basename] and [pathlib.Path(name).stem] (POSIX)

    [basename p] is what follows the last slash of [p]. *)
Fixpoint basename_from (cur : str) (p : str) : str :=
  match p with
  | [] => rev cur
  | c :: p' => if (c =? SLASH)%N then basename_from [] p'
               else basename_from (c :: cur) p'
  end.

Definition basename (p : str) : str := basename_from [] p.

(** [s.rfind(".")]: the highest index of a dot. *)
Fixpoint rfind_dot_from (i : nat) (last : option nat) (s : str) : option nat :=
  match s with
  | [] => last
  | c :: s' => rfind_dot_from (S i) (if (c =? DOT)%N then Some i else last) s'
  end.

(** [Path(filename).stem] for a [filename] that holds no slash: the name
    up to its last dot, when that dot is neither first nor last. *)
Definition stem (filename : str) : str :=
  let name := if str_eqb filename [DOT] then [] else filename in
  match rfind_dot_from 0 None name with
  | Some i => if (0 <? i) && (i <? length name - 1) then firstn i name else name
  | None => name
  end.

(** ** Decoded JSON

    What [response.json()] returns.  A float carries the text Python
    writes for it; a dict carries its items, keys distinct. *)
#[warnings="-register-all"]
Inductive json : Type :=
| JNone
| JBool (b : bool)
| JInt (z : Z)
| JFloat (repr : str)
| JStr (s : str)
| JList (l : list json)
| JDict (items : list (str * json)).

(** [d[k]], [None] when the key is absent. *)
Fixpoint dict_lookup (items : list (str * json)) (k : str) : option json :=
  match items with
  | [] => None
  | (k', v) :: rest => if str_eqb k' k then Some v else dict_lookup rest k
  end.

(** [d.get(k, default)] *)
Definition dict_get (items : list (str * json)) (k : str) (default : json) : json :=
  match dict_lookup items k with Some v => v | None => default end.

(** Truth value of a decoded value: [if v]. *)
Definition json_truthy (v : json) : bool :=
  match v with
  | JNone => false
  | JBool b => b
  | JInt z => negb (z =? 0)%Z
  | JFloat r => negb (str_eqb r (py "0.0") || str_eqb r (py "-0.0"))
  | JStr s => truthy s
  | JList l => match l with [] => false | _ => true end
  | JDict d => match d with [] => false | _ => true end
  end.

(** [type(v).__name__] *)
Definition type_name (v : json) : str :=
  match v with
  | JNone => py "NoneType"
  | JBool _ => py "bool"
  | JInt _ => py "int"
  | JFloat _ => py "float"
  | JStr _ => py "str"
  | JList _ => py "list"
  | JDict _ => py "dict"
  end.

(** ** [json.dumps] with its defaults ([ensure_ascii], separators
    [", "] and [": "]) *)
Definition hex_digit (n : N) : codepoint :=
  if (n <? 10)%N then (48 + n)%N else (87 + n)%N.

(** [format(n, "04x")] for [n < 0x10000] *)
Definition hex4 (n : N) : str :=
  [hex_digit (n / 4096 mod 16); hex_digit (n / 256 mod 16);
   hex_digit (n / 16 mod 16); hex_digit (n mod 16)]%N.

Definition escape_u (n : N) : str := BACKSLASH :: py "u" ++ hex4 n.

Definition escape_ascii_char (c : codepoint) : str :=
  if (c =? BACKSLASH)%N then [BACKSLASH; BACKSLASH]
  else if (c =? QUOTE)%N then [BACKSLASH; QUOTE]
  else if (c =? 8)%N then BACKSLASH :: py "b"
  else if (c =? 12)%N then BACKSLASH :: py "f"
  else if (c =? 10)%N then BACKSLASH :: py "n"
  else if (c =? 13)%N then BACKSLASH :: py "r"
  else if (c =? 9)%N then BACKSLASH :: py "t"
  else if ((32 <=? c) && (c <=? 126))%N then [c]
  else if (c <? 65536)%N then escape_u c
  else
    let n := (c - 65536)%N in
    escape_u (55296 + (n / 1024) mod 1024)%N ++ escape_u (56320 + n mod 1024)%N.

Definition encode_basestring_ascii (s : str) : str :=
  [QUOTE] ++ flat_map escape_ascii_char s ++ [QUOTE].

Fixpoint json_dumps (v : json) : str :=
  match v with
  | JNone => py "null"
  | JBool true => py "true"
  | JBool false => py "false"
  | JInt z => str_of_Z z
  | JFloat r => r
  | JStr s => encode_basestring_ascii s
  | JList l =>
      py "[" ++
      (fix elems (l : list json) : str :=
         match l with
         | [] => []
         | [x] => json_dumps x
         | x :: r => json_dumps x ++ py ", " ++ elems r
         end) l ++ py "]"
  | JDict d =>
      py "{" ++
      (fix members (d : list (str * json)) : str :=
         match d with
         | [] => []
         | [(k, x)] => encode_basestring_ascii k ++ py ": " ++ json_dumps x
         | (k, x) :: r =>
             encode_basestring_ascii k ++ py ": " ++ json_dumps x ++ py ", " ++ members r
         end) d ++ py "}"
  end.

(** ** Exceptions and outcomes

    An exception is known by the text [str(e)] and by the traceback
    [traceback.format_exc()] prints for it. *)
Record exception : Type := { exc_str : str; exc_traceback : str }.

Inductive outcome (A : Type) : Type :=
| Returns (a : A)
| Raises (e : exception).
Arguments Returns {A} a.
Arguments Raises {A} e.

Definition returned {A : Type} (o : outcome A) : bool :=
  match o with Returns _ => true | Raises _ => false end.

End Py.

(* ===================================================================== *)
(** * Runs that call the environment *)
(* ===================================================================== *)

(** A computation yields the events it caused, in order, and either a
    value or the exception that ended it.  [try_except] is Python's
    [try: ... except Exception as e: ...]. *)
Module Trace.
Import Py.

Section Run.
Variable E : Type.

Definition M (A : Type) : Type := (list E * outcome A)%type.

Definition ret {A : Type} (a : A) : M A := ([], Returns a).

Definition bind {A B : Type} (m : M A) (k : A -> M B) : M B :=
  match m with
  | (t, Returns a) => let (t', r) := k a in (t ++ t', r)
  | (t, Raises e) => (t, Raises e)
  end.

(** An event of the run's own: a signal emitted, a line printed. *)
Definition emit (e : E) : M unit := ([e], Returns tt).

(** A call to the environment: the call is recorded, then it returns
    or raises as the environment decides. *)
Definition call {A : Type} (e : E) (r : outcome A) : M A := ([e], r).

(** A value the environment hands over without a recorded call. *)
Definition lift {A : Type} (r : outcome A) : M A := ([], r).

Definition raise {A : Type} (e : exception) : M A := ([], Raises e).

Definition try_except {A : Type} (body : M A) (handler : exception -> M A) : M A :=
  match body with
  | (t, Returns a) => (t, Returns a)
  | (t, Raises e) => let (t', r) := handler e in (t ++ t', r)
  end.

Definition trace {A : Type} (m : M A) : list E := fst m.
Definition result {A : Type} (m : M A) : outcome A := snd m.

End Run.

Arguments ret {E A} a.
Arguments emit {E} e.
Arguments raise {E A} e.
Arguments lift {E A} r.

Declare Scope run_scope.
Delimit Scope run_scope with run.
Notation "x <- c1 ;; c2" := (bind c1 (fun x => c2))
  (at level 61, c1 at next level, right associativity) : run_scope.
Notation "c1 ;; c2" := (bind c1 (fun _ => c2))
  (at level 61, right associativity) : run_scope.

End Trace.

(* ===================================================================== *)
(** * src/FINALBOT/main.py *)
(* ===================================================================== *)

Module Finalbot.
Import Py Trace.
Local Open Scope run_scope.

(** ** Configuration read from the environment at start *)
Record Config : Type := {
  AWS_BUCKET_NAME : option str;      (* bucket of the original PDFs *)
  AWS_EXTRACT_BUCKET : option str    (* bucket of the extracted text *)
}.

(** ** [UploadThread] *)

(** What a run of the thread does that others see: the two signals, and
    its calls to S3 and to PyPDF2.  A call is recorded when the run
    reaches it, whatever its outcome. *)
Inductive event : Type :=
| progress (msg : str)
| extracted_text_signal (text s3_key : str)
| list_objects_v2 (Bucket : option str) (Prefix : str)
| upload_file (Filename : str) (Bucket : option str) (Key : str)
| PdfReader (path : str)
| put_object (Bucket Key Body : str).

(** What the environment answers during one run.  A listing is a
    response with or without ['Contents'], given by the keys it lists;
    a PDF is its pages, each the outcome of [extract_text()], which may
    be [None]. *)
Record World : Type := {
  list_objects_v2_outcome : outcome (option (list str));
  upload_file_outcome : outcome unit;
  PdfReader_outcome : outcome (list (outcome (option str)));
  put_object_outcome : outcome unit
}.

Section UploadThread.
Variable cfg : Config.
Variable world : World.

(** [for obj in resp['Contents']: if obj['Key'] == filename: ... break] *)
Fixpoint key_listed (filename : str) (keys : list str) : bool :=
  match keys with
  | [] => false
  | k :: rest => if str_eqb k filename then true else key_listed filename rest
  end.

(** Lines 136-146: the duplicate check; any exception leaves [already]
    false. *)
Definition check_duplicate (filename : str) : M event bool :=
  try_except
    (resp <- call (list_objects_v2 (AWS_BUCKET_NAME cfg) filename)
                  (list_objects_v2_outcome world) ;;
     ret (match resp with
          | Some keys => key_listed filename keys
          | None => false
          end))
    (fun _ => ret false).

(** Lines 148-152: skip or upload. *)
Definition storage_gateway (file_path filename : str) : M event unit :=
  already <- check_duplicate filename ;;
  if already then
    emit (progress (py "⚠️ File '" ++ filename ++ py "' already exists in "
                    ++ fmt_opt (AWS_BUCKET_NAME cfg) ++ py ". Skipping upload."))
  else
    call (upload_file file_path (AWS_BUCKET_NAME cfg) filename)
         (upload_file_outcome world) ;;
    emit (progress (py "✅ Uploaded '" ++ filename ++ py "' → s3://"
                    ++ fmt_opt (AWS_BUCKET_NAME cfg) ++ py "/" ++ filename)).

(** [p.extract_text() or ""] *)
Definition or_empty (t : option str) : str :=
  match t with Some s => s | None => [] end.

(** Lines 158-161: the loop over the pages, [text] being what was
    accumulated before. *)
Fixpoint read_pages (pages : list (outcome (option str))) (text : str) : M event str :=
  match pages with
  | [] => ret text
  | p :: rest =>
      page_text <- lift p ;;
      read_pages rest (text ++ or_empty page_text ++ [LF; LF])
  end.

(** Lines 157-161: the body of the [try]. *)
Definition read_pdf (file_path : str) : M event str :=
  pages <- call (PdfReader file_path) (PdfReader_outcome world) ;;
  read_pages pages [].

(** Lines 155-164: the extraction step. *)
Definition extraction_step (file_path : str) : M event str :=
  try_except
    (read_pdf file_path)
    (fun e =>
       emit (progress (py "⚠️ PDF extraction failed: " ++ exc_str e)) ;;
       ret []).

(** Lines 167-178: the secondary storage step and the notification. *)
Definition secondary_storage_step (filename text : str) : M event unit :=
  if truthy text && truthy_opt (AWS_EXTRACT_BUCKET cfg) then
    let bucket := fmt_opt (AWS_EXTRACT_BUCKET cfg) in
    let key := stem filename ++ py ".txt" in
    try_except
      (call (put_object bucket key text) (put_object_outcome world) ;;
       emit (progress (py "✅ Extracted text stored → s3://" ++ bucket ++ py "/" ++ key)) ;;
       emit (extracted_text_signal text key))
      (fun e =>
         emit (progress (py "⚠️ Failed to store extracted text: " ++ exc_str e)) ;;
         emit (extracted_text_signal text []))
  else
    emit (extracted_text_signal text []).

(** Lines 132-182: [UploadThread.run]. *)
Definition run_body (file_path : str) : M event unit :=
  try_except
    (let filename := basename file_path in
     storage_gateway file_path filename ;;
     text <- extraction_step file_path ;;
     secondary_storage_step filename text)
    (fun e =>
       emit (progress (py "⚠️ UploadThread error: " ++ exc_str e ++ [LF]
                       ++ exc_traceback e))).

Definition run (file_path : str) : list event := trace (run_body file_path).

End UploadThread.

(** ** [format_ollama_answer] (lines 74-115) *)

(** [[p.strip() for p in pieces if p.strip()]] *)
Definition stripped_nonempty (pieces : list str) : list str :=
  map strip (filter (fun p => truthy (strip p)) pieces).

Definition is_sentence_end (c : codepoint) : bool :=
  ((c =? 46) || (c =? 33) || (c =? 63))%N.   (* . ! ? *)

(** [re.split(r'(?<=[.!?]) +', text)]: the text is cut at every run of
    spaces that follows one of [. ! ?], and the run is dropped.  [cur] is
    the piece being read, reversed; [after_end] says that the character
    before was one of [. ! ?]; [in_run] that a run is being dropped. *)
Fixpoint re_split_from (cur : str) (after_end in_run : bool) (s : str) : list str :=
  match s with
  | [] => [rev cur]
  | c :: s' =>
      if (c =? SP)%N then
        if in_run then re_split_from [] false true s'
        else if after_end then rev cur :: re_split_from [] false true s'
        else re_split_from (c :: cur) false false s'
      else re_split_from (c :: cur) (is_sentence_end c) false s'
  end.

Definition re_split_sentences (text : str) : list str :=
  re_split_from [] false false text.

(** [for i, ln in enumerate(lines, start=i): numbered.append(f"{i}. {ln}")] *)
Fixpoint number_from (i : nat) (lines : list str) : list str :=
  match lines with
  | [] => []
  | ln :: rest => (str_of_nat i ++ py ". " ++ ln) :: number_from (S i) rest
  end.

Definition NO_RESPONSE : str := py "⚠️ No response from model.".

Definition EXAMPLE_NOTE : str :=
  [LF; LF] ++ py "📘 Example:" ++ [LF] ++ py "Refer to the example given above.".

Definition SOURCE_FOOTER : str :=
  [LF; LF] ++ py "🔎 Source: Answer generated using the uploaded text and Ollama model.".

(** Lines 87-90: the pieces the text is first cut into. *)
Definition parts_of (text : str) : list str :=
  if contains [LF; LF] text
  then stripped_nonempty (split [LF; LF] text)
  else stripped_nonempty (split [LF] text).

(** Lines 93-99: the lines that get numbered. *)
Definition lines_of (text : str) : list str :=
  let parts := parts_of text in
  if 3 <=? length parts then parts
  else stripped_nonempty (re_split_sentences text).

(** Line 109: the cue for the example note. *)
Definition mentions_example (text : str) : bool :=
  contains (py "example") (lower text) || contains (py "e.g.") (lower text).

Definition format_ollama_answer (raw_text : str) : str :=
  if negb (truthy raw_text) then NO_RESPONSE
  else
    let text := strip raw_text in
    let out := join [LF; LF] (number_from 1 (lines_of text)) in
    let out := if mentions_example text then out ++ EXAMPLE_NOTE else out in
    out ++ SOURCE_FOOTER.

(** ** The reply of the inference server (lines 446-464 and 602-615)

    A response of [requests]: what [resp.json()] returns, [None] when it
    raises, and [resp.text]. *)
Record Response : Type := {
  resp_json : option json;
  resp_text : str
}.

(** [len(v)]: a [TypeError] ([None]) for a value that has no length. *)
Definition py_len (v : json) : option nat :=
  match v with
  | JStr s => Some (length s)
  | JList l => Some (length l)
  | JDict d => Some (length d)
  | _ => None
  end.

(** [v[0]] for a [v] of positive length; a dict decoded from JSON has
    string keys only, so [d[0]] is a [KeyError]. *)
Definition getitem0 (v : json) : option json :=
  match v with
  | JList (x :: _) => Some x
  | JStr (c :: _) => Some (JStr [c])
  | _ => None
  end.

(** [v.get(k, default)]: an [AttributeError] unless [v] is a dict. *)
Definition method_get (v : json) (k : str) (default : json) : option json :=
  match v with
  | JDict d => Some (dict_get d k default)
  | _ => None
  end.

Section Reply.
(** Python's [repr] of a list, which [str(data)] writes for a decoded
    list; it is the interpreter's, not this program's. *)
Variable repr_list : list json -> str.

(** [str(data)] for a decoded value that is no dict. *)
Definition py_str (data : json) : str :=
  match data with
  | JNone => py "None"
  | JBool true => py "True"
  | JBool false => py "False"
  | JInt z => str_of_Z z
  | JFloat r => r
  | JStr s => s
  | JList l => repr_list l
  | JDict _ => []
  end.

(** The body of the inner [try]: [None] when it raises. *)
Definition reply_of_json (data : json) : option json :=
  match data with
  | JDict d =>
      match dict_lookup d (py "message") with
      | Some (JDict m) => Some (dict_get m (py "content") (JStr []))
      | _ =>
          match dict_lookup d (py "choices") with
          | Some choices =>
              match py_len choices with
              | Some n =>
                  if 0 <? n then
                    match getitem0 choices with
                    | Some c0 =>
                        match method_get c0 (py "message") (JDict []) with
                        | Some m => method_get m (py "content") (JStr [])
                        | None => None
                        end
                    | None => None
                    end
                  else Some (JStr (json_dumps data))
              | None => None
              end
          | None => Some (JStr (json_dumps data))
          end
      end
  | _ => Some (JStr (py_str data))
  end.

(** The value bound to [assistant_reply]. *)
Definition assistant_reply (resp : Response) : json :=
  match resp_json resp with
  | Some data =>
      match reply_of_json data with
      | Some v => v
      | None => JStr (resp_text resp)
      end
  | None => JStr (resp_text resp)
  end.

End Reply.

(** ** [TranslatorPopup.check_clipboard] (lines 377-394) *)

Record Popup : Type := {
  last_clip : str;
  ollama_checked : bool      (* self.ollama_checkbox.isChecked() *)
}.

(** What a tick makes the popup do. *)
Inductive action : Type :=
| translate_and_display (text : str)
| setText (display_text : str).

(** One tick: [paste] is the outcome of [pyperclip.paste()]. *)
Definition check_clipboard (st : Popup) (paste : outcome str) : Popup * option action :=
  match paste with
  | Raises _ => (st, None)
  | Returns clip =>
      let text := strip clip in
      if negb (truthy text) then (st, None)
      else if str_eqb text (last_clip st) then (st, None)
      else
        let st' := {| last_clip := text; ollama_checked := ollama_checked st |} in
        if negb (ollama_checked st) then (st', Some (translate_and_display text))
        else (st', Some (setText (py "📋 Copied Text:" ++ [LF] ++ text)))
  end.

(** The timer: the ticks in order, each with what it did. *)
Fixpoint poll (st : Popup) (pastes : list (outcome str)) : list (option action) :=
  match pastes with
  | [] => []
  | p :: rest => let (st', a) := check_clipboard st p in a :: poll st' rest
  end.

(** ** [DocumentQAPopup] (lines 473-621) *)

(** The fields and widgets of the popup that its handlers touch:
    [answer_area] holds the blocks appended so far. *)
Record DocumentQAPopup : Type := {
  current_pdf_key : option str;
  pdf_extracted_text : str;
  status_label : str;
  upload_btn_enabled : bool;
  ask_btn_enabled : bool;
  answer_area : list str
}.

(** Lines 474-534: the popup as [__init__] and [init_ui] leave it. *)
Definition new_popup : DocumentQAPopup :=
  {| current_pdf_key := None;
     pdf_extracted_text := [];
     status_label := py "No document loaded.";
     upload_btn_enabled := true;
     ask_btn_enabled := false;
     answer_area := [] |}.

(** Lines 536-548: [select_file], for the path the dialog returned and
    what [os.path.isfile] says of it; the result holds the path the
    upload thread is started with, if it is. *)
Definition select_file (st : DocumentQAPopup) (file_path : str) (isfile : bool)
  : DocumentQAPopup * option str :=
  if negb (truthy file_path) || negb isfile then
    ({| current_pdf_key := current_pdf_key st;
        pdf_extracted_text := pdf_extracted_text st;
        status_label := py "⚠️ No valid file selected.";
        upload_btn_enabled := upload_btn_enabled st;
        ask_btn_enabled := ask_btn_enabled st;
        answer_area := answer_area st |}, None)
  else
    ({| current_pdf_key := current_pdf_key st;
        pdf_extracted_text := pdf_extracted_text st;
        status_label := py "⏳ Uploading " ++ basename file_path ++ py " ...";
        upload_btn_enabled := false;
        ask_btn_enabled := ask_btn_enabled st;
        answer_area := answer_area st |}, Some file_path).

(** Lines 550-555. *)
Definition on_upload_progress (st : DocumentQAPopup) (msg : str) : DocumentQAPopup :=
  {| current_pdf_key := current_pdf_key st;
     pdf_extracted_text := pdf_extracted_text st;
     status_label := msg;
     upload_btn_enabled := upload_btn_enabled st;
     ask_btn_enabled :=
       if contains (py "Uploaded") msg || contains (py "already exists") msg
       then true else ask_btn_enabled st;
     answer_area := answer_area st |}.

(** Lines 557-568. *)
Definition on_extracted_text (st : DocumentQAPopup) (text s3_key : str) : DocumentQAPopup :=
  {| current_pdf_key := if truthy s3_key then Some s3_key else current_pdf_key st;
     pdf_extracted_text := text;
     status_label := py "✅ PDF loaded for Q&A.";
     upload_btn_enabled := true;
     ask_btn_enabled := true;
     answer_area :=
       answer_area st ++
       [if truthy text then
          let sample := strip (firstn 500 text) in
          py "📄 Extracted text preview:" ++ [LF]
          ++ (if truthy sample then sample else py "—")
        else
          py "⚠️ No extracted text available (PDF might be scanned or extraction failed)."]
  |}.

(** The signals of the upload thread as the popup receives them, in the
    order the thread emitted them; the thread's calls are no signals. *)
Definition deliver (st : DocumentQAPopup) (e : event) : DocumentQAPopup :=
  match e with
  | progress msg => on_upload_progress st msg
  | extracted_text_signal text s3_key => on_extracted_text st text s3_key
  | _ => st
  end.

(** Lines 536-568: a file is selected, the thread runs, and its signals
    are handled. *)
Definition upload_and_handle (cfg : Config) (world : World) (st : DocumentQAPopup)
    (file_path : str) (isfile : bool) : DocumentQAPopup :=
  match select_file st file_path isfile with
  | (st', Some path) => fold_left deliver (run cfg world path) st'
  | (st', None) => st'
  end.

(** [format_ollama_answer(assistant_reply)] for a reply that need not be
    a string: a falsy value is answered like the empty string, and
    [strip] of any other value that is no string is an
    [AttributeError]. *)
Definition format_reply (reply : json) : outcome str :=
  match reply with
  | JStr s => Returns (format_ollama_answer s)
  | _ =>
      if json_truthy reply then
        Raises {| exc_str := py "'" ++ type_name reply
                             ++ py "' object has no attribute 'strip'";
                  exc_traceback := [] |}
      else Returns NO_RESPONSE
  end.

(** Lines 578-584. *)
Definition pdf_system_prompt (pdf_text : str) : str :=
  py "You are an expert assistant. Answer the user's question using ONLY the uploaded PDF text below. "
  ++ py "Provide the answer point-wise, include at least one short example if relevant, and add a 'Reference' line "
  ++ py "at the end mentioning that the answer is derived from the uploaded PDF."
  ++ [LF; LF] ++ py "PDF Text:" ++ [LF] ++ pdf_text.

Section AskQuestion.
Variable repr_list : list json -> str.

(** Lines 570-621: [ask_question], for the text of the question field
    and the outcome of the request, should it be sent.  The result holds
    the system prompt and the question that were sent, if any. *)
Definition ask_question (st : DocumentQAPopup) (question_input : str)
    (post : outcome Response) : DocumentQAPopup * option (str * str) :=
  let append (blocks : list str) :=
    {| current_pdf_key := current_pdf_key st;
       pdf_extracted_text := pdf_extracted_text st;
       status_label := status_label st;
       upload_btn_enabled := upload_btn_enabled st;
       ask_btn_enabled := ask_btn_enabled st;
       answer_area := answer_area st ++ blocks |} in
  let q := strip question_input in
  if negb (truthy q) then (st, None)
  else if negb (truthy (pdf_extracted_text st)) then
    (append [py "⚠️ No PDF text available. Upload a PDF with selectable text or improve extraction."],
     None)
  else
    let you := py "<b><span style='color:#00e676'>You:</span></b> " ++ q in
    let failed (e : exception) := py "⚠️ Ollama request failed: " ++ exc_str e in
    let shown :=
      match post with
      | Raises e => failed e
      | Returns resp =>
          match format_reply (assistant_reply repr_list resp) with
          | Returns formatted =>
              py "<b><span style='color:#81d4fa'>Ollama:</span></b>" ++ [LF]
              ++ formatted ++ [LF; LF] ++ py "🔗 Reference: Based on uploaded PDF file."
          | Raises e => failed e
          end
      end in
    (append [you; shown], Some (pdf_system_prompt (pdf_extracted_text st), q)).

End AskQuestion.

(** ** [TranslatorPopup.ask_ollama] (lines 408-470) *)

(** Lines 424-428. *)
Definition copied_system_prompt (target_lang selected_text : str) : str :=
  py "You are an AI assistant. Answer the user's question using ONLY the copied text below. "
  ++ py "Always respond in " ++ target_lang ++ py "." ++ [LF; LF]
  ++ py "Copied text:" ++ [LF] ++ selected_text.

Section AskOllama.
Variable repr_list : list json -> str.

(** [ask_ollama], for the text of the input box, the language chosen,
    the score [fuzz.token_set_ratio(msg, selected_text)] ([None] when
    [HAS_FUZZY] is false) and the outcome of the request, should it be
    sent.  The result holds the blocks appended to the text area and the
    system prompt and the question that were sent, if any. *)
Definition ask_ollama (st : Popup) (input_box target_lang : str) (score : option nat)
    (post : outcome Response) : list str * option (str * str) :=
  let msg := strip input_box in
  if negb (truthy msg) then ([], None)
  else
    let selected_text := last_clip st in
    if negb (truthy selected_text) then
      ([py "⚠️ No copied text to ask about. Copy some text and try again."], None)
    else
      let warning :=
        match score with
        | Some n =>
            if n <? 50 then
              [py "⚠️ Your question may not align closely with the copied text — answer will still use the copied content."]
            else []
        | None => []
        end in
      let you := py "<b><span style='color:#00e676'>You:</span></b> " ++ msg in
      let failed (e : exception) := py "⚠️ Ollama request failed: " ++ exc_str e in
      let shown :=
        match post with
        | Raises e => failed e
        | Returns resp =>
            match format_reply (assistant_reply repr_list resp) with
            | Returns formatted =>
                py "<b><span style='color:#4fc3f7'>Ollama:</span></b>" ++ [LF] ++ formatted
            | Raises e => failed e
            end
        end in
      (warning ++ [you; shown], Some (copied_system_prompt target_lang selected_text, msg)).

End AskOllama.

End Finalbot.

(* ===================================================================== *)
(** * src/app.py *)
(* ===================================================================== *)

Module App.
Import Py Trace.
Local Open Scope run_scope.

(** ** Configuration: [os.getenv] with defaults, so always strings *)
Record Config : Type := {
  AWS_BUCKET_NAME : str;
  AWS_EXTRACT_BUCKET : str;
  OLLAMA_URL : str;
  polly_client : bool      (* whether [create_polly_client()] returned a client *)
}.

(** ** The web server *)

(** The calls a request handler makes.  [print] writes to the console
    and is left out. *)
Inductive event : Type :=
| requests_post (url prompt : str)
| describe_voices
| synthesize_speech (Text VoiceId Engine : str).

(** A response of the inference server. *)
Record HttpResponse : Type := {
  status_code : nat;
  json_outcome : outcome json      (* [response.json()] *)
}.

(** What the environment answers while one request is handled:
    [voices] lists [(Id, LanguageCode)]; an audio stream is what its
    successive [read(1024)] do, each returning bytes or raising. *)
Record World : Type := {
  requests_post_outcome : outcome HttpResponse;
  describe_voices_outcome : outcome (list (str * str));
  synthesize_speech_outcome : outcome (list (outcome (list N)))
}.

(** A [flask.Response]: its status, its mimetype and its body.  The body
    of an audio response is a generator that runs while the response is
    sent, after the handler has returned: [chunks] are what it yields,
    and [broken] is the exception that ends it when a read raises. *)
Inductive body : Type :=
| Text (chunks : list str)
| Audio (chunks : list (list N)) (broken : option exception).

Record FlaskResponse : Type := {
  status : nat;
  mimetype : str;
  response_body : body
}.

Definition error_response (message : str) (code : nat) : FlaskResponse :=
  {| status := code; mimetype := py "text/html"; response_body := Text [message] |}.

(** ** The body of a request

    [request.get_json()] returns the decoded body, whatever JSON value it
    is, or raises for a body that is not JSON; the handlers read it
    outside any [try]. *)

(** [AttributeError] for [v.name]. *)
Definition AttributeError (v : json) (name : str) : exception :=
  {| exc_str := py "'" ++ type_name v ++ py "' object has no attribute '"
                ++ name ++ py "'";
     exc_traceback := [] |}.

(** [data.get(key, default)] *)
Definition get (data : json) (key : str) (default : json) : outcome json :=
  match data with
  | JDict d => Returns (dict_get d key default)
  | _ => Raises (AttributeError data (py "get"))
  end.

(** [v.strip()] *)
Definition strip_value (v : json) : outcome str :=
  match v with
  | JStr s => Returns (strip s)
  | _ => Raises (AttributeError v (py "strip"))
  end.

Section Server.
Variable cfg : Config.
Variable world : World.
(** Python's [str] of a value that is no string, which an f-string
    writes for it; it is the interpreter's, not this program's. *)
Variable py_str : json -> str.

(** [f"{v}"] *)
Definition fmt (v : json) : str :=
  match v with
  | JStr s => s
  | _ => py_str v
  end.

(** Lines 106-120.  [context] and [language] are what the caller
    passes: strings from the window, any value of the body from a
    request. *)
Definition prompt_of (question : str) (context language : json) : str :=
  if json_truthy context then
    py "You are an expert document analyst. Answer based ONLY on the document below."
    ++ [LF; LF] ++ py "DOCUMENT:" ++ [LF] ++ fmt context ++ [LF; LF]
    ++ py "USER QUESTION: " ++ question ++ [LF; LF]
    ++ py "Provide a detailed answer in " ++ fmt language
    ++ py " with clear points. If the answer isn't in the document, say so."
  else
    py "Answer this question clearly in " ++ fmt language ++ py ":" ++ [LF; LF]
    ++ question ++ [LF; LF]
    ++ py "Provide a comprehensive answer with examples.".

(** Lines 129-131: the answer as it is stored and returned. *)
Definition normalize (response_field : str) : str :=
  let answer := strip response_field in
  let answer := replace [LF] [SP] (replace [BACKSLASH; 110%N] [SP] answer) in
  join [SP] (split_ws answer).

(** [response.json().get("response", "").strip()]: an [AttributeError]
    ([None]) unless the body is a dict and the field a string. *)
Definition response_field (data : json) : option str :=
  match data with
  | JDict d =>
      match dict_get d (py "response") (JStr []) with
      | JStr s => Some s
      | _ => None
      end
  | _ => None
  end.

(** Lines 103-137.  The state is the global [latest_answer]; the result
    is the answer, [None] for Python's [None], with the new state. *)
Definition get_ollama_response (latest_answer question : str) (context language : json)
  : M event (option str * str) :=
  try_except
    (response <- call (requests_post (OLLAMA_URL cfg ++ py "/api/generate")
                                     (prompt_of question context language))
                      (requests_post_outcome world) ;;
     if status_code response =? 200 then
       data <- lift (json_outcome response) ;;
       match response_field data with
       | Some field =>
           let answer := normalize field in
           ret (Some answer, answer)
       | None => ret (None, latest_answer)
       end
     else ret (None, latest_answer))
    (fun _ => ret (None, latest_answer)).

(** Lines 153-158: the chunks [generate()] yields. *)
Fixpoint generate_from (i n : nat) (words : list str) : list str :=
  match words with
  | [] => []
  | word :: rest =>
      (word ++ (if i <? n - 1 then [SP] else [])) :: generate_from (S i) n rest
  end.

Definition generate (answer : str) : list str :=
  let words := split [SP] answer in
  generate_from 0 (length words) words.

(** Lines 139-160: [POST /api/ask-stream], for what [request.get_json()]
    does.  A handler that raises has not touched [latest_answer]. *)
Definition stream_text (latest_answer : str) (get_json : outcome json)
  : M event (FlaskResponse * str) :=
  data <- lift get_json ;;
  question <- lift (get data (py "question") (JStr [])) ;;
  question <- lift (strip_value question) ;;
  context <- lift (get data (py "context") (JStr [])) ;;
  language <- lift (get data (py "language") (JStr (py "english"))) ;;
  if negb (truthy question) then
    ret (error_response (py "Please enter a question") 400, latest_answer)
  else
    r <- get_ollama_response latest_answer question context language ;;
    let (answer, latest_answer') := r in
    match answer with
    | Some a =>
        if truthy a then
          ret ({| status := 200; mimetype := py "text/plain";
                  response_body := Text (generate a) |}, latest_answer')
        else ret (error_response (py "Failed to get response") 500, latest_answer')
    | None => ret (error_response (py "Failed to get response") 500, latest_answer')
    end.

(** Lines 91-101: [get_best_voice()].  The last [return] indexes
    [voices[0]] before it tests [voices], so an empty list raises and
    ends in [(None, None)]. *)
Fixpoint first_en_IN (voices : list (str * str)) : option str :=
  match voices with
  | [] => None
  | (id, code) :: rest =>
      if str_eqb code (py "en-IN") then Some id else first_en_IN rest
  end.

Definition get_best_voice : M event (option str * option str) :=
  if negb (polly_client cfg) then ret (None, None)
  else
    try_except
      (voices <- call describe_voices (describe_voices_outcome world) ;;
       match first_en_IN voices with
       | Some id => ret (Some id, Some (py "neural"))
       | None =>
           match voices with
           | (id, _) :: _ => ret (Some id, Some (py "neural"))
           | [] => ret (None, None)
           end
       end)
      (fun _ => ret (None, None)).

(** Lines 186-190: the generator yields the chunks read until one is
    empty, and ends with the exception of a read that raises.  [reads]
    are the reads up to the end of the stream; a read after them returns
    no bytes. *)
Fixpoint read_chunks (reads : list (outcome (list N))) : list (list N) * option exception :=
  match reads with
  | [] => ([], None)
  | Raises e :: _ => ([], Some e)
  | Returns [] :: _ => ([], None)
  | Returns chunk :: rest =>
      let (chunks, broken) := read_chunks rest in (chunk :: chunks, broken)
  end.

(** Lines 174-195: the voice is chosen and [answer] is spoken.  The
    [try] covers the call of [synthesize_speech] only: the reads of the
    audio stream belong to the body of the response. *)
Definition speak (answer latest_answer : str) : M event (FlaskResponse * str) :=
  v <- get_best_voice ;;
  match v with
  | (Some voice_id, Some engine) =>
      if negb (truthy voice_id) then
        ret (error_response (py "No voice available") 500, latest_answer)
      else
        try_except
          (reads <- call (synthesize_speech answer voice_id engine)
                         (synthesize_speech_outcome world) ;;
           let (chunks, broken) := read_chunks reads in
           ret ({| status := 200; mimetype := py "audio/mpeg";
                   response_body := Audio chunks broken |}, latest_answer))
          (fun _ => ret (error_response (py "Audio generation failed") 500,
                         latest_answer))
  | _ => ret (error_response (py "No voice available") 500, latest_answer)
  end.

(** Lines 162-195: [POST /api/ask-audio-stream], for what
    [request.get_json()] does. *)
Definition stream_audio (latest_answer : str) (get_json : outcome json)
  : M event (FlaskResponse * str) :=
  data <- lift get_json ;;
  question <- lift (get data (py "question") (JStr [])) ;;
  question <- lift (strip_value question) ;;
  if negb (truthy question) || negb (polly_client cfg) then
    ret (error_response (py "Audio not available") 500, latest_answer)
  else
    r <- (if truthy latest_answer then ret (Some latest_answer, latest_answer)
          else get_ollama_response latest_answer question (JStr [])
                                   (JStr (py "english"))) ;;
    let (answer, latest_answer') := r in
    match answer with
    | Some a =>
        if truthy a then speak a latest_answer'
        else ret (error_response (py "Failed to generate audio") 500, latest_answer')
    | None => ret (error_response (py "Failed to generate audio") 500, latest_answer')
    end.

End Server.

(** ** [UploadThread] (lines 371-407) *)

(** The thread's two signals, the second with the text alone, and its
    calls to PyPDF2 and S3. *)
Inductive upload_event : Type :=
| progress (msg : str)
| extracted_text (text : str)
| PdfReader (path : str)
| upload_file (Filename Bucket Key : str)
| put_object (Bucket Key Body : str).

Record UploadWorld : Type := {
  PdfReader_outcome : outcome (list (outcome (option str)));
  upload_file_outcome : outcome unit;
  put_object_outcome : outcome unit
}.

Section UploadThread.
Variable cfg : Config.
Variable world : UploadWorld.

(** Lines 392-393: the loop over the pages. *)
Fixpoint read_pages (pages : list (outcome (option str))) (text : str)
  : M upload_event str :=
  match pages with
  | [] => ret text
  | p :: rest =>
      page_text <- lift p ;;
      read_pages rest (text ++ Finalbot.or_empty page_text ++ [LF; LF])
  end.

(** Lines 390-393: the extraction, inside no [try] of its own. *)
Definition extract (file_path : str) : M upload_event str :=
  pages <- call (PdfReader file_path) (PdfReader_outcome world) ;;
  read_pages pages [].

(** Lines 396-403: the upload and, inside it, the store of the text. *)
Definition upload (file_path filename text : str) : M upload_event unit :=
  if truthy (AWS_BUCKET_NAME cfg) then
    call (upload_file file_path (AWS_BUCKET_NAME cfg) filename)
         (upload_file_outcome world) ;;
    emit (progress (py "✅ Uploaded: " ++ filename)) ;;
    if truthy text && truthy (AWS_EXTRACT_BUCKET cfg) then
      let key := stem filename ++ py ".txt" in
      call (put_object (AWS_EXTRACT_BUCKET cfg) key text) (put_object_outcome world) ;;
      emit (progress (py "✅ Extracted text saved"))
    else ret tt
  else ret tt.

(** Lines 385-407: [UploadThread.run]. *)
Definition run_body (file_path : str) : M upload_event unit :=
  try_except
    (let filename := basename file_path in
     text <- extract file_path ;;
     upload file_path filename text ;;
     emit (extracted_text text))
    (fun e => emit (progress (py "❌ Error: " ++ exc_str e))).

Definition run (file_path : str) : list upload_event := trace (run_body file_path).

End UploadThread.

(** ** [AIAssistant.check_clipboard] (lines 552-561) *)

(** One tick.  [HAS_PYPERCLIP] says whether the module was imported;
    the result is the new [last_clip] and the text handed to
    [translate_text], if any. *)
Definition check_clipboard (HAS_PYPERCLIP : bool) (last_clip : str)
    (paste : outcome str) : str * option str :=
  if negb HAS_PYPERCLIP then (last_clip, None)
  else
    match paste with
    | Raises _ => (last_clip, None)
    | Returns clip =>
        let text := strip clip in
        if truthy text && negb (str_eqb text last_clip) then (text, Some text)
        else (last_clip, None)
    end.

Fixpoint poll (HAS_PYPERCLIP : bool) (last_clip : str) (pastes : list (outcome str))
  : list (option str) :=
  match pastes with
  | [] => []
  | p :: rest =>
      let (last_clip', a) := check_clipboard HAS_PYPERCLIP last_clip p in
      a :: poll HAS_PYPERCLIP last_clip' rest
  end.

(** ** [AIAssistant.on_pdf_loaded] and [AIAssistant.ask_question]
    (lines 584-607) *)

(** The fields of the window that the two handlers touch: [text_area]
    holds the blocks appended so far. *)
Record AIAssistant : Type := {
  pdf_text : str;
  last_clip : str;
  text_area : list str
}.

(** Lines 453-461: the window as [__init__] leaves it. *)
Definition new_assistant : AIAssistant :=
  {| pdf_text := []; last_clip := []; text_area := [] |}.

Definition append (st : AIAssistant) (block : str) : AIAssistant :=
  {| pdf_text := pdf_text st; last_clip := last_clip st;
     text_area := text_area st ++ [block] |}.

(** Lines 584-586. *)
Definition on_pdf_loaded (st : AIAssistant) (text : str) : AIAssistant :=
  append {| pdf_text := text; last_clip := last_clip st; text_area := text_area st |}
         ([LF] ++ py "✅ PDF loaded! Ask questions about it.").

(** Lines 588-607: [ask_question], for the text of the input field and
    the language chosen.  The state is the window and the global
    [latest_answer], which [get_ollama_response] assigns. *)
Definition ask_question (cfg : Config) (world : World) (py_str : json -> str)
    (st : AIAssistant) (latest_answer input_field language : str)
  : M event (AIAssistant * str) :=
  let question := strip input_field in
  if negb (truthy question) then ret (st, latest_answer)
  else
    let st := append st ([LF; LF] ++ py "<b>You:</b> " ++ question) in
    let context := if truthy (pdf_text st) then pdf_text st else last_clip st in
    try_except
      (r <- get_ollama_response cfg world py_str latest_answer question
                                (JStr context) (JStr language) ;;
       let (answer, latest_answer') := r in
       match answer with
       | Some a =>
           if truthy a then ret (append st (py "<b>AI:</b> " ++ a), latest_answer')
           else ret (append st (py "⚠️  Failed to get response"), latest_answer')
       | None => ret (append st (py "⚠️  Failed to get response"), latest_answer')
       end)
      (fun e => ret (append st (py "❌ Error: " ++ exc_str e), latest_answer)).

End App.

(* ===================================================================== *)
(** * src/extractdata.py *)
(* ===================================================================== *)

Module Extractdata.
Import Py Trace.
Local Open Scope run_scope.

(** The lines the handler prints once it has read the bucket and the key
    off the event, and its calls to S3 and PyPDF2. *)
Inductive event : Type :=
| print (line : str)
| get_object (Bucket Key : str)
| PdfReader
| put_object (Bucket Key Body : str).

(** [s3_object['Body'].read()] and the reader made of it are one call
    here; a page is the outcome of its [extract_text()]. *)
Record World : Type := {
  get_object_outcome : outcome unit;
  PdfReader_outcome : outcome (list (outcome (option str)));
  put_object_outcome : outcome unit
}.

(** What the handler returns: [statusCode] and [body]. *)
Record Result : Type := {
  statusCode : nat;
  body : str
}.

Definition destination_bucket : str := py "extractpdf202".

Section Handler.
Variable world : World.

(** Lines 25-28: the loop, page [i] counted from 0; no separator is put
    between the pages. *)
Fixpoint read_pages (i : nat) (pages : list (outcome (option str))) (extracted_text : str)
  : M event str :=
  match pages with
  | [] => ret extracted_text
  | p :: rest =>
      page_text <- lift p ;;
      emit (print (py "📖 Extracted page " ++ str_of_nat (i + 1))) ;;
      read_pages (S i) rest (extracted_text ++ Finalbot.or_empty page_text)
  end.

(** Lines 16-46, for the bucket and key of [event['Records'][0]]. *)
Definition lambda_handler (source_bucket object_key : str) : M event Result :=
  emit (print (py "📂 Source bucket: " ++ source_bucket ++ py ", Key: " ++ object_key)) ;;
  try_except
    (call (get_object source_bucket object_key) (get_object_outcome world) ;;
     emit (print (py "📥 PDF downloaded successfully")) ;;
     pages <- call PdfReader (PdfReader_outcome world) ;;
     extracted_text <- read_pages 0 pages [] ;;
     let output_key := replace (py ".pdf") (py ".txt") object_key in
     call (put_object destination_bucket output_key extracted_text)
          (put_object_outcome world) ;;
     emit (print (py "✅ Extracted text uploaded as " ++ output_key ++ py " to "
                  ++ destination_bucket)) ;;
     ret {| statusCode := 200;
            body := py "Extracted text from " ++ object_key ++ py " and saved to "
                    ++ destination_bucket ++ py "/" ++ output_key |})
    (fun e =>
       emit (print (py "❌ Error: " ++ exc_str e)) ;;
       raise e).

End Handler.

End Extractdata.

(* ===================================================================== *)
(** * What a run is observed by, and the scenarios used below *)
(* ===================================================================== *)

Import Py Trace.

(** The texts of the pages in order, each followed by a blank line. *)
Definition pages_text (pages : list (option str)) : str :=
  flat_map (fun t => Finalbot.or_empty t ++ [LF; LF]) pages.

(** The PDF of the end-to-end scenario: [Hello] on page 1, nothing on
    page 2. *)
Definition notes_pages : list (option str) := [Some (py "Hello"); None].

Definition notes_world : Finalbot.World :=
  {| Finalbot.list_objects_v2_outcome := Returns None;
     Finalbot.upload_file_outcome := Returns tt;
     Finalbot.PdfReader_outcome := Returns (map Returns notes_pages);
     Finalbot.put_object_outcome := Returns tt |}.

Definition notes_upload_world : App.UploadWorld :=
  {| App.PdfReader_outcome := Returns (map Returns notes_pages);
     App.upload_file_outcome := Returns tt;
     App.put_object_outcome := Returns tt |}.


(** What reading a PDF comes to, apart from the events: the text of the
    pages when every page could be read, the first exception raised
    otherwise ([text] is what was read before). *)
Fixpoint pages_outcome (pages : list (outcome (option str))) (text : str) : outcome str :=
  match pages with
  | [] => Returns text
  | Returns t :: rest => pages_outcome rest (text ++ Finalbot.or_empty t ++ [LF; LF])
  | Raises e :: _ => Raises e
  end.

Definition pdf_outcome (reader : outcome (list (outcome (option str)))) : outcome str :=
  match reader with
  | Returns pages => pages_outcome pages []
  | Raises e => Raises e
  end.

(** The text a run of [Finalbot] goes on with after the extraction
    step: empty when the reading raised. *)
Definition extracted (w : Finalbot.World) : str :=
  match pdf_outcome (Finalbot.PdfReader_outcome w) with
  | Returns text => text
  | Raises _ => []
  end.

(** The same for the Lambda handler, which puts nothing between pages. *)
Fixpoint lambda_pages_outcome (pages : list (outcome (option str))) (text : str)
  : outcome str :=
  match pages with
  | [] => Returns text
  | Returns t :: rest => lambda_pages_outcome rest (text ++ Finalbot.or_empty t)
  | Raises e :: _ => Raises e
  end.

Definition lambda_pdf_outcome (reader : outcome (list (outcome (option str))))
  : outcome str :=
  match reader with
  | Returns pages => lambda_pages_outcome pages []
  | Raises e => Raises e
  end.

(** Whether the listing of a run shows [filename] among its keys. *)
Definition listed_as_duplicate (w : Finalbot.World) (filename : str) : bool :=
  match Finalbot.list_objects_v2_outcome w with
  | Returns (Some keys) => Finalbot.key_listed filename keys
  | _ => false
  end.

(** The events of one kind in a trace of [Finalbot.run]. *)
Module FinalbotTrace.
Import Finalbot.

Definition uploads (tr : list event) : list (str * option str * str) :=
  flat_map (fun e => match e with upload_file f b k => [(f, b, k)] | _ => [] end) tr.

Definition pdfs_read (tr : list event) : list str :=
  flat_map (fun e => match e with PdfReader f => [f] | _ => [] end) tr.

Definition stores (tr : list event) : list (str * str * str) :=
  flat_map (fun e => match e with put_object b k body => [(b, k, body)] | _ => [] end) tr.

Definition notifications (tr : list event) : list (str * str) :=
  flat_map (fun e => match e with extracted_text_signal t k => [(t, k)] | _ => [] end) tr.

Definition messages (tr : list event) : list str :=
  flat_map (fun e => match e with progress m => [m] | _ => [] end) tr.

End FinalbotTrace.

(** The events of one kind in a trace of [App.run]. *)
Module AppTrace.
Import App.

Definition uploads (tr : list upload_event) : list (str * str * str) :=
  flat_map (fun e => match e with upload_file f b k => [(f, b, k)] | _ => [] end) tr.

Definition pdfs_read (tr : list upload_event) : list str :=
  flat_map (fun e => match e with PdfReader f => [f] | _ => [] end) tr.

Definition stores (tr : list upload_event) : list (str * str * str) :=
  flat_map (fun e => match e with put_object b k body => [(b, k, body)] | _ => [] end) tr.

Definition notifications (tr : list upload_event) : list str :=
  flat_map (fun e => match e with extracted_text t => [t] | _ => [] end) tr.

Definition messages (tr : list upload_event) : list str :=
  flat_map (fun e => match e with progress m => [m] | _ => [] end) tr.

End AppTrace.

(** The messages of [Finalbot.run], as the source formats them. *)
Definition skipped_message (cfg : Finalbot.Config) (filename : str) : str :=
  py "⚠️ File '" ++ filename ++ py "' already exists in "
  ++ fmt_opt (Finalbot.AWS_BUCKET_NAME cfg) ++ py ". Skipping upload.".

Definition thread_error_message (e : exception) : str :=
  py "⚠️ UploadThread error: " ++ exc_str e ++ [LF] ++ exc_traceback e.

Definition uploaded_message (cfg : Finalbot.Config) (filename : str) : str :=
  py "✅ Uploaded '" ++ filename ++ py "' → s3://"
  ++ fmt_opt (Finalbot.AWS_BUCKET_NAME cfg) ++ py "/" ++ filename.

Definition extraction_failed_message (e : exception) : str :=
  py "⚠️ PDF extraction failed: " ++ exc_str e.

(** The key the extracted text is stored under. *)
Definition text_key (filename : str) : str := stem filename ++ py ".txt".

(** Scenarios: the upload is refused for want of credentials; the file
    is no PDF. *)
Definition no_credentials : exception :=
  {| exc_str := py "Unable to locate credentials";
     exc_traceback := py "Traceback (most recent call last): ..." |}.

Definition not_a_pdf : exception :=
  {| exc_str := py "EOF marker not found";
     exc_traceback := py "Traceback (most recent call last): ..." |}.

Definition both_buckets : Finalbot.Config :=
  {| Finalbot.AWS_BUCKET_NAME := Some (py "uploadpdf2025");
     Finalbot.AWS_EXTRACT_BUCKET := Some (py "extractpdf202") |}.

Definition app_config : App.Config :=
  {| App.AWS_BUCKET_NAME := py "ai-assistant-docs";
     App.AWS_EXTRACT_BUCKET := py "ai-assistant-extracts";
     App.OLLAMA_URL := py "http://127.0.0.1:11434";
     App.polly_client := true |}.

(** No primary bucket is configured. *)
Definition no_primary_bucket : App.Config :=
  {| App.AWS_BUCKET_NAME := [];
     App.AWS_EXTRACT_BUCKET := py "ai-assistant-extracts";
     App.OLLAMA_URL := py "http://127.0.0.1:11434";
     App.polly_client := true |}.

Definition upload_refused : Finalbot.World :=
  {| Finalbot.list_objects_v2_outcome := Returns None;
     Finalbot.upload_file_outcome := Raises no_credentials;
     Finalbot.PdfReader_outcome := Returns (map Returns notes_pages);
     Finalbot.put_object_outcome := Returns tt |}.

Definition app_upload_refused : App.UploadWorld :=
  {| App.PdfReader_outcome := Returns (map Returns notes_pages);
     App.upload_file_outcome := Raises no_credentials;
     App.put_object_outcome := Returns tt |}.

Definition already_uploaded : Finalbot.World :=
  {| Finalbot.list_objects_v2_outcome := Returns (Some [py "notes.pdf"; py "notes.pdf.bak"]);
     Finalbot.upload_file_outcome := Returns tt;
     Finalbot.PdfReader_outcome := Returns (map Returns notes_pages);
     Finalbot.put_object_outcome := Returns tt |}.

Definition broken_pdf : Finalbot.World :=
  {| Finalbot.list_objects_v2_outcome := Returns None;
     Finalbot.upload_file_outcome := Returns tt;
     Finalbot.PdfReader_outcome := Raises not_a_pdf;
     Finalbot.put_object_outcome := Returns tt |}.

Definition app_broken_pdf : App.UploadWorld :=
  {| App.PdfReader_outcome := Raises not_a_pdf;
     App.upload_file_outcome := Returns tt;
     App.put_object_outcome := Returns tt |}.

Definition lambda_broken_pdf : Extractdata.World :=
  {| Extractdata.get_object_outcome := Returns tt;
     Extractdata.PdfReader_outcome := Raises not_a_pdf;
     Extractdata.put_object_outcome := Returns tt |}.

(** ** The reply of the inference server, in the words of the spec

    The reply is the first of these that yields a value: the nested
    [message.content], then [choices[0].message.content], then the raw
    body of the response as text. *)
Definition field (v : json) (k : str) : option json :=
  match v with
  | JDict d => dict_lookup d k
  | _ => None
  end.

Definition message_content (data : json) : option json :=
  match field data (py "message") with
  | Some m => field m (py "content")
  | None => None
  end.

Definition choices_message_content (data : json) : option json :=
  match field data (py "choices") with
  | Some (JList (c0 :: _)) =>
      match field c0 (py "message") with
      | Some m => field m (py "content")
      | None => None
      end
  | _ => None
  end.

Definition reply_as_specified (resp : Finalbot.Response) : json :=
  match Finalbot.resp_json resp with
  | Some data =>
      match message_content data with
      | Some v => v
      | None =>
          match choices_message_content data with
          | Some v => v
          | None => JStr (Finalbot.resp_text resp)
          end
      end
  | None => JStr (Finalbot.resp_text resp)
  end.

(** A string between double quotes, as a body writes it. *)
Definition quoted (s : str) : str := [QUOTE] ++ s ++ [QUOTE].

(** Scenarios: the server answers a chat; the server does not know the
    model and says so in an [error] field; the server sends a [message]
    without [content] beside [choices]. *)
Definition chat_answer : Finalbot.Response :=
  {| Finalbot.resp_json :=
       Some (JDict [(py "model", JStr (py "llama3.2"));
                    (py "message", JDict [(py "role", JStr (py "assistant"));
                                          (py "content", JStr (py "Hi"))])]);
     Finalbot.resp_text :=
       py "{" ++ quoted (py "model") ++ py ":" ++ quoted (py "llama3.2") ++ py ","
       ++ quoted (py "message") ++ py ":{" ++ quoted (py "role") ++ py ":"
       ++ quoted (py "assistant") ++ py "," ++ quoted (py "content") ++ py ":"
       ++ quoted (py "Hi") ++ py "}}" |}.

Definition model_not_found : Finalbot.Response :=
  {| Finalbot.resp_json := Some (JDict [(py "error", JStr (py "model not found"))]);
     Finalbot.resp_text :=
       py "{" ++ quoted (py "error") ++ py ":" ++ quoted (py "model not found") ++ py "}" |}.

Definition message_without_content : Finalbot.Response :=
  {| Finalbot.resp_json :=
       Some (JDict [(py "message", JDict [(py "role", JStr (py "assistant"))]);
                    (py "choices",
                     JList [JDict [(py "message", JDict [(py "content", JStr (py "Hi"))])]])]);
     Finalbot.resp_text :=
       py "{" ++ quoted (py "message") ++ py ":{" ++ quoted (py "role") ++ py ":"
       ++ quoted (py "assistant") ++ py "}," ++ quoted (py "choices") ++ py ":[{"
       ++ quoted (py "message") ++ py ":{" ++ quoted (py "content") ++ py ":"
       ++ quoted (py "Hi") ++ py "}}]}" |}.

(** ** The clipboard poll *)



Definition translator_mode (last : str) : Finalbot.Popup :=
  {| Finalbot.last_clip := last; Finalbot.ollama_checked := false |}.

(** ** Normalized answers *)

(** A word: not empty, and free of whitespace. *)
Definition word (w : str) : Prop :=
  w <> [] /\ forall c, In c w -> isspace c = false.

(** Words with one space between each two. *)
Inductive spaced : str -> Prop :=
| spaced_one (w : str) : word w -> spaced w
| spaced_more (w r : str) : word w -> spaced r -> spaced (w ++ SP :: r).

(** Text with no newline in it, and no whitespace but single spaces
    between words: none in front, none at the end, no two in a row. *)
Definition single_spaced (a : str) : Prop :=
  ~ In LF a
  /\ (forall c, In c a -> isspace c = true -> c = SP)
  /\ (forall r, a <> SP :: r)
  /\ (forall l, a <> l ++ [SP])
  /\ (forall l r, a <> l ++ SP :: SP :: r).

(** ** The web server *)

(** The answer an inference call comes to: the normalized [response]
    field of a 200 response whose body decodes to an object with a string
    there, nothing otherwise. *)
Definition answer_of (w : App.World) : option str :=
  match App.requests_post_outcome w with
  | Returns r =>
      if App.status_code r =? 200 then
        match App.json_outcome r with
        | Returns data => option_map App.normalize (App.response_field data)
        | Raises _ => None
        end
      else None
  | Raises _ => None
  end.

(** The voice [get_best_voice] settles on: the first [en-IN] voice, else
    the first voice. *)
Definition best_voice (voices : list (str * str)) : option str :=
  match App.first_en_IN voices with
  | Some id => Some id
  | None => match voices with (id, _) :: _ => Some id | [] => None end
  end.

(** The events of one kind in the trace of a request handler. *)
Module ServerTrace.
Import App.



End ServerTrace.

(** Scenarios: the model answers on several lines; Polly offers two
    voices and an audio stream of two chunks. *)
Definition two_line_answer : App.World :=
  {| App.requests_post_outcome :=
       Returns {| App.status_code := 200;
                  App.json_outcome :=
                    Returns (JDict [(py "model", JStr (py "deepseek-r1"));
                                    (py "response",
                                     JStr (py "  Tea is hot." ++ [LF; LF]
                                           ++ py "Ice   is cold. " ++ [LF]))]) |};
     App.describe_voices_outcome :=
       Returns [(py "Joanna", py "en-US"); (py "Kajal", py "en-IN")];
     App.synthesize_speech_outcome :=
       Returns [Returns [73; 68; 51]%N; Returns [255; 251]%N; Returns []] |}.

(** What [request.get_json()] gives for two requests. *)
Definition ask_tea : outcome json :=
  Returns (JDict [(py "question", JStr (py " Is tea hot? "))]).

Definition ask_coffee : outcome json :=
  Returns (JDict [(py "question", JStr (py "What about coffee?"));
                  (py "language", JStr [])]).

(** In the scenarios no value of a body needs Python's [str]. *)
Definition no_str (v : json) : str := [].

(** ** More scenarios *)

(** A world that differs from [w] in the outcome of the listing only. *)
Definition with_listing (w : Finalbot.World) (o : outcome (option (list str)))
  : Finalbot.World :=
  {| Finalbot.list_objects_v2_outcome := o;
     Finalbot.upload_file_outcome := Finalbot.upload_file_outcome w;
     Finalbot.PdfReader_outcome := Finalbot.PdfReader_outcome w;
     Finalbot.put_object_outcome := Finalbot.put_object_outcome w |}.

Definition access_denied : exception :=
  {| exc_str := py "An error occurred (AccessDenied) when calling the ListObjectsV2 operation";
     exc_traceback := py "Traceback (most recent call last): ..." |}.

Definition listing_denied : Finalbot.World := with_listing notes_world (Raises access_denied).

(** A scanned PDF: two pages, no text on either. *)
Definition scanned_pdf : Finalbot.World :=
  {| Finalbot.list_objects_v2_outcome := Returns None;
     Finalbot.upload_file_outcome := Returns tt;
     Finalbot.PdfReader_outcome := Returns [Returns None; Returns (Some [])];
     Finalbot.put_object_outcome := Returns tt |}.

(** The popup while an upload is under way: the button is disabled. *)
Definition uploading_popup : Finalbot.DocumentQAPopup :=
  fst (Finalbot.select_file Finalbot.new_popup (py "/home/user/notes.pdf") true).

(** The answer an audio request speaks: the stored one when there is
    one, else the one its own inference call comes to. *)
Definition audio_answer (latest : str) (w : App.World) : option str :=
  if truthy latest then Some latest else answer_of w.

(** What an audio request needs to succeed: a question, a Polly client,
    an answer that is not empty, a voice with a name, and a synthesis that
    returns. *)
Definition audio_ok (cfg : App.Config) (w : App.World) (latest question : str) : bool :=
  truthy question
  && App.polly_client cfg
  && match audio_answer latest w with Some a => truthy a | None => false end
  && match App.describe_voices_outcome w with
     | Returns voices =>
         match best_voice voices with Some id => truthy id | None => false end
     | Raises _ => false
     end
  && returned (App.synthesize_speech_outcome w).

(** The objects the Lambda handler puts, as its trace shows them. *)
Definition lambda_stores (tr : list Extractdata.event) : list (str * str * str) :=
  flat_map (fun e => match e with
                     | Extractdata.put_object b k body => [(b, k, body)]
                     | _ => []
                     end) tr.

Definition lambda_notes : Extractdata.World :=
  {| Extractdata.get_object_outcome := Returns tt;
     Extractdata.PdfReader_outcome := Returns (map Returns notes_pages);
     Extractdata.put_object_outcome := Returns tt |}.

(** The characters of a text that are not whitespace, in their order. *)
Definition ink (s : str) : str := filter (fun c => negb (isspace c)) s.

(** A line as [format_ollama_answer] numbers it: not empty, and with no
    whitespace at either end. *)
Definition trimmed (ln : str) : Prop := ln <> [] /\ strip ln = ln.

(** The text a question typed in the window of app.py is asked about. *)
Definition gui_context (st : App.AIAssistant) : str :=
  if truthy (App.pdf_text st) then App.pdf_text st else App.last_clip st.

Definition FAILED_TO_GET_RESPONSE : str := py "⚠️  Failed to get response".

(** The translator popup after the ticks of its timer. *)
Definition after_ticks (st : Finalbot.Popup) (pastes : list (outcome str)) : Finalbot.Popup :=
  fold_left (fun s p => fst (Finalbot.check_clipboard s p)) pastes st.

(** The last text read from the clipboard that was not blank, stripped;
    [init] when there was none. *)
Definition latest_copied (init : str) (pastes : list (outcome str)) : str :=
  fold_left (fun acc p =>
               match p with
               | Returns clip => if truthy (strip clip) then strip clip else acc
               | Raises _ => acc
               end) pastes init.

(** ** Requests one after the other *)

(** The body of an audio response in terms of the reads of the stream:
    the chunks before the first read that is empty or raises, broken off
    in the second case. *)
Inductive audio_body : list (outcome (list N)) -> list (list N) -> option exception -> Prop :=
| audio_stream_ends : audio_body [] [] None
| audio_read_empty (rest : list (outcome (list N))) : audio_body (Returns [] :: rest) [] None
| audio_read_raises (e : exception) (rest : list (outcome (list N))) :
    audio_body (Raises e :: rest) [] (Some e)
| audio_read_chunk (chunk : list N) (rest : list (outcome (list N)))
    (chunks : list (list N)) (broken : option exception) :
    chunk <> [] -> audio_body rest chunks broken ->
    audio_body (Returns chunk :: rest) (chunk :: chunks) broken.


Definition connection_refused : exception :=
  {| exc_str := py "HTTPConnectionPool(host='localhost', port=11434): Max retries exceeded";
     exc_traceback := [] |}.

(** The inference server cannot be reached. *)
Definition inference_down : App.World :=
  {| App.requests_post_outcome := Raises connection_refused;
     App.describe_voices_outcome := App.describe_voices_outcome two_line_answer;
     App.synthesize_speech_outcome := App.synthesize_speech_outcome two_line_answer |}.


(** The audio stream breaks after its first chunk. *)
Definition broken_stream : App.World :=
  {| App.requests_post_outcome := App.requests_post_outcome two_line_answer;
     App.describe_voices_outcome := App.describe_voices_outcome two_line_answer;
     App.synthesize_speech_outcome :=
       Returns [Returns [73; 68; 51]%N; Raises connection_refused; Returns [255; 251]%N] |}.
(* ===================================================================== *)
(** * Properties *)
(* ===================================================================== *)

(** Literals are compared as they are written, and computed only by
    [vm_compute]. *)
Opaque py.

(** ** Strings *)

Lemma str_eqb_eq (a b : str) : str_eqb a b = true <-> a = b.
Proof.
  revert b. induction a as [|x a IH]; intros [|y b]; simpl; split;
    try reflexivity; try discriminate.
  - intros H. apply andb_prop in H as [Hx Hab].
    apply N.eqb_eq in Hx. apply IH in Hab. congruence.
  - intros [= -> ->]. rewrite N.eqb_refl. simpl. now apply IH.
Qed.

Lemma str_eqb_refl (a : str) : str_eqb a a = true.
Proof. now apply str_eqb_eq. Qed.

Lemma str_eqb_neq (a b : str) : str_eqb a b = false <-> a <> b.
Proof.
  split.
  - intros H E. apply str_eqb_eq in E. congruence.
  - intros H. destruct (str_eqb a b) eqn:E; [|reflexivity].
    apply str_eqb_eq in E. contradiction.
Qed.

Lemma truthy_true (s : str) : truthy s = true <-> s <> [].
Proof. destruct s; simpl; split; congruence. Qed.

Lemma truthy_false (s : str) : truthy s = false <-> s = [].
Proof. destruct s; simpl; split; congruence. Qed.

(** ** Runs *)

Section RunFacts.
Context {E : Type}.

Lemma trace_bind {A B : Type} (m : M E A) (k : A -> M E B) (a : A) :
  result m = Returns a -> trace (bind m k) = trace m ++ trace (k a).
Proof.
  destruct m as [t r]. simpl. intros ->. unfold bind, trace.
  destruct (k a). reflexivity.
Qed.

Lemma result_bind {A B : Type} (m : M E A) (k : A -> M E B) (a : A) :
  result m = Returns a -> result (bind m k) = result (k a).
Proof.
  destruct m as [t r]. simpl. intros ->. unfold bind, result.
  destruct (k a). reflexivity.
Qed.

Lemma trace_bind_raises {A B : Type} (m : M E A) (k : A -> M E B) (e : exception) :
  result m = Raises e -> trace (bind m k) = trace m /\ result (bind m k) = Raises e.
Proof. destruct m as [t r]. simpl. intros ->. split; reflexivity. Qed.

Lemma try_except_returns {A : Type} (m : M E A) (h : exception -> M E A) (a : A) :
  result m = Returns a -> try_except m h = m.
Proof. destruct m as [t r]. simpl. intros ->. reflexivity. Qed.

Lemma try_except_raises {A : Type} (m : M E A) (h : exception -> M E A) (e : exception) :
  result m = Raises e ->
  trace (try_except m h) = trace m ++ trace (h e)
  /\ result (try_except m h) = result (h e).
Proof.
  destruct m as [t r]. simpl. intros ->. unfold try_except, trace, result.
  destruct (h e). split; reflexivity.
Qed.

Lemma bind_lift_returns {A B : Type} (a : A) (k : A -> M E B) :
  bind (lift (Returns a)) k = k a.
Proof. unfold bind, lift. destruct (k a). reflexivity. Qed.

Lemma bind_lift_raises {A B : Type} (e : exception) (k : A -> M E B) :
  bind (lift (Raises e)) k = ([], Raises e).
Proof. reflexivity. Qed.

Lemma bind_ret {A B : Type} (a : A) (k : A -> M E B) : bind (ret a) k = k a.
Proof. unfold bind, ret. destruct (k a). reflexivity. Qed.

End RunFacts.

(** ** The pages of a PDF *)

Ltac run_simpl :=
  unfold bind, call, emit, ret, lift, raise, try_except, trace, result; simpl.

(** Closed facts are settled by evaluation. *)
Ltac by_vm := vm_compute; reflexivity.
Ltac computed H := vm_compute in H; vm_compute; exact H.

Lemma Finalbot_read_pages_outcome (pages : list (outcome (option str))) (text : str) :
  Finalbot.read_pages pages text = ([], pages_outcome pages text).
Proof.
  revert text. induction pages as [|[t|e] pages IH]; intros text; simpl;
    try reflexivity.
  unfold bind, lift. now rewrite IH.
Qed.

Lemma App_read_pages_outcome (pages : list (outcome (option str))) (text : str) :
  App.read_pages pages text = ([], pages_outcome pages text).
Proof.
  revert text. induction pages as [|[t|e] pages IH]; intros text; simpl;
    try reflexivity.
  unfold bind, lift. now rewrite IH.
Qed.

Lemma pages_outcome_returns (pages : list (option str)) (text : str) :
  pages_outcome (map Returns pages) text = Returns (text ++ pages_text pages).
Proof.
  revert text. induction pages as [|p pages IH]; intros text; simpl.
  - now rewrite app_nil_r.
  - rewrite IH. now rewrite <- !app_assoc.
Qed.

Lemma Finalbot_read_pdf (w : Finalbot.World) (path : str) :
  Finalbot.read_pdf w path
  = ([Finalbot.PdfReader path], pdf_outcome (Finalbot.PdfReader_outcome w)).
Proof.
  unfold Finalbot.read_pdf, pdf_outcome.
  destruct (Finalbot.PdfReader_outcome w) as [pages|e]; run_simpl; [|reflexivity].
  now rewrite Finalbot_read_pages_outcome.
Qed.

Lemma Finalbot_extraction_step (w : Finalbot.World) (path : str) :
  Finalbot.extraction_step w path
  = match pdf_outcome (Finalbot.PdfReader_outcome w) with
    | Returns text => ([Finalbot.PdfReader path], Returns text)
    | Raises e =>
        ([Finalbot.PdfReader path; Finalbot.progress (extraction_failed_message e)],
         Returns [])
    end.
Proof.
  unfold Finalbot.extraction_step. rewrite Finalbot_read_pdf.
  destruct (pdf_outcome (Finalbot.PdfReader_outcome w)); [reflexivity|].
  unfold try_except, bind, emit, ret, extraction_failed_message. reflexivity.
Qed.

Lemma Finalbot_extraction_step_extracted (w : Finalbot.World) (path : str) :
  result (Finalbot.extraction_step w path) = Returns (extracted w).
Proof.
  rewrite Finalbot_extraction_step. unfold extracted.
  destruct (pdf_outcome (Finalbot.PdfReader_outcome w)); reflexivity.
Qed.

Lemma App_extract (aw : App.UploadWorld) (path : str) :
  App.extract aw path = ([App.PdfReader path], pdf_outcome (App.PdfReader_outcome aw)).
Proof.
  unfold App.extract, pdf_outcome.
  destruct (App.PdfReader_outcome aw) as [pages|e]; run_simpl; [|reflexivity].
  now rewrite App_read_pages_outcome.
Qed.

(** Text that ends every page with a separator is the pages joined by
    the separator, and one separator more. *)
Lemma pages_text_join (pages : list (option str)) :
  pages <> [] ->
  pages_text pages = join [LF; LF] (map Finalbot.or_empty pages) ++ [LF; LF].
Proof.
  induction pages as [|p pages IH]; [congruence|]. intros _.
  destruct pages as [|q pages].
  - simpl. now rewrite app_nil_r.
  - change (pages_text (p :: q :: pages))
      with ((Finalbot.or_empty p ++ [LF; LF]) ++ pages_text (q :: pages)).
    rewrite IH by congruence.
    change (join [LF; LF] (map Finalbot.or_empty (p :: q :: pages)))
      with (Finalbot.or_empty p ++ [LF; LF]
            ++ join [LF; LF] (map Finalbot.or_empty (q :: pages))).
    now rewrite <- !app_assoc.
Qed.

(** C1.  When the pages of a PDF yield the texts [T_1 .. T_N] in document
    order, a page without text counting as the empty string, the
    extraction step of either [UploadThread] returns these texts in order,
    each followed by a blank line: for [N >= 1] the texts joined by blank
    lines, and one blank line more.  A page with [Hello] and an empty page
    give [Hello], two newlines, and two newlines. *)
Theorem extraction_concatenates_pages
    (w : Finalbot.World) (aw : App.UploadWorld) (path : str) (pages : list (option str)) :
  Finalbot.PdfReader_outcome w = Returns (map Returns pages) ->
  App.PdfReader_outcome aw = Returns (map Returns pages) ->
  result (Finalbot.extraction_step w path) = Returns (pages_text pages)
  /\ result (App.extract aw path) = Returns (pages_text pages)
  /\ (pages <> [] ->
      pages_text pages = join [LF; LF] (map Finalbot.or_empty pages) ++ [LF; LF]).
Proof.
  intros Hw Haw. split; [|split].
  - rewrite Finalbot_extraction_step, Hw. simpl.
    now rewrite pages_outcome_returns.
  - rewrite App_extract, Haw. simpl. now rewrite pages_outcome_returns.
  - apply pages_text_join.
Qed.

Lemma extraction_concatenates_pages_witness :
  result (Finalbot.extraction_step notes_world (py "notes.pdf"))
    = Returns (py "Hello" ++ [LF; LF; LF; LF])
  /\ result (App.extract notes_upload_world (py "notes.pdf"))
    = Returns (py "Hello" ++ [LF; LF; LF; LF]).
Proof.
  pose proof (extraction_concatenates_pages notes_world notes_upload_world
                (py "notes.pdf") notes_pages ltac:(by_vm) ltac:(by_vm)) as (H1 & H2 & _).
  split; [computed H1 | computed H2].
Defined.

(** ** [UploadThread.run] of FINALBOT/main.py, stage by stage *)

Lemma key_listed_In (filename : str) (keys : list str) :
  Finalbot.key_listed filename keys = true <-> In filename keys.
Proof.
  induction keys as [|k keys IH]; simpl.
  - split; [discriminate | contradiction].
  - destruct (str_eqb k filename) eqn:E.
    + apply str_eqb_eq in E. split; auto.
    + apply str_eqb_neq in E. rewrite IH. split; [auto | intros [H|H]; congruence].
Qed.

Lemma listed_as_duplicate_true (w : Finalbot.World) (filename : str) :
  listed_as_duplicate w filename = true
  <-> exists keys, Finalbot.list_objects_v2_outcome w = Returns (Some keys)
                   /\ In filename keys.
Proof.
  unfold listed_as_duplicate.
  destruct (Finalbot.list_objects_v2_outcome w) as [[keys|]|e].
  - rewrite key_listed_In. split.
    + intros H. now exists keys.
    + intros (keys' & [= <-] & H). exact H.
  - split; [discriminate | intros (? & ? & _); discriminate].
  - split; [discriminate | intros (? & ? & _); discriminate].
Qed.

Lemma Finalbot_check_duplicate (cfg : Finalbot.Config) (w : Finalbot.World) (filename : str) :
  Finalbot.check_duplicate cfg w filename
  = ([Finalbot.list_objects_v2 (Finalbot.AWS_BUCKET_NAME cfg) filename],
     Returns (listed_as_duplicate w filename)).
Proof.
  unfold Finalbot.check_duplicate, listed_as_duplicate.
  destruct (Finalbot.list_objects_v2_outcome w) as [[keys|]|e]; reflexivity.
Qed.

Lemma Finalbot_storage_gateway (cfg : Finalbot.Config) (w : Finalbot.World)
    (path filename : str) :
  Finalbot.storage_gateway cfg w path filename
  = let listing := Finalbot.list_objects_v2 (Finalbot.AWS_BUCKET_NAME cfg) filename in
    let upload := Finalbot.upload_file path (Finalbot.AWS_BUCKET_NAME cfg) filename in
    if listed_as_duplicate w filename then
      ([listing; Finalbot.progress (skipped_message cfg filename)], Returns tt)
    else
      match Finalbot.upload_file_outcome w with
      | Returns _ =>
          ([listing; upload; Finalbot.progress (uploaded_message cfg filename)], Returns tt)
      | Raises e => ([listing; upload], Raises e)
      end.
Proof.
  unfold Finalbot.storage_gateway. rewrite Finalbot_check_duplicate.
  destruct (listed_as_duplicate w filename); [reflexivity|].
  destruct (Finalbot.upload_file_outcome w) as [[]|e]; reflexivity.
Qed.

Lemma Finalbot_secondary_storage_step_returns (cfg : Finalbot.Config) (w : Finalbot.World)
    (filename text : str) :
  result (Finalbot.secondary_storage_step cfg w filename text) = Returns tt.
Proof.
  unfold Finalbot.secondary_storage_step.
  destruct (truthy text && truthy_opt (Finalbot.AWS_EXTRACT_BUCKET cfg)); [|reflexivity].
  destruct (Finalbot.put_object_outcome w) as [[]|e]; reflexivity.
Qed.

(** A run whose gateway returned goes through extraction and the
    secondary storage step. *)
Lemma Finalbot_run_after_gateway (cfg : Finalbot.Config) (w : Finalbot.World) (path : str) :
  result (Finalbot.storage_gateway cfg w path (basename path)) = Returns tt ->
  Finalbot.run cfg w path
  = trace (Finalbot.storage_gateway cfg w path (basename path))
    ++ trace (Finalbot.extraction_step w path)
    ++ trace (Finalbot.secondary_storage_step cfg w (basename path) (extracted w)).
Proof.
  intros G. unfold Finalbot.run, Finalbot.run_body.
  pose proof (Finalbot_extraction_step_extracted w path) as X.
  pose proof (Finalbot_secondary_storage_step_returns cfg w (basename path) (extracted w)) as S.
  cbv zeta.
  rewrite try_except_returns with (a := tt).
  - rewrite (trace_bind _ _ G). f_equal. now rewrite (trace_bind _ _ X).
  - rewrite (result_bind _ _ G). now rewrite (result_bind _ _ X).
Qed.

(** A run whose gateway raised ends with the message of the outer
    handler. *)
Lemma Finalbot_run_gateway_raises (cfg : Finalbot.Config) (w : Finalbot.World)
    (path : str) (e : exception) :
  result (Finalbot.storage_gateway cfg w path (basename path)) = Raises e ->
  Finalbot.run cfg w path
  = trace (Finalbot.storage_gateway cfg w path (basename path))
    ++ [Finalbot.progress (thread_error_message e)].
Proof.
  intros G. unfold Finalbot.run, Finalbot.run_body. cbv zeta.
  destruct (trace_bind_raises
              (Finalbot.storage_gateway cfg w path (basename path))
              (fun _ => bind (Finalbot.extraction_step w path)
                          (fun text => Finalbot.secondary_storage_step cfg w (basename path) text))
              G) as [T R].
  destruct (try_except_raises _
              (fun e => emit (Finalbot.progress
                                (py "⚠️ UploadThread error: " ++ exc_str e ++ [LF]
                                 ++ exc_traceback e))) R) as [T' _].
  rewrite T'. now rewrite T.
Qed.

Lemma Finalbot_extraction_trace_quiet (w : Finalbot.World) (path : str) :
  FinalbotTrace.uploads (trace (Finalbot.extraction_step w path)) = []
  /\ FinalbotTrace.stores (trace (Finalbot.extraction_step w path)) = []
  /\ FinalbotTrace.notifications (trace (Finalbot.extraction_step w path)) = []
  /\ FinalbotTrace.pdfs_read (trace (Finalbot.extraction_step w path)) = [path].
Proof.
  rewrite Finalbot_extraction_step.
  destruct (pdf_outcome (Finalbot.PdfReader_outcome w)); repeat split; reflexivity.
Qed.

Lemma Finalbot_gateway_trace_quiet (cfg : Finalbot.Config) (w : Finalbot.World)
    (path filename : str) :
  FinalbotTrace.stores (trace (Finalbot.storage_gateway cfg w path filename)) = []
  /\ FinalbotTrace.notifications (trace (Finalbot.storage_gateway cfg w path filename)) = []
  /\ FinalbotTrace.pdfs_read (trace (Finalbot.storage_gateway cfg w path filename)) = [].
Proof.
  rewrite Finalbot_storage_gateway. cbv zeta.
  destruct (listed_as_duplicate w filename); [repeat split; reflexivity|].
  destruct (Finalbot.upload_file_outcome w); repeat split; reflexivity.
Qed.

(** ** The secondary storage step *)

(** C2 (amended).  In FINALBOT/main.py, for every run whose upload step
    did not raise, the text is stored, under the file name with its
    extension replaced by [.txt], exactly when the extracted text is not
    empty and an extract bucket is configured, and the one notification
    carries the text with that key when the store succeeded and with the
    empty key otherwise, a failed store included; a run whose upload step
    raised stores nothing and notifies nobody.  In app.py the store is
    attempted exactly when a primary bucket is configured, the upload
    succeeded, the text is not empty and an extract bucket is configured;
    the notification carries the text alone and is sent only when neither
    the upload nor the store raised. *)
Theorem store_iff_text_and_bucket
    (cfg : Finalbot.Config) (w : Finalbot.World)
    (acfg : App.Config) (aw : App.UploadWorld) (path : str) :
  let filename := basename path in
  (result (Finalbot.storage_gateway cfg w path filename) = Returns tt ->
   let text := extracted w in
   let attempt := truthy text && truthy_opt (Finalbot.AWS_EXTRACT_BUCKET cfg) in
   FinalbotTrace.stores (Finalbot.run cfg w path)
   = (if attempt
      then [(fmt_opt (Finalbot.AWS_EXTRACT_BUCKET cfg), text_key filename, text)]
      else [])
   /\ FinalbotTrace.notifications (Finalbot.run cfg w path)
      = [(text, if attempt && returned (Finalbot.put_object_outcome w)
                then text_key filename else [])])
  /\ (forall e,
        result (Finalbot.storage_gateway cfg w path filename) = Raises e ->
        FinalbotTrace.stores (Finalbot.run cfg w path) = []
        /\ FinalbotTrace.notifications (Finalbot.run cfg w path) = [])
  /\ (forall text,
        pdf_outcome (App.PdfReader_outcome aw) = Returns text ->
        let uploaded :=
          truthy (App.AWS_BUCKET_NAME acfg) && returned (App.upload_file_outcome aw) in
        let attempt := uploaded && truthy text && truthy (App.AWS_EXTRACT_BUCKET acfg) in
        AppTrace.stores (App.run acfg aw path)
        = (if attempt
           then [(App.AWS_EXTRACT_BUCKET acfg, text_key filename, text)]
           else [])
        /\ AppTrace.notifications (App.run acfg aw path)
           = (if negb (truthy (App.AWS_BUCKET_NAME acfg))
                 || uploaded && (negb attempt || returned (App.put_object_outcome aw))
              then [text] else [])).
Proof.
  cbv zeta. split; [|split].
  - intros G. rewrite (Finalbot_run_after_gateway _ _ _ G).
    destruct (Finalbot_gateway_trace_quiet cfg w path (basename path)) as (S1 & N1 & _).
    destruct (Finalbot_extraction_trace_quiet w path) as (_ & S2 & N2 & _).
    unfold FinalbotTrace.stores, FinalbotTrace.notifications in *.
    rewrite !flat_map_app, S1, S2, N1, N2. simpl.
    unfold Finalbot.secondary_storage_step, text_key.
    destruct (truthy (extracted w) && truthy_opt (Finalbot.AWS_EXTRACT_BUCKET cfg));
      [|split; reflexivity].
    destruct (Finalbot.put_object_outcome w) as [[]|e]; split; reflexivity.
  - intros e G. rewrite (Finalbot_run_gateway_raises _ _ _ G).
    destruct (Finalbot_gateway_trace_quiet cfg w path (basename path)) as (S1 & N1 & _).
    unfold FinalbotTrace.stores, FinalbotTrace.notifications in *.
    rewrite !flat_map_app, S1, N1. split; reflexivity.
  - intros text X. unfold App.run, App.run_body. cbv zeta.
    rewrite App_extract, X. unfold App.upload, text_key. run_simpl.
    destruct (truthy (App.AWS_BUCKET_NAME acfg)); [|split; reflexivity].
    destruct (App.upload_file_outcome aw) as [[]|e]; [|split; reflexivity].
    destruct (truthy text); [|split; reflexivity].
    destruct (truthy (App.AWS_EXTRACT_BUCKET acfg)); [|split; reflexivity].
    destruct (App.put_object_outcome aw) as [[]|e]; split; reflexivity.
Qed.

Lemma store_iff_text_and_bucket_witness :
  (FinalbotTrace.stores (Finalbot.run both_buckets notes_world (py "/home/user/notes.pdf"))
   = [(py "extractpdf202", py "notes.txt", py "Hello" ++ [LF; LF; LF; LF])]
   /\ FinalbotTrace.notifications
        (Finalbot.run both_buckets notes_world (py "/home/user/notes.pdf"))
      = [(py "Hello" ++ [LF; LF; LF; LF], py "notes.txt")])
  /\ (FinalbotTrace.stores
        (Finalbot.run both_buckets upload_refused (py "/home/user/notes.pdf")) = []
      /\ FinalbotTrace.notifications
           (Finalbot.run both_buckets upload_refused (py "/home/user/notes.pdf")) = [])
  /\ (AppTrace.stores (App.run app_config notes_upload_world (py "/home/user/notes.pdf"))
      = [(py "ai-assistant-extracts", py "notes.txt", py "Hello" ++ [LF; LF; LF; LF])]
      /\ AppTrace.notifications
           (App.run app_config notes_upload_world (py "/home/user/notes.pdf"))
         = [py "Hello" ++ [LF; LF; LF; LF]]).
Proof.
  pose proof (store_iff_text_and_bucket both_buckets notes_world
                app_config notes_upload_world (py "/home/user/notes.pdf")) as H.
  cbv zeta in H. destruct H as (F & _ & A).
  pose proof (store_iff_text_and_bucket both_buckets upload_refused
                app_config notes_upload_world (py "/home/user/notes.pdf")) as H.
  cbv zeta in H. destruct H as (_ & R & _).
  specialize (F ltac:(by_vm)).
  specialize (R no_credentials ltac:(by_vm)).
  specialize (A (py "Hello" ++ [LF; LF; LF; LF]) ltac:(by_vm)).
  split; [computed F | split; [computed R | computed A]].
Defined.

(** C2, as stated, fails on app.py: the upload is refused, so the text of
    [notes.pdf], which is not empty, is not stored although an extract
    bucket is configured, and no notification is sent at all. *)
Lemma store_skipped_when_upload_refused :
  result (App.extract app_upload_refused (py "/home/user/notes.pdf"))
    = Returns (py "Hello" ++ [LF; LF; LF; LF])
  /\ truthy (py "Hello" ++ [LF; LF; LF; LF]) && truthy (App.AWS_EXTRACT_BUCKET app_config)
     = true
  /\ AppTrace.stores (App.run app_config app_upload_refused (py "/home/user/notes.pdf")) = []
  /\ AppTrace.notifications
       (App.run app_config app_upload_refused (py "/home/user/notes.pdf")) = [].
Proof. repeat split; vm_compute; reflexivity. Qed.

(** ** The storage gateway *)

Lemma Finalbot_uploads_of_gateway (cfg : Finalbot.Config) (w : Finalbot.World)
    (path filename : str) :
  FinalbotTrace.uploads (trace (Finalbot.storage_gateway cfg w path filename))
  = if listed_as_duplicate w filename then []
    else [(path, Finalbot.AWS_BUCKET_NAME cfg, filename)].
Proof.
  rewrite Finalbot_storage_gateway. cbv zeta.
  destruct (listed_as_duplicate w filename); [reflexivity|].
  destruct (Finalbot.upload_file_outcome w); reflexivity.
Qed.

Lemma Finalbot_uploads_of_run (cfg : Finalbot.Config) (w : Finalbot.World) (path : str) :
  FinalbotTrace.uploads (Finalbot.run cfg w path)
  = if listed_as_duplicate w (basename path) then []
    else [(path, Finalbot.AWS_BUCKET_NAME cfg, basename path)].
Proof.
  destruct (result (Finalbot.storage_gateway cfg w path (basename path))) as [[]|e] eqn:G.
  - rewrite (Finalbot_run_after_gateway _ _ _ G).
    destruct (Finalbot_extraction_trace_quiet w path) as (U & _).
    unfold FinalbotTrace.uploads in *. rewrite !flat_map_app, U.
    fold (FinalbotTrace.uploads (trace (Finalbot.storage_gateway cfg w path (basename path)))).
    rewrite Finalbot_uploads_of_gateway.
    assert (S : flat_map
                  (fun e => match e with
                            | Finalbot.upload_file f b k => [(f, b, k)]
                            | _ => []
                            end)
                  (trace (Finalbot.secondary_storage_step cfg w (basename path)
                            (extracted w))) = []).
    { unfold Finalbot.secondary_storage_step.
      destruct (truthy (extracted w) && truthy_opt (Finalbot.AWS_EXTRACT_BUCKET cfg));
        [|reflexivity].
      destruct (Finalbot.put_object_outcome w) as [[]|e]; reflexivity. }
    rewrite S. now rewrite !app_nil_r.
  - rewrite (Finalbot_run_gateway_raises _ _ _ G).
    unfold FinalbotTrace.uploads. rewrite flat_map_app.
    fold (FinalbotTrace.uploads (trace (Finalbot.storage_gateway cfg w path (basename path)))).
    rewrite Finalbot_uploads_of_gateway. simpl. now rewrite app_nil_r.
Qed.

(** C3.  When the listing of the bucket shows a key equal to the
    basename of the file, the run of main.py uploads nothing, says that
    it skips the upload, and goes on to extract the text of the local
    file and to the secondary storage step.  The test is equality of the
    basename with a listed key: the run uploads nothing exactly when the
    listing returned and one of its keys is the basename, whatever the
    file holds. *)
Theorem duplicate_skips_upload_and_extracts
    (cfg : Finalbot.Config) (w : Finalbot.World) (path : str) :
  let filename := basename path in
  (forall keys,
     Finalbot.list_objects_v2_outcome w = Returns (Some keys) ->
     In filename keys ->
     Finalbot.run cfg w path
     = [Finalbot.list_objects_v2 (Finalbot.AWS_BUCKET_NAME cfg) filename;
        Finalbot.progress (skipped_message cfg filename)]
       ++ trace (Finalbot.extraction_step w path)
       ++ trace (Finalbot.secondary_storage_step cfg w filename (extracted w))
     /\ FinalbotTrace.uploads (Finalbot.run cfg w path) = []
     /\ FinalbotTrace.pdfs_read (Finalbot.run cfg w path) = [path]
     /\ result (Finalbot.extraction_step w path) = Returns (extracted w))
  /\ (FinalbotTrace.uploads (Finalbot.run cfg w path) = []
      <-> exists keys,
            Finalbot.list_objects_v2_outcome w = Returns (Some keys)
            /\ In filename keys).
Proof.
  cbv zeta. split.
  - intros keys L I.
    assert (D : listed_as_duplicate w (basename path) = true)
      by (apply listed_as_duplicate_true; now exists keys).
    assert (G : Finalbot.storage_gateway cfg w path (basename path)
                = ([Finalbot.list_objects_v2 (Finalbot.AWS_BUCKET_NAME cfg) (basename path);
                    Finalbot.progress (skipped_message cfg (basename path))],
                   Returns tt))
      by (rewrite Finalbot_storage_gateway; cbv zeta; now rewrite D).
    assert (R : Finalbot.run cfg w path
                = [Finalbot.list_objects_v2 (Finalbot.AWS_BUCKET_NAME cfg) (basename path);
                   Finalbot.progress (skipped_message cfg (basename path))]
                  ++ trace (Finalbot.extraction_step w path)
                  ++ trace (Finalbot.secondary_storage_step cfg w (basename path)
                              (extracted w))).
    { rewrite Finalbot_run_after_gateway by (now rewrite G). now rewrite G. }
    split; [exact R|]. split; [|split].
    + rewrite Finalbot_uploads_of_run. now rewrite D.
    + rewrite R. unfold FinalbotTrace.pdfs_read. rewrite !flat_map_app.
      destruct (Finalbot_extraction_trace_quiet w path) as (_ & _ & _ & P).
      unfold FinalbotTrace.pdfs_read in P. rewrite P. simpl.
      unfold Finalbot.secondary_storage_step.
      destruct (truthy (extracted w) && truthy_opt (Finalbot.AWS_EXTRACT_BUCKET cfg));
        [|reflexivity].
      destruct (Finalbot.put_object_outcome w) as [[]|e]; reflexivity.
    + apply Finalbot_extraction_step_extracted.
  - rewrite Finalbot_uploads_of_run, <- listed_as_duplicate_true.
    destruct (listed_as_duplicate w (basename path)); split; congruence.
Qed.

Lemma duplicate_skips_upload_and_extracts_witness :
  Finalbot.run both_buckets already_uploaded (py "/home/user/notes.pdf")
  = [Finalbot.list_objects_v2 (Some (py "uploadpdf2025")) (py "notes.pdf");
     Finalbot.progress
       (py "⚠️ File 'notes.pdf' already exists in uploadpdf2025. Skipping upload.");
     Finalbot.PdfReader (py "/home/user/notes.pdf");
     Finalbot.put_object (py "extractpdf202") (py "notes.txt")
       (py "Hello" ++ [LF; LF; LF; LF]);
     Finalbot.progress (py "✅ Extracted text stored → s3://extractpdf202/notes.txt");
     Finalbot.extracted_text_signal (py "Hello" ++ [LF; LF; LF; LF]) (py "notes.txt")].
Proof.
  pose proof (duplicate_skips_upload_and_extracts both_buckets already_uploaded
                (py "/home/user/notes.pdf")) as H.
  cbv zeta in H. destruct H as (H & _).
  specialize (H [py "notes.pdf"; py "notes.pdf.bak"] ltac:(by_vm)
                ltac:(vm_compute; left; reflexivity)).
  destruct H as (H & _). computed H.
Defined.

(** ** A failed upload *)

Lemma Finalbot_pdfs_read_of_run (cfg : Finalbot.Config) (w : Finalbot.World) (path : str) :
  FinalbotTrace.pdfs_read (Finalbot.run cfg w path)
  = match result (Finalbot.storage_gateway cfg w path (basename path)) with
    | Returns _ => [path]
    | Raises _ => []
    end.
Proof.
  destruct (Finalbot_gateway_trace_quiet cfg w path (basename path)) as (_ & _ & G0).
  destruct (result (Finalbot.storage_gateway cfg w path (basename path))) as [[]|e] eqn:G.
  - rewrite (Finalbot_run_after_gateway _ _ _ G).
    destruct (Finalbot_extraction_trace_quiet w path) as (_ & _ & _ & P).
    unfold FinalbotTrace.pdfs_read in *. rewrite !flat_map_app, G0, P.
    cbn [app]. unfold Finalbot.secondary_storage_step.
    destruct (truthy (extracted w) && truthy_opt (Finalbot.AWS_EXTRACT_BUCKET cfg));
      [|reflexivity].
    destruct (Finalbot.put_object_outcome w) as [[]|e]; reflexivity.
  - rewrite (Finalbot_run_gateway_raises _ _ _ G).
    unfold FinalbotTrace.pdfs_read in *. rewrite flat_map_app, G0. reflexivity.
Qed.

Lemma App_run_opens_pdf_first (acfg : App.Config) (aw : App.UploadWorld) (path : str) :
  exists rest, App.run acfg aw path = App.PdfReader path :: rest.
Proof.
  unfold App.run, App.run_body. cbv zeta. rewrite App_extract.
  destruct (pdf_outcome (App.PdfReader_outcome aw)) as [text|e].
  - unfold bind at 1.
    match goal with
    | |- context [let (_, _) := ?m in _] => destruct m as [t' r]
    end.
    destruct r as [[]|e]; [eexists; reflexivity|].
    unfold try_except, emit, trace. eexists. reflexivity.
  - eexists. reflexivity.
Qed.

(** C4 (amended).  When the upload to the primary bucket raises, the
    failure is reported as a progress message and the run ends there,
    with no notification of extracted text.  In main.py the PDF has not
    been opened and never is: there the PDF is read only after the upload
    was skipped as a duplicate or has returned.  In app.py every run
    opens the PDF first, before any upload: when the upload then raises
    the extracted text is dropped, and with no primary bucket configured
    the text of a readable PDF is notified without any upload. *)
Theorem failed_upload_ends_run
    (cfg : Finalbot.Config) (w : Finalbot.World)
    (acfg : App.Config) (aw : App.UploadWorld) (path : str) (e : exception) :
  let filename := basename path in
  (listed_as_duplicate w filename = false ->
   Finalbot.upload_file_outcome w = Raises e ->
   Finalbot.run cfg w path
   = [Finalbot.list_objects_v2 (Finalbot.AWS_BUCKET_NAME cfg) filename;
      Finalbot.upload_file path (Finalbot.AWS_BUCKET_NAME cfg) filename;
      Finalbot.progress (thread_error_message e)])
  /\ (forall text,
        truthy (App.AWS_BUCKET_NAME acfg) = true ->
        pdf_outcome (App.PdfReader_outcome aw) = Returns text ->
        App.upload_file_outcome aw = Raises e ->
        App.run acfg aw path
        = [App.PdfReader path;
           App.upload_file path (App.AWS_BUCKET_NAME acfg) filename;
           App.progress (py "❌ Error: " ++ exc_str e)])
  /\ (FinalbotTrace.pdfs_read (Finalbot.run cfg w path) = [path]
      \/ FinalbotTrace.pdfs_read (Finalbot.run cfg w path) = [])
  /\ (FinalbotTrace.pdfs_read (Finalbot.run cfg w path) = [path]
      <-> listed_as_duplicate w filename = true
          \/ Finalbot.upload_file_outcome w = Returns tt)
  /\ (FinalbotTrace.pdfs_read (Finalbot.run cfg w path) = [path] ->
      FinalbotTrace.uploads (Finalbot.run cfg w path) = [] ->
      listed_as_duplicate w filename = true)
  /\ (exists rest, App.run acfg aw path = App.PdfReader path :: rest)
  /\ (forall text,
        truthy (App.AWS_BUCKET_NAME acfg) = false ->
        pdf_outcome (App.PdfReader_outcome aw) = Returns text ->
        App.run acfg aw path = [App.PdfReader path; App.extracted_text text]).
Proof.
  cbv zeta.
  assert (P : FinalbotTrace.pdfs_read (Finalbot.run cfg w path)
              = if listed_as_duplicate w (basename path) then [path]
                else match Finalbot.upload_file_outcome w with
                     | Returns _ => [path]
                     | Raises _ => []
                     end).
  { rewrite Finalbot_pdfs_read_of_run, Finalbot_storage_gateway. cbv zeta.
    destruct (listed_as_duplicate w (basename path)); [reflexivity|].
    destruct (Finalbot.upload_file_outcome w); reflexivity. }
  split; [|split; [|split; [|split; [|split; [|split]]]]].
  - intros D U.
    assert (G : Finalbot.storage_gateway cfg w path (basename path)
                = ([Finalbot.list_objects_v2 (Finalbot.AWS_BUCKET_NAME cfg) (basename path);
                    Finalbot.upload_file path (Finalbot.AWS_BUCKET_NAME cfg) (basename path)],
                   Raises e))
      by (rewrite Finalbot_storage_gateway; cbv zeta; now rewrite D, U).
    rewrite Finalbot_run_gateway_raises with (e := e) by (now rewrite G).
    now rewrite G.
  - intros text B X U. unfold App.run, App.run_body. cbv zeta.
    rewrite App_extract, X. unfold App.upload. rewrite B, U. reflexivity.
  - rewrite P. destruct (listed_as_duplicate w (basename path)); [now left|].
    destruct (Finalbot.upload_file_outcome w); [now left | now right].
  - rewrite P. destruct (listed_as_duplicate w (basename path)).
    + split; [now left | reflexivity].
    + destruct (Finalbot.upload_file_outcome w) as [[]|e'].
      * split; [now right | reflexivity].
      * split; [discriminate | intros [H|H]; discriminate H].
  - rewrite Finalbot_uploads_of_run.
    destruct (listed_as_duplicate w (basename path)); [reflexivity | discriminate].
  - apply App_run_opens_pdf_first.
  - intros text B X. unfold App.run, App.run_body. cbv zeta.
    rewrite App_extract, X. unfold App.upload. rewrite B. reflexivity.
Qed.

Lemma failed_upload_ends_run_witness :
  Finalbot.run both_buckets upload_refused (py "/home/user/notes.pdf")
  = [Finalbot.list_objects_v2 (Some (py "uploadpdf2025")) (py "notes.pdf");
     Finalbot.upload_file (py "/home/user/notes.pdf") (Some (py "uploadpdf2025"))
       (py "notes.pdf");
     Finalbot.progress (thread_error_message no_credentials)]
  /\ App.run app_config app_upload_refused (py "/home/user/notes.pdf")
     = [App.PdfReader (py "/home/user/notes.pdf");
        App.upload_file (py "/home/user/notes.pdf") (py "ai-assistant-docs") (py "notes.pdf");
        App.progress (py "❌ Error: Unable to locate credentials")]
  /\ App.run no_primary_bucket app_upload_refused (py "/home/user/notes.pdf")
     = [App.PdfReader (py "/home/user/notes.pdf");
        App.extracted_text (py "Hello" ++ [LF; LF; LF; LF])].
Proof.
  pose proof (failed_upload_ends_run both_buckets upload_refused app_config
                app_upload_refused (py "/home/user/notes.pdf") no_credentials) as H.
  cbv zeta in H. destruct H as (F & A & _).
  specialize (F ltac:(by_vm) ltac:(by_vm)).
  specialize (A (py "Hello" ++ [LF; LF; LF; LF]) ltac:(by_vm) ltac:(by_vm) ltac:(by_vm)).
  pose proof (failed_upload_ends_run both_buckets upload_refused no_primary_bucket
                app_upload_refused (py "/home/user/notes.pdf") no_credentials) as H.
  cbv zeta in H. destruct H as (_ & _ & _ & _ & _ & _ & B).
  specialize (B (py "Hello" ++ [LF; LF; LF; LF]) ltac:(by_vm) ltac:(by_vm)).
  split; [computed F | split; [computed A | computed B]].
Defined.

(** C4, as stated, fails on main.py: the upload of [notes.pdf] is
    refused, the PDF is never opened and no extracted text is notified. *)
Lemma no_extraction_after_refused_upload :
  Finalbot.upload_file_outcome upload_refused = Raises no_credentials
  /\ FinalbotTrace.uploads (Finalbot.run both_buckets upload_refused (py "/home/user/notes.pdf"))
     = [(py "/home/user/notes.pdf", Some (py "uploadpdf2025"), py "notes.pdf")]
  /\ FinalbotTrace.pdfs_read
       (Finalbot.run both_buckets upload_refused (py "/home/user/notes.pdf")) = []
  /\ FinalbotTrace.notifications
       (Finalbot.run both_buckets upload_refused (py "/home/user/notes.pdf")) = [].
Proof. repeat split; vm_compute; reflexivity. Qed.

(** ** An exception while the PDF is read *)

Lemma Extractdata_read_pages_result (i : nat) (pages : list (outcome (option str)))
    (text : str) :
  result (Extractdata.read_pages i pages text) = lambda_pages_outcome pages text.
Proof.
  revert i text. induction pages as [|[t|e] pages IH]; intros i text;
    cbn [Extractdata.read_pages lambda_pages_outcome]; try reflexivity.
  rewrite result_bind with (a := t) by reflexivity.
  rewrite result_bind with (a := tt) by reflexivity.
  apply IH.
Qed.

(** The handler of the Lambda prints the error and raises it again. *)
Lemma Extractdata_handler_reraises (lw : Extractdata.World) (bucket key : str)
    (e : exception) :
  Extractdata.get_object_outcome lw = Returns tt ->
  lambda_pdf_outcome (Extractdata.PdfReader_outcome lw) = Raises e ->
  result (Extractdata.lambda_handler lw bucket key) = Raises e
  /\ exists tr, trace (Extractdata.lambda_handler lw bucket key)
                = tr ++ [Extractdata.print (py "❌ Error: " ++ exc_str e)].
Proof.
  intros G X. unfold Extractdata.lambda_handler. rewrite G.
  unfold lambda_pdf_outcome in X.
  destruct (Extractdata.PdfReader_outcome lw) as [pages|e'].
  - pose proof (Extractdata_read_pages_result 0 pages []) as R. rewrite X in R.
    run_simpl.
    destruct (Extractdata.read_pages 0 pages []) as [tr r]. simpl in R. subst r.
    simpl. split; [reflexivity|].
    eexists. rewrite !app_comm_cons. rewrite app_assoc. reflexivity.
  - injection X as ->. run_simpl. split; [reflexivity|].
    now exists [Extractdata.print (py "📂 Source bucket: " ++ bucket ++ py ", Key: " ++ key);
                Extractdata.get_object bucket key;
                Extractdata.print (py "📥 PDF downloaded successfully");
                Extractdata.PdfReader].
Qed.

(** C5 (amended).  In FINALBOT/main.py an exception raised while the PDF
    is opened or a page is read is caught in the extraction step: the
    step reports a warning, returns the empty string, and never raises.
    In app.py the exception is caught by the handler of the whole run,
    which reports an error and ends the run with no upload and no
    notification.  In extractdata.py the handler prints the error and
    raises it again to its caller. *)
Theorem extraction_exception_handling
    (w : Finalbot.World) (acfg : App.Config) (aw : App.UploadWorld)
    (lw : Extractdata.World) (path bucket key : str) (e : exception) :
  (exists text, result (Finalbot.extraction_step w path) = Returns text)
  /\ (pdf_outcome (Finalbot.PdfReader_outcome w) = Raises e ->
      Finalbot.extraction_step w path
      = ([Finalbot.PdfReader path; Finalbot.progress (extraction_failed_message e)],
         Returns []))
  /\ (pdf_outcome (App.PdfReader_outcome aw) = Raises e ->
      App.run_body acfg aw path
      = ([App.PdfReader path; App.progress (py "❌ Error: " ++ exc_str e)], Returns tt))
  /\ (Extractdata.get_object_outcome lw = Returns tt ->
      lambda_pdf_outcome (Extractdata.PdfReader_outcome lw) = Raises e ->
      result (Extractdata.lambda_handler lw bucket key) = Raises e
      /\ exists tr, trace (Extractdata.lambda_handler lw bucket key)
                    = tr ++ [Extractdata.print (py "❌ Error: " ++ exc_str e)]).
Proof.
  split; [|split; [|split]].
  - exists (extracted w). apply Finalbot_extraction_step_extracted.
  - intros X. rewrite Finalbot_extraction_step. now rewrite X.
  - intros X. unfold App.run_body. cbv zeta. rewrite App_extract, X. reflexivity.
  - apply Extractdata_handler_reraises.
Qed.

Lemma extraction_exception_handling_witness :
  Finalbot.extraction_step broken_pdf (py "/home/user/scan.pdf")
  = ([Finalbot.PdfReader (py "/home/user/scan.pdf");
      Finalbot.progress (py "⚠️ PDF extraction failed: EOF marker not found")],
     Returns [])
  /\ App.run_body app_config app_broken_pdf (py "/home/user/scan.pdf")
     = ([App.PdfReader (py "/home/user/scan.pdf");
         App.progress (py "❌ Error: EOF marker not found")], Returns tt)
  /\ result (Extractdata.lambda_handler lambda_broken_pdf (py "uploadpdf2025") (py "scan.pdf"))
     = Raises not_a_pdf.
Proof.
  pose proof (extraction_exception_handling broken_pdf app_config app_broken_pdf
                lambda_broken_pdf (py "/home/user/scan.pdf") (py "uploadpdf2025")
                (py "scan.pdf") not_a_pdf) as (_ & F & A & L).
  specialize (F ltac:(by_vm)). specialize (A ltac:(by_vm)).
  specialize (L ltac:(by_vm) ltac:(by_vm)). destruct L as (L & _).
  split; [computed F | split; [computed A | computed L]].
Defined.

(** C5, as stated, fails on extractdata.py and on app.py: for a file
    that is no PDF the Lambda handler raises the exception to its caller,
    and the run of app.py ends without any notification, so no empty text
    reaches a listener. *)
Lemma extraction_exception_propagates :
  result (Extractdata.lambda_handler lambda_broken_pdf (py "uploadpdf2025") (py "scan.pdf"))
  = Raises not_a_pdf
  /\ AppTrace.notifications (App.run app_config app_broken_pdf (py "/home/user/scan.pdf"))
     = [].
Proof. split; vm_compute; reflexivity. Qed.

(** ** Searching a string *)

Lemma startswith_spec (p s : str) : startswith p s = true <-> exists r, s = p ++ r.
Proof.
  revert s. induction p as [|x p IH]; intros s; simpl.
  - split; [intros _; now exists s | reflexivity].
  - destruct s as [|y s].
    + split; [discriminate | intros (r & H); discriminate].
    + rewrite andb_true_iff, N.eqb_eq, IH. split.
      * intros (-> & r & ->). now exists r.
      * intros (r & [= -> ->]). split; [reflexivity | now exists r].
Qed.

Lemma find_Some (sub s : str) (i : nat) :
  find sub s = Some i -> s = firstn i s ++ sub ++ skipn (i + length sub) s.
Proof.
  revert i. induction s as [|c s IH]; intros i.
  - simpl. destruct sub; simpl; [intros [= <-]; reflexivity | discriminate].
  - cbn [find]. destruct (startswith sub (c :: s)) eqn:E.
    + intros [= <-]. apply startswith_spec in E as (r & E). rewrite E at 1.
      simpl. f_equal. rewrite E. rewrite skipn_app, skipn_all, Nat.sub_diag. reflexivity.
    + destruct (find sub s) as [j|]; simpl; [|discriminate].
      intros [= <-]. simpl. f_equal. now apply IH.
Qed.

Lemma find_None (sub s : str) :
  find sub s = None -> forall l1 l2, s <> l1 ++ sub ++ l2.
Proof.
  induction s as [|c s IH]; cbn [find].
  - destruct (startswith sub []) eqn:E; [discriminate|]. intros _ l1 l2 H.
    destruct l1; [|discriminate]. simpl in H.
    assert (S : startswith sub [] = true) by (apply startswith_spec; now exists l2).
    congruence.
  - destruct (startswith sub (c :: s)) eqn:E; [discriminate|].
    destruct (find sub s) as [j|] eqn:F; [discriminate|]. intros _ l1 l2 H.
    destruct l1 as [|x l1].
    + assert (S : startswith sub (c :: s) = true) by (apply startswith_spec; now exists l2).
      congruence.
    + injection H as _ H. exact (IH eq_refl l1 l2 H).
Qed.

(** [sub in s] holds exactly when [sub] occurs in [s]. *)
Lemma contains_spec (sub s : str) :
  contains sub s = true <-> exists l1 l2, s = l1 ++ sub ++ l2.
Proof.
  unfold contains. destruct (find sub s) as [i|] eqn:F.
  - split; [intros _ | reflexivity].
    exists (firstn i s), (skipn (i + length sub) s). now apply find_Some.
  - split; [discriminate|]. intros (l1 & l2 & H). now apply find_None in H.
Qed.

(** ** [format_ollama_answer] *)

Lemma number_from_length (i : nat) (lines : list str) :
  length (Finalbot.number_from i lines) = length lines.
Proof. revert i. induction lines as [|ln lines IH]; intros i; simpl; auto. Qed.

Lemma number_from_nth (i k : nat) (lines : list str) :
  k < length lines ->
  nth k (Finalbot.number_from i lines) []
  = str_of_nat (i + k) ++ py ". " ++ nth k lines [].
Proof.
  revert i k. induction lines as [|ln lines IH]; intros i k H; simpl in H; [lia|].
  destruct k as [|k]; simpl.
  - now rewrite Nat.add_0_r.
  - rewrite IH by lia. now rewrite Nat.add_succ_r.
Qed.

(** C6 (amended).  An empty reply is answered by the fixed no-response
    message, with no footer.  For any other reply, stripped of
    surrounding whitespace: the text is cut at blank lines when it holds
    one and at single newlines otherwise, and the pieces that are not
    blank are kept, stripped; when at least three are kept they are the
    lines, otherwise the lines are the stripped non-blank pieces of the
    text cut at every run of spaces that follows [.], [!] or [?]; the
    output is the lines numbered from 1 in their order and joined by blank
    lines, then the fixed Example note exactly when the lower-cased text
    holds [example] or [e.g.], then the fixed source footer. *)
Theorem format_ollama_answer_shape (raw_text : str) :
  (raw_text = [] -> Finalbot.format_ollama_answer raw_text = Finalbot.NO_RESPONSE)
  /\ (raw_text <> [] ->
      let text := strip raw_text in
      let lines := Finalbot.lines_of text in
      let numbered := Finalbot.number_from 1 lines in
      Finalbot.format_ollama_answer raw_text
      = join [LF; LF] numbered
        ++ (if Finalbot.mentions_example text then Finalbot.EXAMPLE_NOTE else [])
        ++ Finalbot.SOURCE_FOOTER
      /\ length numbered = length lines
      /\ (forall k, k < length lines ->
            nth k numbered [] = str_of_nat (k + 1) ++ py ". " ++ nth k lines [])
      /\ (3 <= length (Finalbot.parts_of text) -> lines = Finalbot.parts_of text)
      /\ (length (Finalbot.parts_of text) < 3 ->
          lines = Finalbot.stripped_nonempty (Finalbot.re_split_sentences text))
      /\ ((exists l1 l2, text = l1 ++ [LF; LF] ++ l2) ->
          Finalbot.parts_of text = Finalbot.stripped_nonempty (split [LF; LF] text))
      /\ ((forall l1 l2, text <> l1 ++ [LF; LF] ++ l2) ->
          Finalbot.parts_of text = Finalbot.stripped_nonempty (split [LF] text))
      /\ (Finalbot.mentions_example text = true
          <-> (exists l1 l2, lower text = l1 ++ py "example" ++ l2)
              \/ (exists l1 l2, lower text = l1 ++ py "e.g." ++ l2))).
Proof.
  split.
  - intros ->. reflexivity.
  - intros H. cbv zeta. unfold Finalbot.format_ollama_answer.
    apply truthy_true in H. rewrite H. simpl negb. cbv iota.
    split; [|split; [|split; [|split; [|split; [|split; [|split]]]]]].
    + destruct (Finalbot.mentions_example (strip raw_text)).
      * now rewrite <- app_assoc.
      * now rewrite app_nil_l.
    + apply number_from_length.
    + intros k K. rewrite number_from_nth by exact K. now rewrite Nat.add_comm.
    + intros P. unfold Finalbot.lines_of. apply Nat.leb_le in P. now rewrite P.
    + intros P. unfold Finalbot.lines_of. apply Nat.leb_gt in P. now rewrite P.
    + intros C. apply contains_spec in C. unfold Finalbot.parts_of. now rewrite C.
    + intros C. unfold Finalbot.parts_of.
      destruct (contains [LF; LF] (strip raw_text)) eqn:E; [|reflexivity].
      apply contains_spec in E as (l1 & l2 & E). now apply C in E.
    + unfold Finalbot.mentions_example. rewrite orb_true_iff, !contains_spec.
      reflexivity.
Qed.

Lemma format_ollama_answer_shape_witness :
  Finalbot.format_ollama_answer [] = py "⚠️ No response from model."
  /\ Finalbot.format_ollama_answer (py "Tea is hot. Ice is cold! For example snow.")
     = py "1. Tea is hot." ++ [LF; LF] ++ py "2. Ice is cold!" ++ [LF; LF]
       ++ py "3. For example snow."
       ++ [LF; LF] ++ py "📘 Example:" ++ [LF] ++ py "Refer to the example given above."
       ++ [LF; LF]
       ++ py "🔎 Source: Answer generated using the uploaded text and Ollama model.".
Proof.
  pose proof (format_ollama_answer_shape []) as (E & _).
  specialize (E eq_refl).
  pose proof (format_ollama_answer_shape
                (py "Tea is hot. Ice is cold! For example snow.")) as (_ & F).
  cbv zeta in F.
  specialize (F ltac:(vm_compute; discriminate)). destruct F as (F & _).
  split; [computed E | computed F].
Defined.

(** C6, as stated, fails three ways.  The empty reply gets no footer.
    The reply [a], [b], [c] on three lines holds no blank line, so cutting
    it at blank lines gives one piece, fewer than three; yet it is
    numbered line by line and not sentence by sentence, which would give
    the one line [1. a b c] with its newlines.  And [See e.g. this.] gets
    the Example note although the word [example] is not in it. *)
Lemma format_ollama_answer_departs :
  endswith Finalbot.SOURCE_FOOTER (Finalbot.format_ollama_answer []) = false
  /\ (length (Finalbot.stripped_nonempty
                (split [LF; LF] (py "a" ++ [LF] ++ py "b" ++ [LF] ++ py "c"))) = 1
      /\ Finalbot.format_ollama_answer (py "a" ++ [LF] ++ py "b" ++ [LF] ++ py "c")
         = py "1. a" ++ [LF; LF] ++ py "2. b" ++ [LF; LF] ++ py "3. c"
           ++ Finalbot.SOURCE_FOOTER
      /\ Finalbot.number_from 1
           (Finalbot.stripped_nonempty
              (Finalbot.re_split_sentences (py "a" ++ [LF] ++ py "b" ++ [LF] ++ py "c")))
         = [py "1. a" ++ [LF] ++ py "b" ++ [LF] ++ py "c"])
  /\ (contains (py "example") (lower (py "See e.g. this.")) = false
      /\ Finalbot.format_ollama_answer (py "See e.g. this.")
         = py "1. See e.g." ++ [LF; LF] ++ py "2. this."
           ++ Finalbot.EXAMPLE_NOTE ++ Finalbot.SOURCE_FOOTER).
Proof. repeat split; vm_compute; reflexivity. Qed.

(** ** The reply of the inference server *)

(** C7 (amended).  The reply is read off the response in this order.
    When the body decodes to an object whose [message] is an object, the
    reply is that object's [content], the empty string when it has none,
    whatever [choices] holds.  Otherwise, when the object has a [choices]
    list that starts with an object, the reply is the [content] of that
    object's [message], the empty string when either is missing.
    Otherwise, when [choices] is missing or empty, the reply is the decoded
    object written out again by [json.dumps], and for a body that decodes
    to something other than an object it is [str] of that value.  The raw
    body is the reply only when decoding raises or one of these look-ups
    does. *)
Theorem assistant_reply_cases (repr_list : list json -> str) (resp : Finalbot.Response) :
  let reply := Finalbot.assistant_reply repr_list resp in
  (Finalbot.resp_json resp = None -> reply = JStr (Finalbot.resp_text resp))
  /\ (forall d m,
        Finalbot.resp_json resp = Some (JDict d) ->
        dict_lookup d (py "message") = Some (JDict m) ->
        reply = dict_get m (py "content") (JStr []))
  /\ (forall d c0 rest,
        Finalbot.resp_json resp = Some (JDict d) ->
        (forall m, dict_lookup d (py "message") <> Some (JDict m)) ->
        dict_lookup d (py "choices") = Some (JList (JDict c0 :: rest)) ->
        reply = match dict_lookup c0 (py "message") with
                | None => JStr []
                | Some (JDict m) => dict_get m (py "content") (JStr [])
                | Some _ => JStr (Finalbot.resp_text resp)
                end)
  /\ (forall d,
        Finalbot.resp_json resp = Some (JDict d) ->
        (forall m, dict_lookup d (py "message") <> Some (JDict m)) ->
        (dict_lookup d (py "choices") = None
         \/ exists choices, dict_lookup d (py "choices") = Some choices
                            /\ Finalbot.py_len choices = Some 0) ->
        reply = JStr (json_dumps (JDict d)))
  /\ (forall data,
        Finalbot.resp_json resp = Some data ->
        (forall d, data <> JDict d) ->
        reply = JStr (Finalbot.py_str repr_list data))
  /\ (forall data,
        Finalbot.resp_json resp = Some data ->
        Finalbot.reply_of_json repr_list data = None ->
        reply = JStr (Finalbot.resp_text resp)).
Proof.
  cbv zeta. unfold Finalbot.assistant_reply.
  split; [|split; [|split; [|split; [|split]]]].
  - intros ->. reflexivity.
  - intros d m -> M. simpl. now rewrite M.
  - intros d c0 rest -> M C. simpl. rewrite C.
    destruct (dict_lookup d (py "message")) as [[| | | | | |m]|] eqn:E;
      try (exfalso; exact (M m eq_refl)); simpl;
      unfold dict_get;
      (destruct (dict_lookup c0 (py "message")) as [[| | | | | |m']|]; reflexivity).
  - intros d -> M C. cbn [Finalbot.resp_json Finalbot.reply_of_json].
    assert (K : match dict_lookup d (py "choices") with
                | Some choices =>
                    match Finalbot.py_len choices with
                    | Some n =>
                        if 0 <? n then
                          match Finalbot.getitem0 choices with
                          | Some c0 =>
                              match Finalbot.method_get c0 (py "message") (JDict []) with
                              | Some m => Finalbot.method_get m (py "content") (JStr [])
                              | None => None
                              end
                          | None => None
                          end
                        else Some (JStr (json_dumps (JDict d)))
                    | None => None
                    end
                | None => Some (JStr (json_dumps (JDict d)))
                end = Some (JStr (json_dumps (JDict d)))).
    { destruct C as [C|(choices & C & L)]; rewrite C; [reflexivity|].
      now rewrite L. }
    destruct (dict_lookup d (py "message")) as [[| | | | | |m]|] eqn:E;
      try (exfalso; exact (M m eq_refl)); now rewrite K.
  - intros data -> D.
    destruct data; try reflexivity. exfalso. now apply (D items).
  - intros data -> R. now rewrite R.
Qed.

Lemma assistant_reply_cases_witness :
  Finalbot.assistant_reply (fun _ => []) chat_answer = JStr (py "Hi").
Proof.
  pose proof (assistant_reply_cases (fun _ => []) chat_answer) as H.
  cbv zeta in H. destruct H as (_ & H & _).
  specialize (H [(py "model", JStr (py "llama3.2"));
                 (py "message", JDict [(py "role", JStr (py "assistant"));
                                       (py "content", JStr (py "Hi"))])]
                [(py "role", JStr (py "assistant")); (py "content", JStr (py "Hi"))]
                ltac:(by_vm) ltac:(by_vm)).
  computed H.
Defined.

(** C7, as stated, fails twice.  For a body with an [error] field and
    neither [message] nor [choices], the reply is the decoded object
    written out by [json.dumps], with a space after the colon, and not the
    raw body.  For a body whose [message] has no [content], the first
    attempt yields nothing, yet the reply is the empty string and the
    [content] under [choices] is not used. *)
Lemma assistant_reply_departs :
  (reply_as_specified model_not_found = JStr (Finalbot.resp_text model_not_found)
   /\ ~ (exists repr_list,
           Finalbot.assistant_reply repr_list model_not_found
           = reply_as_specified model_not_found))
  /\ (reply_as_specified message_without_content = JStr (py "Hi")
      /\ ~ (exists repr_list,
              Finalbot.assistant_reply repr_list message_without_content
              = reply_as_specified message_without_content)).
Proof.
  split; split; try reflexivity.
  - intros (r & H). vm_compute in H. discriminate H.
  - intros (r & H). vm_compute in H. discriminate H.
Qed.

(** ** The clipboard poll *)






(** ** Splitting and joining *)

Lemma split_not_nil (sep s : str) : split sep s <> [].
Proof. funelim (split sep s); simp split; try rewrite <- Heqcall; discriminate. Qed.

(** Joining the pieces of a split with the separator gives the string
    back. *)
Lemma join_split (sep s : str) : join sep (split sep s) = s.
Proof.
  funelim (split sep s); try rewrite <- Heqcall; try reflexivity.
  pose proof (split_not_nil (c :: sep') (skipn (i + S (length sep')) s)) as N.
  destruct (split (c :: sep') (skipn (i + S (length sep')) s)) as [|p ps] eqn:E;
    [congruence|].
  change (join (c :: sep') (firstn i s :: p :: ps))
    with (firstn i s ++ (c :: sep') ++ join (c :: sep') (p :: ps)).
  rewrite H. symmetry. exact (find_Some _ _ e).
Qed.

(** ** Whitespace-separated words *)

Lemma split_ws_from_words (s cur : str) :
  (forall c, In c cur -> isspace c = false) ->
  Forall word (split_ws_from cur s).
Proof.
  revert cur. induction s as [|c s IH]; intros cur Hcur; simpl.
  - destruct cur as [|x cur]; constructor; [|constructor].
    split.
    + intros E. apply (f_equal (@length _)) in E. rewrite length_rev in E. discriminate E.
    + intros y Hy. apply in_rev in Hy. now apply Hcur.
  - destruct (isspace c) eqn:Ec.
    + destruct cur as [|x cur].
      * apply IH. intros y [].
      * constructor; [|apply IH; intros y []].
        split.
        -- intros E. apply (f_equal (@length _)) in E. rewrite length_rev in E.
           discriminate E.
        -- intros y Hy. apply in_rev in Hy. now apply Hcur.
    + apply IH. intros y [<-|Hy]; [exact Ec | now apply Hcur].
Qed.

Lemma split_ws_words (s : str) : Forall word (split_ws s).
Proof. apply split_ws_from_words. intros c []. Qed.

Lemma join_words_spaced (ws : list str) :
  Forall word ws -> ws <> [] -> spaced (join [SP] ws).
Proof.
  induction ws as [|w ws IH]; intros F N; [congruence|].
  inversion F as [|? ? Hw Hws]; subst.
  destruct ws as [|w' ws].
  - now apply spaced_one.
  - change (join [SP] (w :: w' :: ws)) with (w ++ SP :: join [SP] (w' :: ws)).
    apply spaced_more; [exact Hw|]. apply IH; [exact Hws | discriminate].
Qed.

Lemma spaced_head (a : str) : spaced a -> exists c r, a = c :: r /\ isspace c = false.
Proof.
  intros [w [N W]|w r [N W] _]; destruct w as [|c w]; try congruence.
  - exists c, w. split; [reflexivity | apply W; now left].
  - exists c, (w ++ SP :: r). split; [reflexivity | apply W; now left].
Qed.

Lemma spaced_last (a : str) : spaced a -> exists l c, a = l ++ [c] /\ isspace c = false.
Proof.
  induction 1 as [w [N W]|w r _ _ (l & c & -> & C)].
  - destruct (exists_last N) as (l & c & ->). exists l, c. split; [reflexivity|].
    apply W, in_or_app. right. now left.
  - exists (w ++ SP :: l), c. split; [|exact C]. now rewrite <- app_assoc.
Qed.

Lemma spaced_whitespace (a : str) (c : codepoint) :
  spaced a -> In c a -> isspace c = true -> c = SP.
Proof.
  induction 1 as [w [N W]|w r [N W] _ IH]; intros I S.
  - apply W in I. congruence.
  - apply in_app_or in I as [I|[I|I]].
    + apply W in I. congruence.
    + now symmetry.
    + now apply IH.
Qed.

Lemma spaced_no_double (a : str) : spaced a -> forall l r, a <> l ++ SP :: SP :: r.
Proof.
  assert (NS : forall w, word w -> ~ In SP w).
  { intros w [_ W] I. apply W in I. vm_compute in I. discriminate I. }
  induction 1 as [w Hw|w r0 Hw Hr IH]; intros l r E.
  - apply (NS w Hw). rewrite E. apply in_or_app. right. now left.
  - apply app_eq_app in E as (m & [(E1 & E2)|(E1 & E2)]).
    + destruct m as [|x m].
      * injection E2 as E2. destruct (spaced_head Hr) as (c & t & -> & C).
        injection E2 as <- _. vm_compute in C. discriminate C.
      * injection E2 as <- _. apply (NS w Hw). rewrite E1.
        apply in_or_app. right. now left.
    + destruct m as [|x m].
      * injection E2 as E2. destruct (spaced_head Hr) as (c & t & -> & C).
        injection E2 as -> _. vm_compute in C. discriminate C.
      * injection E2 as _ E2. exact (IH _ _ E2).
Qed.

(** Words joined by single spaces are single-spaced text. *)
Lemma join_words_single_spaced (ws : list str) :
  Forall word ws -> single_spaced (join [SP] ws).
Proof.
  intros F. destruct ws as [|w ws].
  - simpl. split; [intros []|]. split; [intros c []|].
    split; [intros r E; discriminate E|].
    split; [intros l E; destruct l; discriminate E|].
    intros l r E; destruct l; discriminate E.
  - assert (S : spaced (join [SP] (w :: ws))) by (apply join_words_spaced; congruence).
    split; [|split; [|split; [|split]]].
    + intros I. apply (spaced_whitespace LF S) in I; [discriminate I | reflexivity].
    + intros c. apply (spaced_whitespace c S).
    + intros r E. destruct (spaced_head S) as (c & t & E' & C).
      rewrite E in E'. injection E' as <- _. vm_compute in C. discriminate C.
    + intros l E. destruct (spaced_last S) as (l' & c & E' & C).
      rewrite E in E'. apply app_inj_tail in E' as [_ <-]. vm_compute in C. discriminate C.
    + apply (spaced_no_double S).
Qed.

Lemma normalize_single_spaced (response_field : str) :
  single_spaced (App.normalize response_field).
Proof. apply join_words_single_spaced, split_ws_words. Qed.

(** ** The streamed body *)

Lemma generate_from_concat (words : list str) (i n : nat) :
  n = i + length words -> concat (App.generate_from i n words) = join [SP] words.
Proof.
  revert i. induction words as [|w ws IH]; intros i N; [reflexivity|].
  cbn [App.generate_from concat]. rewrite IH by (simpl in N; lia).
  destruct ws as [|w' ws].
  - simpl in N. replace (i <? n - 1) with false
      by (symmetry; apply Nat.ltb_ge; lia).
    simpl. now rewrite !app_nil_r.
  - simpl in N. replace (i <? n - 1) with true
      by (symmetry; apply Nat.ltb_lt; lia).
    change (join [SP] (w :: w' :: ws)) with (w ++ [SP] ++ join [SP] (w' :: ws)).
    now rewrite <- app_assoc.
Qed.

(** The chunks of [generate] put together are the answer. *)
Lemma generate_concat (answer : str) : concat (App.generate answer) = answer.
Proof.
  unfold App.generate. rewrite generate_from_concat by reflexivity.
  apply join_split.
Qed.

(** ** An inference call of the web server *)

Lemma get_ollama_response_cases (cfg : App.Config) (w : App.World) (py_str : json -> str)
    (latest question : str) (context language : json) :
  App.get_ollama_response cfg w py_str latest question context language
  = ([App.requests_post (App.OLLAMA_URL cfg ++ py "/api/generate")
        (App.prompt_of py_str question context language)],
     Returns (match answer_of w with
              | Some a => (Some a, a)
              | None => (None, latest)
              end)).
Proof.
  unfold App.get_ollama_response, answer_of.
  destruct (App.requests_post_outcome w) as [[sc js]|e]; [|reflexivity].
  run_simpl. destruct (sc =? 200); [|reflexivity].
  destruct js as [data|e]; [|reflexivity]. simpl.
  destruct (App.response_field data); reflexivity.
Qed.

Lemma answer_of_normalized (w : App.World) (a : str) :
  answer_of w = Some a -> single_spaced a.
Proof.
  unfold answer_of.
  destruct (App.requests_post_outcome w) as [[sc js]|e]; [|discriminate].
  simpl. destruct (sc =? 200); [|discriminate].
  destruct js as [data|e]; [|discriminate].
  destruct (App.response_field data) as [f|]; [|discriminate].
  intros [= <-]. apply normalize_single_spaced.
Qed.

(** ** The body of a request *)

Lemma stream_text_wellformed (cfg : App.Config) (w : App.World) (py_str : json -> str)
    (latest : str) (d : list (str * json)) (s : str) :
  dict_get d (py "question") (JStr []) = JStr s ->
  App.stream_text cfg w py_str latest (Returns (JDict d))
  = if negb (truthy (strip s)) then
      ([], Returns (App.error_response (py "Please enter a question") 400, latest))
    else
      ([App.requests_post (App.OLLAMA_URL cfg ++ py "/api/generate")
          (App.prompt_of py_str (strip s) (dict_get d (py "context") (JStr []))
             (dict_get d (py "language") (JStr (py "english"))))],
       Returns (match answer_of w with
                | Some a =>
                    if truthy a then
                      ({| App.status := 200; App.mimetype := py "text/plain";
                          App.response_body := App.Text (App.generate a) |}, a)
                    else (App.error_response (py "Failed to get response") 500, a)
                | None => (App.error_response (py "Failed to get response") 500, latest)
                end)).
Proof.
  intros Q. unfold App.stream_text.
  rewrite bind_lift_returns. cbn [App.get]. rewrite bind_lift_returns, Q.
  cbn [App.strip_value]. rewrite !bind_lift_returns.
  destruct (negb (truthy (strip s))); [reflexivity|].
  rewrite get_ollama_response_cases. run_simpl.
  destruct (answer_of w) as [a|]; [|reflexivity].
  destruct (truthy a); reflexivity.
Qed.

(** A body that is no object, or whose [question] is no string, makes
    the handler raise before it does anything. *)
Lemma stream_text_malformed (cfg : App.Config) (w : App.World) (py_str : json -> str)
    (latest : str) (body : outcome json) :
  (forall e, body = Raises e ->
             App.stream_text cfg w py_str latest body = ([], Raises e))
  /\ (forall data, body = Returns data -> (forall d, data <> JDict d) ->
                   App.stream_text cfg w py_str latest body
                   = ([], Raises (App.AttributeError data (py "get"))))
  /\ (forall d v, body = Returns (JDict d) ->
                  dict_get d (py "question") (JStr []) = v -> (forall s, v <> JStr s) ->
                  App.stream_text cfg w py_str latest body
                  = ([], Raises (App.AttributeError v (py "strip")))).
Proof.
  unfold App.stream_text. split; [|split].
  - intros e ->. reflexivity.
  - intros data -> N. rewrite bind_lift_returns.
    destruct data; try reflexivity. now destruct (N items).
  - intros d v -> Q N. rewrite bind_lift_returns. cbn [App.get].
    rewrite bind_lift_returns, Q.
    destruct v; try reflexivity. now destruct (N s).
Qed.

Lemma stream_text_returns (cfg : App.Config) (w : App.World) (py_str : json -> str)
    (latest : str) (body : outcome json) (x : App.FlaskResponse * str) :
  result (App.stream_text cfg w py_str latest body) = Returns x ->
  exists d s, body = Returns (JDict d) /\ dict_get d (py "question") (JStr []) = JStr s.
Proof.
  destruct (stream_text_malformed cfg w py_str latest body) as (M1 & M2 & M3).
  destruct body as [data|e]; [|rewrite (M1 e eq_refl); discriminate].
  destruct data as [| | | | |l|d];
    try (rewrite (M2 _ eq_refl) by discriminate; discriminate).
  destruct (dict_get d (py "question") (JStr [])) as [| | | |s| |] eqn:Q;
    try (rewrite (M3 d _ eq_refl Q) by discriminate; discriminate).
  intros _. now exists d, s.
Qed.

(** ** The streamed answer *)

(** C10.  Every answer an inference call of the web server returns is
    what it stores as the latest answer, and is normalized: it holds no
    newline, and no whitespace but single spaces between words, none in
    front, none at the end and no two in a row.  The chunks that
    [POST /api/ask-stream] streams with status 200 put together are that
    answer, so the streamed body is normalized too. *)
Theorem answer_is_normalized (cfg : App.Config) (w : App.World) (py_str : json -> str)
    (latest question : str) (context language : json) (body : outcome json) :
  (forall a latest',
     result (App.get_ollama_response cfg w py_str latest question context language)
     = Returns (Some a, latest') ->
     latest' = a /\ single_spaced a)
  /\ (forall r latest',
        result (App.stream_text cfg w py_str latest body) = Returns (r, latest') ->
        App.status r = 200 ->
        App.response_body r = App.Text (App.generate latest')
        /\ concat (App.generate latest') = latest'
        /\ latest' <> []
        /\ single_spaced latest').
Proof.
  split.
  - intros a latest'. rewrite get_ollama_response_cases. cbn [result snd].
    destruct (answer_of w) as [a'|] eqn:A; [|discriminate].
    intros E. injection E as E1 E2. subst a' latest'.
    split; [reflexivity | exact (answer_of_normalized w A)].
  - intros r latest' R.
    destruct (stream_text_returns _ _ _ _ _ R) as (d & s & -> & Q).
    revert R. rewrite (stream_text_wellformed cfg w py_str latest d Q).
    destruct (negb (truthy (strip s))); cbn [result snd].
    + intros E. injection E as E1 E2. subst r. discriminate.
    + destruct (answer_of w) as [a|] eqn:A.
      * destruct (truthy a) eqn:T; intros E; injection E as E1 E2; subst r latest';
          [|discriminate].
        intros _. split; [reflexivity|]. split; [apply generate_concat|].
        split; [now apply truthy_true | exact (answer_of_normalized w A)].
      * intros E. injection E as E1 E2. subst r. discriminate.
Qed.

Lemma answer_is_normalized_witness :
  result (App.get_ollama_response app_config two_line_answer no_str [] (py "Is tea hot?")
            (JStr []) (JStr (py "english")))
  = Returns (Some (py "Tea is hot. Ice is cold."), py "Tea is hot. Ice is cold.")
  /\ single_spaced (py "Tea is hot. Ice is cold.")
  /\ result (App.stream_text app_config two_line_answer no_str [] ask_tea)
     = Returns ({| App.status := 200; App.mimetype := py "text/plain";
                   App.response_body :=
                     App.Text [py "Tea "; py "is "; py "hot. "; py "Ice "; py "is ";
                               py "cold."] |},
                py "Tea is hot. Ice is cold.").
Proof.
  pose proof (answer_is_normalized app_config two_line_answer no_str [] (py "Is tea hot?")
                (JStr []) (JStr (py "english")) ask_tea) as (G & S).
  specialize (G (py "Tea is hot. Ice is cold.") (py "Tea is hot. Ice is cold.")
                ltac:(by_vm)).
  destruct G as (_ & G).
  specialize (S {| App.status := 200; App.mimetype := py "text/plain";
                   App.response_body :=
                     App.Text [py "Tea "; py "is "; py "hot. "; py "Ice "; py "is ";
                               py "cold."] |}
                (py "Tea is hot. Ice is cold.") ltac:(by_vm) eq_refl).
  split; [by_vm|]. split; [exact G | by_vm].
Defined.

(** ** The audio endpoint *)

Lemma get_best_voice_cases (cfg : App.Config) (w : App.World) :
  App.get_best_voice cfg w
  = if negb (App.polly_client cfg) then ([], Returns (None, None))
    else ([App.describe_voices],
          Returns (match App.describe_voices_outcome w with
                   | Returns voices =>
                       match best_voice voices with
                       | Some id => (Some id, Some (py "neural"))
                       | None => (None, None)
                       end
                   | Raises _ => (None, None)
                   end)).
Proof.
  unfold App.get_best_voice, best_voice.
  destruct (negb (App.polly_client cfg)); [reflexivity|].
  destruct (App.describe_voices_outcome w) as [voices|e]; [|reflexivity].
  run_simpl. destruct (App.first_en_IN voices); [reflexivity|].
  destruct voices as [|[id code] voices]; reflexivity.
Qed.



(** The handler once the question is read. *)
Lemma stream_audio_wellformed (cfg : App.Config) (w : App.World) (py_str : json -> str)
    (latest : str) (d : list (str * json)) (s : str) :
  dict_get d (py "question") (JStr []) = JStr s ->
  App.stream_audio cfg w py_str latest (Returns (JDict d))
  = if negb (truthy (strip s)) || negb (App.polly_client cfg) then
      ([], Returns (App.error_response (py "Audio not available") 500, latest))
    else if truthy latest then App.speak cfg w latest latest
    else
      (App.requests_post (App.OLLAMA_URL cfg ++ py "/api/generate")
         (App.prompt_of py_str (strip s) (JStr []) (JStr (py "english")))
       :: match answer_of w with
          | Some a => if truthy a then trace (App.speak cfg w a a) else []
          | None => []
          end,
       match answer_of w with
       | Some a =>
           if truthy a then result (App.speak cfg w a a)
           else Returns (App.error_response (py "Failed to generate audio") 500, a)
       | None => Returns (App.error_response (py "Failed to generate audio") 500, latest)
       end).
Proof.
  intros Q. unfold App.stream_audio.
  rewrite bind_lift_returns. cbn [App.get]. rewrite bind_lift_returns, Q.
  cbn [App.strip_value]. rewrite bind_lift_returns.
  destruct (negb (truthy (strip s)) || negb (App.polly_client cfg)); [reflexivity|].
  destruct (truthy latest) eqn:L.
  - rewrite bind_ret, L. reflexivity.
  - rewrite get_ollama_response_cases. unfold bind, trace, result.
    destruct (answer_of w) as [a|]; [|reflexivity].
    destruct (truthy a); [|reflexivity].
    destruct (App.speak cfg w a a) as [t r]. reflexivity.
Qed.

Lemma stream_audio_malformed (cfg : App.Config) (w : App.World) (py_str : json -> str)
    (latest : str) (body : outcome json) :
  (forall e, body = Raises e ->
             App.stream_audio cfg w py_str latest body = ([], Raises e))
  /\ (forall data, body = Returns data -> (forall d, data <> JDict d) ->
                   App.stream_audio cfg w py_str latest body
                   = ([], Raises (App.AttributeError data (py "get"))))
  /\ (forall d v, body = Returns (JDict d) ->
                  dict_get d (py "question") (JStr []) = v -> (forall s, v <> JStr s) ->
                  App.stream_audio cfg w py_str latest body
                  = ([], Raises (App.AttributeError v (py "strip")))).
Proof.
  unfold App.stream_audio. split; [|split].
  - intros e ->. reflexivity.
  - intros data -> N. rewrite bind_lift_returns.
    destruct data; try reflexivity. now destruct (N items).
  - intros d v -> Q N. rewrite bind_lift_returns. cbn [App.get].
    rewrite bind_lift_returns, Q.
    destruct v; try reflexivity. now destruct (N s).
Qed.





(* ===================================================================== *)
(** * Further properties of the code *)
(* ===================================================================== *)

(** ** The listing fails *)

Lemma Finalbot_run_body_unfold (cfg : Finalbot.Config) (w : Finalbot.World) (path : str) :
  Finalbot.run cfg w path
  = match Finalbot.storage_gateway cfg w path (basename path) with
    | (t, Returns _) =>
        t ++ trace (Finalbot.extraction_step w path)
          ++ trace (Finalbot.secondary_storage_step cfg w (basename path) (extracted w))
    | (t, Raises e) => t ++ [Finalbot.progress (thread_error_message e)]
    end.
Proof.
  destruct (Finalbot.storage_gateway cfg w path (basename path)) as [t [[]|e]] eqn:G.
  - rewrite Finalbot_run_after_gateway by (now rewrite G). now rewrite G.
  - rewrite Finalbot_run_gateway_raises with (e := e) by (now rewrite G). now rewrite G.
Qed.

(** X1.  A listing that raises is taken for a listing without the file:
    the run goes on exactly as if the bucket had listed nothing, so the
    file is uploaded. *)
Theorem failed_listing_uploads (cfg : Finalbot.Config) (w : Finalbot.World)
    (path : str) (e : exception) :
  Finalbot.list_objects_v2_outcome w = Raises e ->
  Finalbot.run cfg w path = Finalbot.run cfg (with_listing w (Returns None)) path
  /\ FinalbotTrace.uploads (Finalbot.run cfg w path)
     = [(path, Finalbot.AWS_BUCKET_NAME cfg, basename path)].
Proof.
  intros L. split.
  - rewrite !Finalbot_run_body_unfold, !Finalbot_storage_gateway. cbv zeta.
    unfold listed_as_duplicate. rewrite L. reflexivity.
  - rewrite Finalbot_uploads_of_run. unfold listed_as_duplicate. now rewrite L.
Qed.

Lemma failed_listing_uploads_witness :
  Finalbot.run both_buckets listing_denied (py "/home/user/notes.pdf")
  = Finalbot.run both_buckets notes_world (py "/home/user/notes.pdf")
  /\ FinalbotTrace.uploads (Finalbot.run both_buckets listing_denied (py "/home/user/notes.pdf"))
     = [(py "/home/user/notes.pdf", Some (py "uploadpdf2025"), py "notes.pdf")].
Proof.
  pose proof (@failed_listing_uploads both_buckets listing_denied
                (py "/home/user/notes.pdf") access_denied ltac:(by_vm)) as (R & U).
  split; [computed R | computed U].
Defined.

(** ** Pages without text *)

Lemma pages_outcome_shape (pages : list (outcome (option str))) (text r : str) :
  pages_outcome pages text = Returns r ->
  (pages = [] -> r = text) /\ (pages <> [] -> exists t, r = t ++ [LF; LF]).
Proof.
  revert text. induction pages as [|[t|e] pages IH]; intros text; simpl.
  - intros [= <-]. split; [reflexivity | congruence].
  - intros H. split; [discriminate|]. intros _.
    destruct (IH _ H) as (E & N). destruct pages as [|p pages].
    + rewrite (E eq_refl). exists (text ++ Finalbot.or_empty t). now rewrite <- app_assoc.
    + apply N. discriminate.
  - discriminate.
Qed.

Lemma Finalbot_stores_of_run (cfg : Finalbot.Config) (w : Finalbot.World) (path : str) :
  result (Finalbot.storage_gateway cfg w path (basename path)) = Returns tt ->
  FinalbotTrace.stores (Finalbot.run cfg w path)
  = if truthy (extracted w) && truthy_opt (Finalbot.AWS_EXTRACT_BUCKET cfg)
    then [(fmt_opt (Finalbot.AWS_EXTRACT_BUCKET cfg), text_key (basename path), extracted w)]
    else [].
Proof.
  intros G. rewrite (Finalbot_run_after_gateway _ _ _ G).
  destruct (Finalbot_gateway_trace_quiet cfg w path (basename path)) as (S1 & _).
  destruct (Finalbot_extraction_trace_quiet w path) as (_ & S2 & _).
  unfold FinalbotTrace.stores in *. rewrite !flat_map_app, S1, S2. simpl.
  unfold Finalbot.secondary_storage_step, text_key.
  destruct (truthy (extracted w) && truthy_opt (Finalbot.AWS_EXTRACT_BUCKET cfg));
    [|reflexivity].
  destruct (Finalbot.put_object_outcome w) as [[]|e]; reflexivity.
Qed.

(** X2.  The extraction step of main.py returns the empty string only
    when reading the PDF raised or the PDF has no page; whenever a PDF
    with at least one page could be read, the text ends with a blank line
    and so is not empty, even if no page holds any text.  With an extract
    bucket configured such text is therefore stored, also for a scanned
    PDF. *)
Theorem extracted_text_empty_only_without_pages
    (cfg : Finalbot.Config) (w : Finalbot.World) (path text : str) :
  result (Finalbot.extraction_step w path) = Returns text ->
  (text = []
   <-> (exists e, pdf_outcome (Finalbot.PdfReader_outcome w) = Raises e)
       \/ Finalbot.PdfReader_outcome w = Returns [])
  /\ (forall pages,
        Finalbot.PdfReader_outcome w = Returns pages -> pages <> [] ->
        (forall e, pdf_outcome (Finalbot.PdfReader_outcome w) <> Raises e) ->
        (exists t, text = t ++ [LF; LF])
        /\ (result (Finalbot.storage_gateway cfg w path (basename path)) = Returns tt ->
            truthy_opt (Finalbot.AWS_EXTRACT_BUCKET cfg) = true ->
            FinalbotTrace.stores (Finalbot.run cfg w path)
            = [(fmt_opt (Finalbot.AWS_EXTRACT_BUCKET cfg), text_key (basename path), text)])).
Proof.
  rewrite Finalbot_extraction_step_extracted. intros [= <-].
  unfold extracted, pdf_outcome.
  destruct (Finalbot.PdfReader_outcome w) as [pages|e0] eqn:R.
  - destruct (pages_outcome pages []) as [r|e1] eqn:O.
    + destruct (pages_outcome_shape pages [] O) as (E & N). split.
      * split.
        -- intros ->. right. destruct pages as [|p pages]; [reflexivity|].
           destruct N as (t & T); [discriminate|]. destruct t; discriminate T.
        -- intros [(e & X)|X]; [discriminate X|]. injection X as ->. now apply E.
      * intros pages' [= <-] NE X. split; [now apply N|].
        intros G B. rewrite (Finalbot_stores_of_run _ _ _ G), B.
        unfold extracted, pdf_outcome. rewrite R, O.
        destruct (N NE) as (t & ->). destruct t; reflexivity.
    + split.
      * split; [intros _; left; now exists e1 | reflexivity].
      * intros pages' [= <-] NE X. exfalso. now apply (X e1).
  - split.
    + split; [intros _; left; now exists e0 | reflexivity].
    + intros pages' R'. discriminate R'.
Qed.

Lemma extracted_text_empty_only_without_pages_witness :
  result (Finalbot.extraction_step scanned_pdf (py "/home/user/scan.pdf"))
  = Returns [LF; LF; LF; LF]
  /\ FinalbotTrace.stores (Finalbot.run both_buckets scanned_pdf (py "/home/user/scan.pdf"))
     = [(py "extractpdf202", py "scan.txt", [LF; LF; LF; LF])].
Proof.
  pose proof (@extracted_text_empty_only_without_pages both_buckets scanned_pdf
                (py "/home/user/scan.pdf") [LF; LF; LF; LF] ltac:(by_vm)) as (_ & H).
  specialize (H [Returns None; Returns (Some [])] ltac:(by_vm) ltac:(discriminate)
                ltac:(intros e; vm_compute; discriminate)).
  destruct H as (_ & H). specialize (H ltac:(by_vm) ltac:(by_vm)).
  split; [by_vm | computed H].
Defined.

(** ** The popup that started the upload *)

Lemma truthy_app_r (a b : str) : b <> [] -> truthy (a ++ b) = true.
Proof. intros N. apply truthy_true. intros E. apply app_eq_nil in E as [_ E]. contradiction. Qed.

Lemma text_key_truthy (filename : str) : truthy (text_key filename) = true.
Proof. apply truthy_app_r. vm_compute. discriminate. Qed.

(** X3.  After a file was selected and the signals of its run were
    handled: when the upload step of the run returned, both buttons are
    enabled, the popup holds the extracted text, and its key is the
    storage key when the text was stored and the key it had otherwise;
    when the upload raised, the popup shows the error as its status and
    keeps the text and key it had, and the upload button stays disabled,
    since only the notification of extracted text enables it again. *)
Theorem popup_after_upload (cfg : Finalbot.Config) (w : Finalbot.World)
    (st : Finalbot.DocumentQAPopup) (path : str) :
  path <> [] ->
  let st' := Finalbot.upload_and_handle cfg w st path true in
  let filename := basename path in
  (result (Finalbot.storage_gateway cfg w path filename) = Returns tt ->
   Finalbot.upload_btn_enabled st' = true
   /\ Finalbot.ask_btn_enabled st' = true
   /\ Finalbot.pdf_extracted_text st' = extracted w
   /\ Finalbot.status_label st' = py "✅ PDF loaded for Q&A."
   /\ Finalbot.current_pdf_key st'
      = if truthy (extracted w) && truthy_opt (Finalbot.AWS_EXTRACT_BUCKET cfg)
           && returned (Finalbot.put_object_outcome w)
        then Some (text_key filename) else Finalbot.current_pdf_key st)
  /\ (forall e,
        result (Finalbot.storage_gateway cfg w path filename) = Raises e ->
        Finalbot.upload_btn_enabled st' = false
        /\ Finalbot.pdf_extracted_text st' = Finalbot.pdf_extracted_text st
        /\ Finalbot.current_pdf_key st' = Finalbot.current_pdf_key st
        /\ Finalbot.answer_area st' = Finalbot.answer_area st
        /\ Finalbot.status_label st' = thread_error_message e).
Proof.
  intros NP. cbv zeta. unfold Finalbot.upload_and_handle, Finalbot.select_file.
  apply truthy_true in NP. rewrite NP. cbn [negb orb].
  rewrite Finalbot_run_body_unfold, Finalbot_storage_gateway. cbv zeta.
  rewrite Finalbot_extraction_step. unfold extracted, Finalbot.secondary_storage_step.
  pose proof (text_key_truthy (basename path)) as K. unfold text_key in *.
  destruct (listed_as_duplicate w (basename path));
    [|destruct (Finalbot.upload_file_outcome w) as [[]|e0]];
    (split; [intros G | intros e G]); try discriminate G.
  - destruct (pdf_outcome (Finalbot.PdfReader_outcome w)) as [text|e]; cbn [trace fst].
    + destruct (truthy text && truthy_opt (Finalbot.AWS_EXTRACT_BUCKET cfg)).
      * destruct (Finalbot.put_object_outcome w) as [[]|e]; simpl;
          rewrite ?K; repeat split; reflexivity.
      * simpl. repeat split; reflexivity.
    + simpl. repeat split; reflexivity.
  - destruct (pdf_outcome (Finalbot.PdfReader_outcome w)) as [text|e]; cbn [trace fst].
    + destruct (truthy text && truthy_opt (Finalbot.AWS_EXTRACT_BUCKET cfg)).
      * destruct (Finalbot.put_object_outcome w) as [[]|e]; simpl;
          rewrite ?K; repeat split; reflexivity.
      * simpl. repeat split; reflexivity.
    + simpl. repeat split; reflexivity.
  - simpl in G. injection G as <-. simpl. repeat split; reflexivity.
Qed.

Lemma popup_after_upload_witness :
  (Finalbot.upload_btn_enabled
     (Finalbot.upload_and_handle both_buckets notes_world Finalbot.new_popup
        (py "/home/user/notes.pdf") true) = true
   /\ Finalbot.current_pdf_key
        (Finalbot.upload_and_handle both_buckets notes_world Finalbot.new_popup
           (py "/home/user/notes.pdf") true) = Some (py "notes.txt"))
  /\ Finalbot.upload_btn_enabled
       (Finalbot.upload_and_handle both_buckets upload_refused Finalbot.new_popup
          (py "/home/user/notes.pdf") true) = false.
Proof.
  assert (N : py "/home/user/notes.pdf" <> []) by (vm_compute; discriminate).
  pose proof (@popup_after_upload both_buckets notes_world Finalbot.new_popup
                (py "/home/user/notes.pdf") N) as H.
  cbv zeta in H. destruct H as (H & _).
  specialize (H ltac:(by_vm)). destruct H as (U & _ & _ & _ & C).
  pose proof (@popup_after_upload both_buckets upload_refused Finalbot.new_popup
                (py "/home/user/notes.pdf") N) as H.
  cbv zeta in H. destruct H as (_ & H).
  specialize (H no_credentials ltac:(by_vm)). destruct H as (F & _).
  split; [split; [exact U | computed C] | exact F].
Defined.

(** ** A question about the PDF *)



(** ** No exception leaves the upload thread *)

Lemma Finalbot_run_body_returns (cfg : Finalbot.Config) (w : Finalbot.World) (path : str) :
  result (Finalbot.run_body cfg w path) = Returns tt.
Proof.
  unfold Finalbot.run_body. cbv zeta.
  destruct (result (Finalbot.storage_gateway cfg w path (basename path))) as [[]|e] eqn:G.
  - rewrite try_except_returns with (a := tt).
    + rewrite (result_bind _ _ G).
      rewrite (result_bind _ _ (Finalbot_extraction_step_extracted w path)).
      apply Finalbot_secondary_storage_step_returns.
    + rewrite (result_bind _ _ G).
      rewrite (result_bind _ _ (Finalbot_extraction_step_extracted w path)).
      apply Finalbot_secondary_storage_step_returns.
  - destruct (trace_bind_raises
                (Finalbot.storage_gateway cfg w path (basename path))
                (fun _ => bind (Finalbot.extraction_step w path)
                            (fun text =>
                               Finalbot.secondary_storage_step cfg w (basename path) text))
                G) as [_ R].
    destruct (try_except_raises _
                (fun e => emit (Finalbot.progress
                                  (py "⚠️ UploadThread error: " ++ exc_str e ++ [LF]
                                   ++ exc_traceback e))) R) as [_ R'].
    rewrite R'. reflexivity.
Qed.

Lemma Finalbot_secondary_storage_step_last (cfg : Finalbot.Config) (w : Finalbot.World)
    (filename text : str) :
  exists tr key,
    trace (Finalbot.secondary_storage_step cfg w filename text)
    = tr ++ [Finalbot.extracted_text_signal text key].
Proof.
  unfold Finalbot.secondary_storage_step.
  destruct (truthy text && truthy_opt (Finalbot.AWS_EXTRACT_BUCKET cfg)).
  - destruct (Finalbot.put_object_outcome w) as [[]|e].
    + eexists [_; _], _. reflexivity.
    + eexists [_; _], _. reflexivity.
  - now exists [], [].
Qed.

(** X5.  [UploadThread.run] lets no exception escape, in main.py and in
    app.py, and the last thing a run does is tell its listeners how it
    ended: main.py ends with the notification of the extracted text or
    with the message of its catch-all handler, app.py with the
    notification of the text or with its error message.  In app.py, with
    no primary bucket configured, a readable PDF is neither uploaded nor
    stored and its text is notified all the same. *)
Theorem upload_thread_run_ends_with_signal
    (cfg : Finalbot.Config) (w : Finalbot.World)
    (acfg : App.Config) (aw : App.UploadWorld) (path : str) :
  result (Finalbot.run_body cfg w path) = Returns tt
  /\ (exists tr last,
        Finalbot.run cfg w path = tr ++ [last]
        /\ ((exists key, last = Finalbot.extracted_text_signal (extracted w) key)
            \/ (exists e, last = Finalbot.progress (thread_error_message e))))
  /\ result (App.run_body acfg aw path) = Returns tt
  /\ (exists tr last,
        App.run acfg aw path = tr ++ [last]
        /\ ((exists text, pdf_outcome (App.PdfReader_outcome aw) = Returns text
                          /\ last = App.extracted_text text)
            \/ (exists e, last = App.progress (py "❌ Error: " ++ exc_str e))))
  /\ (forall text,
        App.AWS_BUCKET_NAME acfg = [] ->
        pdf_outcome (App.PdfReader_outcome aw) = Returns text ->
        App.run acfg aw path = [App.PdfReader path; App.extracted_text text]).
Proof.
  split; [apply Finalbot_run_body_returns|]. split; [|split; [|split]].
  - rewrite Finalbot_run_body_unfold.
    destruct (Finalbot.storage_gateway cfg w path (basename path)) as [t [[]|e]].
    + destruct (Finalbot_secondary_storage_step_last cfg w (basename path) (extracted w))
        as (tr & key & ->).
      exists (t ++ trace (Finalbot.extraction_step w path) ++ tr),
             (Finalbot.extracted_text_signal (extracted w) key).
      split; [now rewrite <- !app_assoc | left; now exists key].
    + exists t, (Finalbot.progress (thread_error_message e)).
      split; [reflexivity | right; now exists e].
  - unfold App.run_body. cbv zeta. rewrite App_extract. unfold App.upload.
    destruct (pdf_outcome (App.PdfReader_outcome aw)) as [text|e]; [|reflexivity].
    run_simpl. destruct (truthy (App.AWS_BUCKET_NAME acfg)); [|reflexivity].
    destruct (App.upload_file_outcome aw) as [[]|e]; [|reflexivity].
    destruct (truthy text && truthy (App.AWS_EXTRACT_BUCKET acfg)); [|reflexivity].
    destruct (App.put_object_outcome aw) as [[]|e]; reflexivity.
  - unfold App.run, App.run_body. cbv zeta. rewrite App_extract. unfold App.upload.
    destruct (pdf_outcome (App.PdfReader_outcome aw)) as [text|e].
    + run_simpl. destruct (truthy (App.AWS_BUCKET_NAME acfg)).
      * destruct (App.upload_file_outcome aw) as [[]|e].
        -- destruct (truthy text && truthy (App.AWS_EXTRACT_BUCKET acfg)).
           ++ destruct (App.put_object_outcome aw) as [[]|e].
              ** eexists [_; _; _; _; _], _. split; [reflexivity|].
                 left. now exists text.
              ** eexists [_; _; _; _], _. split; [reflexivity|].
                 right. now exists e.
           ++ eexists [_; _; _], _. split; [reflexivity|]. left. now exists text.
        -- eexists [_; _], _. split; [reflexivity|]. right. now exists e.
      * eexists [_], _. split; [reflexivity|]. left. now exists text.
    + eexists [_], _. split; [reflexivity|]. right. now exists e.
  - intros text B X. unfold App.run, App.run_body. cbv zeta.
    rewrite App_extract, X. unfold App.upload. rewrite B. reflexivity.
Qed.

Lemma upload_thread_run_ends_with_signal_witness :
  App.run {| App.AWS_BUCKET_NAME := []; App.AWS_EXTRACT_BUCKET := py "ai-assistant-extracts";
             App.OLLAMA_URL := py "http://127.0.0.1:11434"; App.polly_client := false |}
    notes_upload_world (py "/home/user/notes.pdf")
  = [App.PdfReader (py "/home/user/notes.pdf");
     App.extracted_text (py "Hello" ++ [LF; LF; LF; LF])].
Proof.
  pose proof (upload_thread_run_ends_with_signal both_buckets notes_world
                {| App.AWS_BUCKET_NAME := [];
                   App.AWS_EXTRACT_BUCKET := py "ai-assistant-extracts";
                   App.OLLAMA_URL := py "http://127.0.0.1:11434";
                   App.polly_client := false |}
                notes_upload_world (py "/home/user/notes.pdf")) as (_ & _ & _ & _ & H).
  specialize (H (py "Hello" ++ [LF; LF; LF; LF]) eq_refl ltac:(by_vm)).
  computed H.
Defined.

(** ** The voice *)

Lemma first_en_IN_found (before after : list (str * str)) (id : str) :
  (forall v, In v before -> snd v <> py "en-IN") ->
  App.first_en_IN (before ++ (id, py "en-IN") :: after) = Some id.
Proof.
  induction before as [|[i c] before IH]; intros N; simpl.
  - now rewrite str_eqb_refl.
  - assert (C : str_eqb c (py "en-IN") = false)
      by (apply str_eqb_neq; apply (N (i, c)); now left).
    rewrite C. apply IH. intros v I. apply N. now right.
Qed.

Lemma first_en_IN_none (voices : list (str * str)) :
  (forall v, In v voices -> snd v <> py "en-IN") -> App.first_en_IN voices = None.
Proof.
  induction voices as [|[i c] voices IH]; intros N; simpl; [reflexivity|].
  assert (C : str_eqb c (py "en-IN") = false)
    by (apply str_eqb_neq; apply (N (i, c)); now left).
  rewrite C. apply IH. intros v I. apply N. now right.
Qed.

(** X6.  [get_best_voice] answers with the first listed voice whose
    language code is [en-IN]; when no voice has that code, with the first
    listed voice; and with no voice at all when the list is empty, when
    [describe_voices] raises, or when there is no Polly client, in which
    case Polly is not called.  The engine is always [neural]. *)
Theorem best_voice_prefers_en_IN (cfg : App.Config) (w : App.World) :
  (App.polly_client cfg = false ->
   App.get_best_voice cfg w = ([], Returns (None, None)))
  /\ (forall e,
        App.polly_client cfg = true ->
        App.describe_voices_outcome w = Raises e ->
        result (App.get_best_voice cfg w) = Returns (None, None))
  /\ (forall voices,
        App.polly_client cfg = true ->
        App.describe_voices_outcome w = Returns voices ->
        (forall before id after,
           voices = before ++ (id, py "en-IN") :: after ->
           (forall v, In v before -> snd v <> py "en-IN") ->
           result (App.get_best_voice cfg w) = Returns (Some id, Some (py "neural")))
        /\ (forall id code rest,
              voices = (id, code) :: rest ->
              (forall v, In v voices -> snd v <> py "en-IN") ->
              result (App.get_best_voice cfg w) = Returns (Some id, Some (py "neural")))
        /\ (voices = [] -> result (App.get_best_voice cfg w) = Returns (None, None))).
Proof.
  rewrite get_best_voice_cases. split; [|split].
  - intros ->. reflexivity.
  - intros e -> ->. reflexivity.
  - intros voices -> ->. cbn [negb result snd]. unfold best_voice. split; [|split].
    + intros before id after -> N. now rewrite first_en_IN_found.
    + intros id code rest -> N. now rewrite first_en_IN_none.
    + intros ->. reflexivity.
Qed.

Lemma best_voice_prefers_en_IN_witness :
  result (App.get_best_voice app_config two_line_answer)
  = Returns (Some (py "Kajal"), Some (py "neural")).
Proof.
  pose proof (best_voice_prefers_en_IN app_config two_line_answer) as (_ & _ & H).
  specialize (H [(py "Joanna", py "en-US"); (py "Kajal", py "en-IN")] eq_refl eq_refl).
  destruct H as (H & _).
  apply (H [(py "Joanna", py "en-US")] (py "Kajal") [] eq_refl).
  intros v [<-|[]]. vm_compute. discriminate.
Defined.

(** ** The outcome of an audio request *)

Lemma read_chunks_body (reads : list (outcome (list N))) :
  audio_body reads (fst (App.read_chunks reads)) (snd (App.read_chunks reads)).
Proof.
  induction reads as [|[chunk|e] rest IH]; cbn [App.read_chunks]; [constructor| |constructor].
  destruct chunk as [|c chunk]; [constructor|].
  destruct (App.read_chunks rest) as [chunks broken]. cbn [fst snd] in *.
  constructor; [discriminate | exact IH].
Qed.

Lemma audio_body_unique (reads : list (outcome (list N))) (chunks chunks' : list (list N))
    (broken broken' : option exception) :
  audio_body reads chunks broken -> audio_body reads chunks' broken' ->
  chunks' = chunks /\ broken' = broken.
Proof.
  intros H. revert chunks' broken'.
  induction H as [|rest|e rest|chunk rest chunks broken N H IH]; intros chunks' broken' H';
    inversion H'; subst; try (now split); try congruence.
  match goal with
  | K : audio_body rest _ _ |- _ => destruct (IH _ _ K) as (-> & ->)
  end.
  now split.
Qed.

Lemma speak_cases (cfg : App.Config) (w : App.World) (answer latest : str) :
  App.polly_client cfg = true ->
  exists r,
    result (App.speak cfg w answer latest) = Returns (r, latest)
    /\ (App.status r = 200 \/ App.status r = 500)
    /\ (App.status r = 200
        <-> match App.describe_voices_outcome w with
            | Returns voices =>
                match best_voice voices with Some id => truthy id | None => false end
            | Raises _ => false
            end && returned (App.synthesize_speech_outcome w) = true)
    /\ (App.status r = 200 ->
        App.mimetype r = py "audio/mpeg"
        /\ exists reads chunks broken,
             App.synthesize_speech_outcome w = Returns reads
             /\ App.response_body r = App.Audio chunks broken
             /\ audio_body reads chunks broken).
Proof.
  intros P. unfold App.speak. rewrite get_best_voice_cases, P. cbn [negb].
  destruct (App.describe_voices_outcome w) as [voices|e].
  - destruct (best_voice voices) as [id|].
    + run_simpl. destruct (truthy id).
      * destruct (App.synthesize_speech_outcome w) as [reads|e]; simpl.
        -- pose proof (read_chunks_body reads) as B.
           destruct (App.read_chunks reads) as [chunks broken]. cbn [fst snd] in B.
           eexists. split; [reflexivity|]. simpl.
           split; [now left|]. split; [split; reflexivity|]. intros _.
           split; [reflexivity|]. now exists reads, chunks, broken.
        -- eexists. split; [reflexivity|]. simpl.
           split; [now right|]. split; [split; discriminate|]. discriminate.
      * eexists. split; [reflexivity|]. simpl.
        split; [now right|]. split; [split; discriminate|]. discriminate.
    + run_simpl. eexists. split; [reflexivity|]. simpl.
      split; [now right|]. split; [split; discriminate|]. discriminate.
  - run_simpl. eexists. split; [reflexivity|]. simpl.
    split; [now right|]. split; [split; discriminate|]. discriminate.
Qed.

(** X7.  [POST /api/ask-audio-stream] raises, before it calls anything,
    when [request.get_json()] raises, when the body is no object, and
    when its [question] is no string.  For every other body it answers,
    with status 200 or 500.  It answers 200 exactly when the question,
    stripped, is not empty, there is a Polly client, the stored answer
    (or, for want of one, the answer of its own inference call) is not
    empty, Polly offers a voice with a name, and the call of the
    synthesis returns.  The body, as [audio/mpeg], then holds the chunks
    read from the stream before the first read that is empty or raises;
    a read that raises breaks the body off, the status being 200 all the
    same.  The stored answer changes only when the request had to call
    inference and got an answer, which it stores. *)
Theorem audio_request_outcome (cfg : App.Config) (w : App.World) (py_str : json -> str)
    (latest : str) (body : outcome json) :
  let request := App.stream_audio cfg w py_str latest body in
  (forall e, body = Raises e -> request = ([], Raises e))
  /\ (forall data,
        body = Returns data -> (forall d, data <> JDict d) ->
        exists e,
          request = ([], Raises e)
          /\ exc_str e = py "'" ++ type_name data ++ py "' object has no attribute 'get'")
  /\ (forall d v,
        body = Returns (JDict d) ->
        dict_get d (py "question") (JStr []) = v -> (forall s, v <> JStr s) ->
        exists e,
          request = ([], Raises e)
          /\ exc_str e = py "'" ++ type_name v ++ py "' object has no attribute 'strip'")
  /\ (forall d s,
        body = Returns (JDict d) ->
        dict_get d (py "question") (JStr []) = JStr s ->
        exists r latest',
          result request = Returns (r, latest')
          /\ (App.status r = 200 \/ App.status r = 500)
          /\ (App.status r = 200 <-> audio_ok cfg w latest (strip s) = true)
          /\ (App.status r = 200 ->
              App.mimetype r = py "audio/mpeg"
              /\ exists reads chunks broken,
                   App.synthesize_speech_outcome w = Returns reads
                   /\ App.response_body r = App.Audio chunks broken
                   /\ audio_body reads chunks broken)
          /\ latest'
             = if truthy (strip s) && App.polly_client cfg && negb (truthy latest)
               then match answer_of w with Some a => a | None => latest end
               else latest).
Proof.
  cbv zeta. destruct (stream_audio_malformed cfg w py_str latest body) as (M1 & M2 & M3).
  split; [exact M1|]. split; [|split].
  - intros data B N. rewrite (M2 data B N). eexists. split; reflexivity.
  - intros d v B Q N. rewrite (M3 d v B Q N). eexists. split; reflexivity.
  - intros d s -> Q. rewrite (stream_audio_wellformed cfg w py_str latest d Q).
    unfold audio_ok, audio_answer.
    destruct (truthy (strip s));
      [|eexists _, _; split; [reflexivity|]; simpl;
        split; [now right|]; split; [split; discriminate|]; split;
        [discriminate | reflexivity]].
    destruct (App.polly_client cfg) eqn:P;
      [|eexists _, _; split; [reflexivity|]; simpl;
        split; [now right|]; split; [split; discriminate|]; split;
        [discriminate | reflexivity]].
    cbn [negb orb andb].
    destruct (truthy latest) eqn:L.
    + cbv beta iota. rewrite L. cbn [andb].
      destruct (speak_cases cfg w latest latest P) as (r & R & S & I & B).
      exists r, latest. split; [exact R|]. split; [exact S|].
      split; [exact I|]. split; [exact B | reflexivity].
    + cbn [result snd]. destruct (answer_of w) as [a|].
      * destruct (truthy a) eqn:T.
        -- cbn [andb]. destruct (speak_cases cfg w a a P) as (r & R & S & I & B).
           exists r, a. split; [exact R|]. split; [exact S|].
           split; [exact I|]. split; [exact B | reflexivity].
        -- eexists _, _. split; [reflexivity|]. simpl.
           split; [now right|]. split; [split; discriminate|]. split;
             [discriminate | reflexivity].
      * eexists _, _. split; [reflexivity|]. simpl.
        split; [now right|]. split; [split; discriminate|]. split;
          [discriminate | reflexivity].
Qed.

Lemma audio_request_outcome_witness :
  result (App.stream_audio app_config two_line_answer no_str (py "Tea is hot. Ice is cold.")
            ask_coffee)
  = Returns ({| App.status := 200; App.mimetype := py "audio/mpeg";
                App.response_body := App.Audio [[73; 68; 51]%N; [255; 251]%N] None |},
             py "Tea is hot. Ice is cold.")
  /\ result (App.stream_audio app_config broken_stream no_str [] ask_coffee)
     = Returns ({| App.status := 200; App.mimetype := py "audio/mpeg";
                   App.response_body :=
                     App.Audio [[73; 68; 51]%N] (Some connection_refused) |},
                py "Tea is hot. Ice is cold.")
  /\ (exists e,
        App.stream_audio app_config two_line_answer no_str (py "Tea is hot. Ice is cold.")
          (Returns (JDict [(py "question", JInt 5)]))
        = ([], Raises e)
        /\ exc_str e = py "'int' object has no attribute 'strip'")
  /\ (exists e,
        App.stream_audio app_config two_line_answer no_str (py "Tea is hot. Ice is cold.")
          (Returns (JList [JStr (py "What about coffee?")]))
        = ([], Raises e)
        /\ exc_str e = py "'list' object has no attribute 'get'").
Proof.
  assert (Q : dict_get [(py "question", JStr (py "What about coffee?"));
                        (py "language", JStr [])] (py "question") (JStr [])
              = JStr (py "What about coffee?")) by by_vm.
  split; [|split; [|split]].
  - pose proof (@audio_request_outcome app_config two_line_answer no_str
                  (py "Tea is hot. Ice is cold.") ask_coffee) as H.
    cbv zeta in H. destruct H as (_ & _ & _ & H).
    destruct (H _ _ eq_refl Q) as (r & latest' & R & _ & I & B & L).
    assert (S : App.status r = 200) by (apply I; by_vm).
    destruct (B S) as (Mt & reads & chunks & broken & Y & Bd & A).
    assert (Y' : Returns [Returns [73; 68; 51]%N; Returns [255; 251]%N; Returns []]
                 = Returns reads) by (rewrite <- Y; by_vm).
    injection Y' as <-.
    destruct (audio_body_unique A (read_chunks_body _)) as (E1 & E2).
    cbn in E1, E2. subst chunks broken.
    rewrite R. destruct r as [st mt bd]. cbn in S, Mt, Bd. subst st mt bd.
    f_equal. f_equal. rewrite L. by_vm.
  - pose proof (@audio_request_outcome app_config broken_stream no_str [] ask_coffee) as H.
    cbv zeta in H. destruct H as (_ & _ & _ & H).
    destruct (H _ _ eq_refl Q) as (r & latest' & R & _ & I & B & L).
    assert (S : App.status r = 200) by (apply I; by_vm).
    destruct (B S) as (Mt & reads & chunks & broken & Y & Bd & A).
    assert (Y' : Returns [Returns [73; 68; 51]%N; Raises connection_refused;
                          Returns [255; 251]%N]
                 = Returns reads) by (rewrite <- Y; by_vm).
    injection Y' as <-.
    destruct (audio_body_unique A (read_chunks_body _)) as (E1 & E2).
    cbn in E1, E2. subst chunks broken.
    rewrite R. destruct r as [st mt bd]. cbn in S, Mt, Bd. subst st mt bd.
    f_equal. f_equal. rewrite L. by_vm.
  - pose proof (@audio_request_outcome app_config two_line_answer no_str
                  (py "Tea is hot. Ice is cold.")
                  (Returns (JDict [(py "question", JInt 5)]))) as H.
    cbv zeta in H. destruct H as (_ & _ & H & _).
    destruct (H _ (JInt 5) eq_refl ltac:(by_vm) ltac:(discriminate)) as (e & R & X).
    exists e. split; [exact R|]. rewrite X. by_vm.
  - pose proof (@audio_request_outcome app_config two_line_answer no_str
                  (py "Tea is hot. Ice is cold.")
                  (Returns (JList [JStr (py "What about coffee?")]))) as H.
    cbv zeta in H. destruct H as (_ & H & _).
    destruct (H _ eq_refl ltac:(discriminate)) as (e & R & X).
    exists e. split; [exact R|]. rewrite X. by_vm.
Defined.

(** ** The outcome of a text request *)

(** X8.  [POST /api/ask-stream] raises, before it calls anything, when
    [request.get_json()] raises, when the body is no object, and when its
    [question] is no string.  It refuses a question that is blank or
    absent with status 400 and calls nothing.  Otherwise it makes one
    inference call, for the stripped question with the [context] and
    [language] of the body, whatever values they are (none and [english]
    when absent), and answers 200 exactly when that call comes to an
    answer that is not empty, 500 otherwise.  The stored answer becomes
    the answer of the call whenever there is one, an empty one included
    (the request then fails and the stored answer is cleared); a call
    without an answer leaves the stored answer as it was. *)
Theorem text_request_outcome (cfg : App.Config) (w : App.World) (py_str : json -> str)
    (latest : str) (body : outcome json) :
  let request := App.stream_text cfg w py_str latest body in
  (forall e, body = Raises e -> request = ([], Raises e))
  /\ (forall data,
        body = Returns data -> (forall d, data <> JDict d) ->
        exists e,
          request = ([], Raises e)
          /\ exc_str e = py "'" ++ type_name data ++ py "' object has no attribute 'get'")
  /\ (forall d v,
        body = Returns (JDict d) ->
        dict_get d (py "question") (JStr []) = v -> (forall s, v <> JStr s) ->
        exists e,
          request = ([], Raises e)
          /\ exc_str e = py "'" ++ type_name v ++ py "' object has no attribute 'strip'")
  /\ (forall d s,
        body = Returns (JDict d) ->
        dict_get d (py "question") (JStr []) = JStr s ->
        strip s = [] ->
        request
        = ([], Returns ({| App.status := 400; App.mimetype := py "text/html";
                           App.response_body := App.Text [py "Please enter a question"] |},
                        latest)))
  /\ (forall d s,
        body = Returns (JDict d) ->
        dict_get d (py "question") (JStr []) = JStr s ->
        strip s <> [] ->
        trace request
        = [App.requests_post (App.OLLAMA_URL cfg ++ py "/api/generate")
             (App.prompt_of py_str (strip s) (dict_get d (py "context") (JStr []))
                (dict_get d (py "language") (JStr (py "english"))))]
        /\ exists r latest',
             result request = Returns (r, latest')
             /\ (App.status r = 200 \/ App.status r = 500)
             /\ (App.status r = 200 <-> exists a, answer_of w = Some a /\ a <> [])
             /\ (App.status r = 200 ->
                 App.mimetype r = py "text/plain"
                 /\ exists chunks,
                      App.response_body r = App.Text chunks /\ concat chunks = latest')
             /\ (App.status r = 500 ->
                 App.response_body r = App.Text [py "Failed to get response"])
             /\ latest' = match answer_of w with Some a => a | None => latest end).
Proof.
  cbv zeta. destruct (stream_text_malformed cfg w py_str latest body) as (M1 & M2 & M3).
  split; [exact M1|]. split; [|split; [|split]].
  - intros data B N. rewrite (M2 data B N). eexists. split; reflexivity.
  - intros d v B Q N. rewrite (M3 d v B Q N). eexists. split; reflexivity.
  - intros d s -> Q E. rewrite (stream_text_wellformed cfg w py_str latest d Q).
    apply truthy_false in E. now rewrite E.
  - intros d s -> Q E. rewrite (stream_text_wellformed cfg w py_str latest d Q).
    apply truthy_true in E. rewrite E. cbn [negb trace fst result snd].
    split; [reflexivity|].
    destruct (answer_of w) as [a|].
    + destruct (truthy a) eqn:T.
      * eexists _, _. split; [reflexivity|]. simpl. split; [now left|].
        split; [split; [|reflexivity]|].
        { intros _. exists a. split; [reflexivity | now apply truthy_true]. }
        split; [|split; [discriminate | reflexivity]].
        intros _. split; [reflexivity|]. eexists. split; [reflexivity|].
        apply generate_concat.
      * eexists _, _. split; [reflexivity|]. simpl. split; [now right|].
        split; [split; [discriminate|]|].
        { intros (a' & [= <-] & N). apply truthy_true in N. congruence. }
        split; [discriminate|]. split; reflexivity.
    + eexists _, _. split; [reflexivity|]. simpl. split; [now right|].
      split; [split; [discriminate|]|].
      { intros (a' & A & _). discriminate A. }
      split; [discriminate|]. split; reflexivity.
Qed.

Lemma text_request_outcome_witness :
  App.stream_text app_config two_line_answer no_str (py "old answer") ask_tea
  = ([App.requests_post (py "http://127.0.0.1:11434/api/generate")
        (py "Answer this question clearly in english:" ++ [LF; LF]
         ++ py "Is tea hot?" ++ [LF; LF]
         ++ py "Provide a comprehensive answer with examples.")],
     Returns ({| App.status := 200; App.mimetype := py "text/plain";
                 App.response_body :=
                   App.Text [py "Tea "; py "is "; py "hot. "; py "Ice "; py "is ";
                             py "cold."] |},
              py "Tea is hot. Ice is cold."))
  /\ App.stream_text app_config two_line_answer no_str (py "old answer")
       (Returns (JDict [(py "question", JStr (py "   ")); (py "context", JInt 7)]))
     = ([], Returns ({| App.status := 400; App.mimetype := py "text/html";
                        App.response_body := App.Text [py "Please enter a question"] |},
                     py "old answer"))
  /\ (exists r,
        result (App.stream_text app_config inference_down no_str (py "old answer") ask_tea)
        = Returns (r, py "old answer")
        /\ App.status r = 500)
  /\ (exists e,
        App.stream_text app_config two_line_answer no_str (py "old answer")
          (Returns (JDict [(py "question", JNone)]))
        = ([], Raises e)
        /\ exc_str e = py "'NoneType' object has no attribute 'strip'").
Proof.
  assert (Q : dict_get [(py "question", JStr (py " Is tea hot? "))] (py "question") (JStr [])
              = JStr (py " Is tea hot? ")) by by_vm.
  assert (N : strip (py " Is tea hot? ") <> []) by (vm_compute; discriminate).
  split; [|split; [|split]].
  - pose proof (@text_request_outcome app_config two_line_answer no_str (py "old answer")
                  ask_tea) as H.
    cbv zeta in H. destruct H as (_ & _ & _ & _ & H).
    destruct (H _ _ eq_refl Q N) as (T & r & latest' & R & _ & I & B & _ & L).
    assert (S : App.status r = 200).
    { apply I. exists (py "Tea is hot. Ice is cold."). split; [by_vm|].
      vm_compute. discriminate. }
    destruct (B S) as (Mt & chunks & Bd & C).
    destruct (App.stream_text app_config two_line_answer no_str (py "old answer") ask_tea)
      as [t o] eqn:X.
    cbn [trace fst result snd] in T, R. subst t o.
    assert (X' := X). vm_compute in X'. injection X' as <- <-.
    by_vm.
  - pose proof (@text_request_outcome app_config two_line_answer no_str (py "old answer")
                  (Returns (JDict [(py "question", JStr (py "   "));
                                   (py "context", JInt 7)]))) as H.
    cbv zeta in H. destruct H as (_ & _ & _ & H & _).
    exact (H _ (py "   ") eq_refl ltac:(by_vm) ltac:(by_vm)).
  - pose proof (@text_request_outcome app_config inference_down no_str (py "old answer")
                  ask_tea) as H.
    cbv zeta in H. destruct H as (_ & _ & _ & _ & H).
    destruct (H _ _ eq_refl Q N) as (_ & r & latest' & R & [S|S] & I & _ & _ & L).
    + exfalso. apply I in S. destruct S as (a & A & _). vm_compute in A. discriminate A.
    + exists r. split; [|exact S]. rewrite R, L. by_vm.
  - pose proof (@text_request_outcome app_config two_line_answer no_str (py "old answer")
                  (Returns (JDict [(py "question", JNone)]))) as H.
    cbv zeta in H. destruct H as (_ & _ & H & _).
    destruct (H _ JNone eq_refl ltac:(by_vm) ltac:(discriminate)) as (e & R & X).
    exists e. split; [exact R|]. rewrite X. by_vm.
Defined.
(** ** The words of an answer *)

Lemma split_ws_from_app_word (w cur s : str) :
  (forall c, In c w -> isspace c = false) ->
  split_ws_from cur (w ++ s) = split_ws_from (rev w ++ cur) s.
Proof.
  revert cur. induction w as [|c w IH]; intros cur W; [reflexivity|].
  cbn [app split_ws_from]. rewrite (W c) by now left.
  rewrite IH by (intros x I; apply W; now right).
  cbn [rev]. now rewrite <- app_assoc.
Qed.

(** Splitting words joined by single spaces gives the words back. *)
Lemma split_ws_join_words (ws : list str) :
  Forall word ws -> split_ws (join [SP] ws) = ws.
Proof.
  unfold split_ws. induction ws as [|w ws IH]; intros F; [reflexivity|].
  inversion F as [|? ? [N W] Fws]; subst.
  assert (R : rev w ++ [] <> []).
  { rewrite app_nil_r. intros E. apply (f_equal (@length _)) in E.
    rewrite length_rev in E. destruct w; [congruence | discriminate E]. }
  destruct ws as [|w' ws].
  - cbn [join]. rewrite <- (app_nil_r w) at 1. rewrite split_ws_from_app_word by exact W.
    cbn [split_ws_from]. destruct (rev w ++ []) eqn:E; [congruence|].
    rewrite <- E, app_nil_r, rev_involutive. reflexivity.
  - change (join [SP] (w :: w' :: ws)) with (w ++ SP :: join [SP] (w' :: ws)).
    rewrite split_ws_from_app_word by exact W.
    cbn [split_ws_from]. change (isspace SP) with true. cbv iota.
    destruct (rev w ++ []) eqn:E; [congruence|].
    rewrite <- E, app_nil_r, rev_involutive. f_equal. now apply IH.
Qed.

(** X9.  Normalizing an answer changes its whitespace only: the
    normalized answer has the same words, in the same order, as the
    model's text in which each backslash followed by [n] and each newline
    was replaced by a space; and normalizing it is the same as joining
    those words by single spaces. *)
Theorem normalize_keeps_words (response_field : str) :
  let spaced_out :=
    replace [LF] [SP] (replace [BACKSLASH; 110%N] [SP] (strip response_field)) in
  split_ws (App.normalize response_field) = split_ws spaced_out
  /\ App.normalize response_field = join [SP] (split_ws spaced_out)
  /\ Forall word (split_ws (App.normalize response_field)).
Proof.
  cbv zeta. unfold App.normalize. split; [|split].
  - apply split_ws_join_words, split_ws_words.
  - reflexivity.
  - apply split_ws_words.
Qed.

(** ** Replacing in a key *)

Lemma split_no_occurrence (sep s : str) : find sep s = None -> split sep s = [s].
Proof.
  funelim (split sep s); intros F; try rewrite <- Heqcall; try reflexivity.
  congruence.
Qed.

Lemma split_at_occurrence (sep s : str) (i : nat) :
  sep <> [] -> find sep s = Some i ->
  split sep s = firstn i s :: split sep (skipn (i + length sep) s).
Proof.
  funelim (split sep s); intros N F; try rewrite <- Heqcall; try congruence.
  rewrite e in F. injection F as <-. reflexivity.
Qed.

Lemma replace_no_occurrence (old new s : str) :
  (forall l1 l2, s <> l1 ++ old ++ l2) -> replace old new s = s.
Proof.
  intros N. unfold replace. rewrite split_no_occurrence; [reflexivity|].
  destruct (find old s) as [i|] eqn:F; [|reflexivity].
  exfalso. exact (N _ _ (find_Some _ _ F)).
Qed.

Lemma startswith_refl (s r : str) : startswith s (s ++ r) = true.
Proof. apply startswith_spec. now exists r. Qed.

Lemma find_after_prefix (s rest : str) (x : codepoint) :
  ~ In x s -> find (x :: rest) (s ++ x :: rest) = Some (length s).
Proof.
  induction s as [|c s IH]; intros N.
  - cbn [app find]. rewrite <- (app_nil_r (x :: rest)) at 2.
    now rewrite startswith_refl.
  - cbn [app find startswith].
    assert (C : (x =? c)%N = false)
      by (apply N.eqb_neq; intros ->; apply N; now left).
    rewrite C. cbn [andb]. rewrite IH by (intros I; apply N; now right). reflexivity.
Qed.

Lemma replace_suffix (old_rest new s : str) (x : codepoint) :
  ~ In x s ->
  replace (x :: old_rest) new (s ++ x :: old_rest) = s ++ new.
Proof.
  intros N. unfold replace.
  rewrite split_at_occurrence with (i := length s);
    [|discriminate | now apply find_after_prefix].
  rewrite firstn_app, firstn_all, Nat.sub_diag. cbn [firstn].
  rewrite skipn_all2 by (rewrite length_app; simpl; lia).
  rewrite split_no_occurrence by reflexivity.
  cbn [join]. now rewrite !app_nil_r.
Qed.

Lemma py_dot_pdf : py ".pdf" = [DOT; 112; 100; 102]%N.
Proof. by_vm. Qed.

(** ** The Lambda handler *)

Lemma Extractdata_read_pages_stores (i : nat) (pages : list (outcome (option str)))
    (text : str) :
  lambda_stores (trace (Extractdata.read_pages i pages text)) = [].
Proof.
  revert i text. induction pages as [|[t|e] pages IH]; intros i text;
    cbn [Extractdata.read_pages]; try reflexivity.
  specialize (IH (S i) (text ++ Finalbot.or_empty t)).
  unfold bind, lift, emit.
  destruct (Extractdata.read_pages (S i) pages (text ++ Finalbot.or_empty t)) as [tr r].
  exact IH.
Qed.

Lemma lambda_pages_outcome_returns (pages : list (option str)) (text : str) :
  lambda_pages_outcome (map Returns pages) text
  = Returns (text ++ flat_map Finalbot.or_empty pages).
Proof.
  revert text. induction pages as [|p pages IH]; intros text; simpl.
  - now rewrite app_nil_r.
  - rewrite IH. now rewrite <- app_assoc.
Qed.

(** X10.  When the object can be fetched, every page read and the text
    put, the Lambda handler answers with status 200, having put into the
    destination bucket the texts of the pages one after the other, with
    nothing between them, under the key of the PDF in which every [.pdf]
    is replaced by [.txt]: a key that holds no [.pdf] (an upper-case
    extension, say) is kept as it is, and a key that ends in [.pdf] with
    no other dot in it gets [.txt] in its place. *)
Theorem lambda_handler_stores_text (lw : Extractdata.World) (bucket key text : str) :
  Extractdata.get_object_outcome lw = Returns tt ->
  lambda_pdf_outcome (Extractdata.PdfReader_outcome lw) = Returns text ->
  Extractdata.put_object_outcome lw = Returns tt ->
  let output_key := replace (py ".pdf") (py ".txt") key in
  result (Extractdata.lambda_handler lw bucket key)
  = Returns {| Extractdata.statusCode := 200;
               Extractdata.body :=
                 py "Extracted text from " ++ key ++ py " and saved to "
                 ++ Extractdata.destination_bucket ++ py "/" ++ output_key |}
  /\ lambda_stores (trace (Extractdata.lambda_handler lw bucket key))
     = [(Extractdata.destination_bucket, output_key, text)]
  /\ (forall pages,
        Extractdata.PdfReader_outcome lw = Returns (map Returns pages) ->
        text = flat_map Finalbot.or_empty pages)
  /\ ((forall l1 l2, key <> l1 ++ py ".pdf" ++ l2) -> output_key = key)
  /\ (forall name, ~ In DOT name -> key = name ++ py ".pdf" ->
                   output_key = name ++ py ".txt").
Proof.
  intros G X P. cbv zeta. split; [|split; [|split; [|split]]].
  - unfold Extractdata.lambda_handler. rewrite G, P. unfold lambda_pdf_outcome in X.
    destruct (Extractdata.PdfReader_outcome lw) as [pages|e]; [|discriminate X].
    pose proof (Extractdata_read_pages_result 0 pages []) as R. rewrite X in R.
    run_simpl. destruct (Extractdata.read_pages 0 pages []) as [tr r].
    simpl in R. subst r. reflexivity.
  - unfold Extractdata.lambda_handler. rewrite G, P. unfold lambda_pdf_outcome in X.
    destruct (Extractdata.PdfReader_outcome lw) as [pages|e]; [|discriminate X].
    pose proof (Extractdata_read_pages_result 0 pages []) as R. rewrite X in R.
    pose proof (Extractdata_read_pages_stores 0 pages []) as S.
    run_simpl. destruct (Extractdata.read_pages 0 pages []) as [tr r].
    simpl in R, S. subst r. simpl. unfold lambda_stores in *.
    rewrite flat_map_app, S. reflexivity.
  - intros pages R. unfold lambda_pdf_outcome in X. rewrite R in X.
    rewrite lambda_pages_outcome_returns in X. now injection X as <-.
  - apply replace_no_occurrence.
  - intros name N ->. rewrite py_dot_pdf. now apply replace_suffix.
Qed.

Lemma lambda_handler_stores_text_witness :
  lambda_stores (trace (Extractdata.lambda_handler lambda_notes (py "uploadpdf2025")
                          (py "notes.pdf")))
  = [(py "extractpdf202", py "notes.txt", py "Hello")]
  /\ replace (py ".pdf") (py ".txt") (py "SCAN.PDF") = py "SCAN.PDF"
  /\ replace (py ".pdf") (py ".txt") (py "my.pdf.files/a.pdf") = py "my.txt.files/a.txt".
Proof.
  pose proof (@lambda_handler_stores_text lambda_notes (py "uploadpdf2025") (py "notes.pdf")
                (py "Hello") ltac:(by_vm) ltac:(by_vm) ltac:(by_vm)) as H.
  cbv zeta in H. destruct H as (_ & H & _).
  split; [computed H | split; by_vm].
Defined.

(** ** The keys made of a path *)

Lemma basename_from_no_slash (name cur : str) :
  ~ In SLASH name -> basename_from cur name = rev cur ++ name.
Proof.
  revert cur. induction name as [|c name IH]; intros cur N; cbn [basename_from].
  - now rewrite app_nil_r.
  - assert (C : (c =? SLASH)%N = false)
      by (apply N.eqb_neq; intros ->; apply N; now left).
    rewrite C, IH by (intros I; apply N; now right).
    cbn [rev]. now rewrite <- app_assoc.
Qed.

Lemma basename_from_app_slash (dir name cur : str) :
  basename_from cur (dir ++ SLASH :: name) = basename_from [] name.
Proof.
  revert cur. induction dir as [|c dir IH]; intros cur; cbn [app basename_from].
  - now rewrite N.eqb_refl.
  - destruct (c =? SLASH)%N; apply IH.
Qed.

Lemma basename_of_path (dir name : str) :
  ~ In SLASH name -> basename (dir ++ SLASH :: name) = name.
Proof.
  intros N. unfold basename. rewrite basename_from_app_slash.
  now rewrite basename_from_no_slash.
Qed.

Lemma rfind_dot_from_no_dot (s : str) (i : nat) (last : option nat) :
  ~ In DOT s -> rfind_dot_from i last s = last.
Proof.
  revert i last. induction s as [|c s IH]; intros i last N; [reflexivity|].
  cbn [rfind_dot_from].
  assert (C : (c =? DOT)%N = false)
    by (apply N.eqb_neq; intros ->; apply N; now left).
  rewrite C. apply IH. intros I. apply N. now right.
Qed.

Lemma rfind_dot_from_last (a b : str) (i : nat) (last : option nat) :
  ~ In DOT b -> rfind_dot_from i last (a ++ DOT :: b) = Some (i + length a).
Proof.
  revert i last. induction a as [|c a IH]; intros i last N.
  - cbn [app rfind_dot_from]. rewrite N.eqb_refl.
    rewrite rfind_dot_from_no_dot by exact N. now rewrite Nat.add_0_r.
  - cbn [app rfind_dot_from]. rewrite IH by exact N. f_equal. simpl. lia.
Qed.

Lemma stem_with_extension (base ext : str) :
  base <> [] -> ext <> [] -> ~ In DOT ext -> stem (base ++ DOT :: ext) = base.
Proof.
  intros B E N. unfold stem.
  assert (D : str_eqb (base ++ DOT :: ext) [DOT] = false).
  { apply str_eqb_neq. intros H. apply (f_equal (@length _)) in H.
    rewrite length_app in H. simpl in H. destruct base; [congruence|].
    simpl in H. lia. }
  rewrite D, rfind_dot_from_last by exact N. cbn [Nat.add].
  assert (L1 : (0 <? length base) = true)
    by (apply Nat.ltb_lt; destruct base; [congruence | simpl; lia]).
  assert (L2 : (length base <? length (base ++ DOT :: ext) - 1) = true).
  { apply Nat.ltb_lt. rewrite length_app. simpl.
    destruct ext; [congruence | simpl; lia]. }
  rewrite L1, L2. cbn [andb].
  rewrite firstn_app, firstn_all, Nat.sub_diag. cbn [firstn]. apply app_nil_r.
Qed.

Lemma stem_without_dot (name : str) : ~ In DOT name -> stem name = name.
Proof.
  intros N. unfold stem.
  assert (D : str_eqb name [DOT] = false).
  { apply str_eqb_neq. intros ->. apply N. now left. }
  rewrite D. now rewrite rfind_dot_from_no_dot.
Qed.

(** X11.  For a path that ends, after its last slash, in a name
    [base.ext] (both parts not empty, no dot in [ext]), the run of
    main.py uploads the file under the key [base.ext], unless the listing
    shows it, and stores the extracted text under [base.txt]: only the
    last extension is replaced.  A name without any dot gets [.txt]
    appended. *)
Theorem keys_of_path (cfg : Finalbot.Config) (w : Finalbot.World) (dir base ext : str) :
  base <> [] -> ext <> [] -> ~ In DOT ext ->
  ~ In SLASH base -> ~ In SLASH ext ->
  let path := dir ++ SLASH :: base ++ DOT :: ext in
  basename path = base ++ DOT :: ext
  /\ text_key (basename path) = base ++ py ".txt"
  /\ (listed_as_duplicate w (base ++ DOT :: ext) = false ->
      FinalbotTrace.uploads (Finalbot.run cfg w path)
      = [(path, Finalbot.AWS_BUCKET_NAME cfg, base ++ DOT :: ext)])
  /\ (result (Finalbot.storage_gateway cfg w path (basename path)) = Returns tt ->
      extracted w <> [] -> truthy_opt (Finalbot.AWS_EXTRACT_BUCKET cfg) = true ->
      FinalbotTrace.stores (Finalbot.run cfg w path)
      = [(fmt_opt (Finalbot.AWS_EXTRACT_BUCKET cfg), base ++ py ".txt", extracted w)])
  /\ (forall name, ~ In DOT name -> ~ In SLASH name ->
                   text_key (basename (dir ++ SLASH :: name)) = name ++ py ".txt").
Proof.
  intros B E ND NS1 NS2. cbv zeta.
  assert (NS : ~ In SLASH (base ++ DOT :: ext)).
  { intros I. apply in_app_or in I as [I|[I|I]]; [now apply NS1 | discriminate I |
      now apply NS2]. }
  assert (BN : basename (dir ++ SLASH :: base ++ DOT :: ext) = base ++ DOT :: ext)
    by (now apply basename_of_path).
  assert (TK : text_key (base ++ DOT :: ext) = base ++ py ".txt")
    by (unfold text_key; now rewrite stem_with_extension).
  set (path := dir ++ SLASH :: base ++ DOT :: ext) in *.
  split; [exact BN|]. split; [rewrite BN; exact TK|]. split; [|split].
  - intros D. rewrite Finalbot_uploads_of_run, BN, D. reflexivity.
  - intros G X T. rewrite (Finalbot_stores_of_run _ _ _ G), BN, TK, T.
    apply truthy_true in X. now rewrite X.
  - intros name N1 N2. rewrite basename_of_path by exact N2.
    unfold text_key. now rewrite stem_without_dot.
Qed.

Lemma keys_of_path_witness :
  basename (py "/home/user/report.final.pdf") = py "report.final.pdf"
  /\ text_key (basename (py "/home/user/report.final.pdf")) = py "report.final.txt".
Proof.
  assert (E : py "/home/user/report.final.pdf"
              = py "/home/user" ++ SLASH :: py "report.final" ++ DOT :: py "pdf") by by_vm.
  rewrite E.
  pose proof (@keys_of_path both_buckets notes_world (py "/home/user") (py "report.final")
                (py "pdf")
                ltac:(vm_compute; discriminate) ltac:(vm_compute; discriminate)
                ltac:(vm_compute; intuition discriminate)
                ltac:(vm_compute; intuition discriminate)
                ltac:(vm_compute; intuition discriminate)) as H.
  cbv zeta in H. destruct H as (H1 & H2 & _).
  split; [computed H1 | computed H2].
Defined.

(** ** What [format_ollama_answer] keeps of a reply *)

Lemma ink_app (a b : str) : ink (a ++ b) = ink a ++ ink b.
Proof. apply filter_app. Qed.

Lemma ink_rev (s : str) : ink (rev s) = rev (ink s).
Proof.
  induction s as [|c s IH]; [reflexivity|].
  cbn [rev]. rewrite ink_app, IH. unfold ink at 2 3. cbn [filter].
  destruct (negb (isspace c)); cbn [rev]; [reflexivity | apply app_nil_r].
Qed.

Lemma ink_lstrip (s : str) : ink (lstrip s) = ink s.
Proof.
  induction s as [|c s IH]; [reflexivity|].
  cbn [lstrip]. destruct (isspace c) eqn:W; [|reflexivity].
  rewrite IH. unfold ink. cbn [filter]. now rewrite W.
Qed.

Lemma ink_strip (s : str) : ink (strip s) = ink s.
Proof.
  unfold strip, rstrip.
  now rewrite ink_rev, ink_lstrip, ink_rev, rev_involutive, ink_lstrip.
Qed.

Lemma lstrip_blank (s : str) : ink s = [] -> lstrip s = [].
Proof.
  induction s as [|c s IH]; [reflexivity|].
  unfold ink. cbn [filter lstrip]. destruct (isspace c); cbn [negb]; [exact IH | discriminate].
Qed.

Lemma strip_blank (s : str) : ink s = [] -> strip s = [].
Proof. intros H. unfold strip. now rewrite lstrip_blank by exact H. Qed.

Lemma lstrip_head (s t : str) (c : codepoint) : lstrip s = c :: t -> isspace c = false.
Proof.
  induction s as [|x s IH]; [discriminate|].
  cbn [lstrip]. destruct (isspace x) eqn:W; [exact IH|].
  intros [= <- <-]. exact W.
Qed.

Lemma lstrip_app_last (a : str) (c : codepoint) :
  isspace c = false -> lstrip (a ++ [c]) = lstrip a ++ [c].
Proof.
  intros W. induction a as [|x a IH]; cbn [app lstrip].
  - now rewrite W.
  - destruct (isspace x); [exact IH | reflexivity].
Qed.

Lemma rstrip_cons (c : codepoint) (t : str) :
  isspace c = false -> rstrip (c :: t) = c :: rstrip t.
Proof.
  intros W. unfold rstrip. cbn [rev].
  rewrite lstrip_app_last by exact W. rewrite rev_app_distr. reflexivity.
Qed.

Lemma strip_strip (s : str) : strip (strip s) = strip s.
Proof.
  unfold strip at 2 3. destruct (lstrip s) as [|c t] eqn:L; [reflexivity|].
  pose proof L as W. apply lstrip_head in W.
  rewrite rstrip_cons by exact W. unfold strip. cbn [lstrip]. rewrite W.
  rewrite rstrip_cons by exact W. f_equal.
  unfold rstrip. rewrite rev_involutive. f_equal.
  destruct (lstrip (rev t)) as [|x u] eqn:R; [reflexivity|].
  pose proof R as V. apply lstrip_head in V.
  cbn [lstrip]. now rewrite V.
Qed.

Lemma stripped_nonempty_trimmed (pieces : list str) :
  Forall trimmed (Finalbot.stripped_nonempty pieces).
Proof.
  unfold Finalbot.stripped_nonempty.
  induction pieces as [|p pieces IH]; cbn [filter map]; [constructor|].
  destruct (truthy (strip p)) eqn:T; [|exact IH].
  cbn [map]. constructor; [|exact IH].
  split; [now apply truthy_true | apply strip_strip].
Qed.

Lemma ink_stripped_nonempty (pieces : list str) :
  ink (concat (Finalbot.stripped_nonempty pieces)) = ink (concat pieces).
Proof.
  unfold Finalbot.stripped_nonempty.
  induction pieces as [|p pieces IH]; [reflexivity|].
  cbn [filter concat]. rewrite ink_app, <- IH, <- (ink_strip p).
  destruct (truthy (strip p)) eqn:T.
  - cbn [map concat]. now rewrite ink_app.
  - apply truthy_false in T. now rewrite T.
Qed.

Lemma ink_join (sep : str) (pieces : list str) :
  ink sep = [] -> ink (join sep pieces) = ink (concat pieces).
Proof.
  intros S. induction pieces as [|p [|q pieces] IH]; [reflexivity| |].
  - cbn [join concat]. now rewrite app_nil_r.
  - change (join sep (p :: q :: pieces)) with (p ++ sep ++ join sep (q :: pieces)).
    change (concat (p :: q :: pieces)) with (p ++ concat (q :: pieces)).
    now rewrite !ink_app, S, IH.
Qed.

Lemma ink_split (sep s : str) : ink sep = [] -> ink (concat (split sep s)) = ink s.
Proof. intros S. rewrite <- ink_join with (sep := sep) by exact S. now rewrite join_split. Qed.

Lemma ink_re_split_from (s cur : str) (after_end in_run : bool) :
  (in_run = true -> cur = []) ->
  ink (concat (Finalbot.re_split_from cur after_end in_run s)) = ink (rev cur ++ s).
Proof.
  revert cur after_end in_run.
  induction s as [|c s IH]; intros cur after_end in_run I; cbn [Finalbot.re_split_from].
  - cbn [concat]. now rewrite !app_nil_r.
  - destruct (c =? SP)%N eqn:C.
    + apply N.eqb_eq in C. subst c.
      assert (K : forall a, ink (a ++ SP :: s) = ink a ++ ink s)
        by (intros a; now rewrite ink_app).
      destruct in_run.
      * rewrite (I eq_refl), IH by reflexivity. cbn [rev app]. exact (eq_sym (K [])).
      * destruct after_end.
        -- cbn [concat]. rewrite ink_app, IH by reflexivity. cbn [rev app].
           now rewrite K.
        -- rewrite IH by discriminate. cbn [rev]. now rewrite <- app_assoc.
    + rewrite IH by discriminate. cbn [rev]. now rewrite <- app_assoc.
Qed.

Lemma ink_lines_of (text : str) : ink (concat (Finalbot.lines_of text)) = ink text.
Proof.
  unfold Finalbot.lines_of, Finalbot.parts_of.
  destruct (contains [LF; LF] text);
    match goal with |- context [3 <=? ?n] => destruct (3 <=? n) end;
    rewrite ink_stripped_nonempty;
    try (apply ink_split; reflexivity);
    unfold Finalbot.re_split_sentences;
    now rewrite ink_re_split_from by discriminate.
Qed.

Lemma lines_of_trimmed (text : str) : Forall trimmed (Finalbot.lines_of text).
Proof.
  unfold Finalbot.lines_of, Finalbot.parts_of.
  destruct (contains [LF; LF] text);
    match goal with |- context [3 <=? ?n] => destruct (3 <=? n) end;
    apply stripped_nonempty_trimmed.
Qed.

(** X12.  A reply that is not empty but holds whitespace only gets no
    numbered point at all: the answer shown is the source footer alone,
    not the "no response" message. *)
Theorem blank_reply_gives_footer_only (raw_text : str) :
  raw_text <> [] -> ink raw_text = [] ->
  Finalbot.format_ollama_answer raw_text = Finalbot.SOURCE_FOOTER
  /\ Finalbot.format_ollama_answer raw_text <> Finalbot.NO_RESPONSE.
Proof.
  intros N B.
  assert (E : Finalbot.format_ollama_answer raw_text = Finalbot.SOURCE_FOOTER).
  { unfold Finalbot.format_ollama_answer.
    apply truthy_true in N. rewrite N. rewrite strip_blank by exact B. cbn [negb]. by_vm. }
  split; [exact E|]. rewrite E. vm_compute. discriminate.
Qed.

Lemma blank_reply_gives_footer_only_witness :
  Finalbot.format_ollama_answer [SP; LF; SP]
  = [LF; LF] ++ py "🔎 Source: Answer generated using the uploaded text and Ollama model.".
Proof.
  pose proof (@blank_reply_gives_footer_only [SP; LF; SP]
                ltac:(discriminate) ltac:(vm_compute; reflexivity)) as (H & _).
  computed H.
Defined.

(** X13.  The numbered points of an answer hold exactly the characters of
    the reply that are not whitespace, in the order of the reply: cutting
    the reply into points loses, adds and moves nothing but whitespace.
    Every point is non-empty and has no whitespace at its ends; the answer
    is the points, numbered from 1 and joined by blank lines, then the
    example note if the reply called for one, then the footer. *)
Theorem answer_points_keep_the_reply (raw_text : str) :
  raw_text <> [] ->
  exists points : list str,
    ink (concat points) = ink raw_text
    /\ Forall trimmed points
    /\ Finalbot.format_ollama_answer raw_text
       = join [LF; LF] (Finalbot.number_from 1 points)
         ++ (if Finalbot.mentions_example (strip raw_text)
             then Finalbot.EXAMPLE_NOTE else [])
         ++ Finalbot.SOURCE_FOOTER.
Proof.
  intros N. exists (Finalbot.lines_of (strip raw_text)).
  split; [now rewrite ink_lines_of, ink_strip|].
  split; [apply lines_of_trimmed|].
  unfold Finalbot.format_ollama_answer.
  apply truthy_true in N. rewrite N. cbn [negb].
  destruct (Finalbot.mentions_example (strip raw_text)).
  - now rewrite <- app_assoc.
  - now rewrite app_nil_l.
Qed.

Lemma answer_points_keep_the_reply_witness :
  exists points : list str,
    ink (concat points) = py "Teaishot.Iceiscold!"
    /\ Forall trimmed points
    /\ Finalbot.format_ollama_answer (py " Tea is hot.  Ice is cold! ")
       = join [LF; LF] (Finalbot.number_from 1 points) ++ Finalbot.SOURCE_FOOTER.
Proof.
  destruct (@answer_points_keep_the_reply (py " Tea is hot.  Ice is cold! ")
              ltac:(vm_compute; discriminate)) as (points & I & T & F).
  exists points. split; [computed I|]. split; [exact T|].
  rewrite F.
  replace (Finalbot.mentions_example (strip (py " Tea is hot.  Ice is cold! ")))
    with false by by_vm.
  reflexivity.
Defined.

(** ** A question typed in the window of app.py *)

Lemma error_block_differs (e : exception) (a : str) :
  py "<b>AI:</b> " ++ a <> py "❌ Error: " ++ exc_str e
  /\ FAILED_TO_GET_RESPONSE <> py "❌ Error: " ++ exc_str e.
Proof.
  replace (py "❌ Error: ") with (10060%N :: py " Error: ") by by_vm.
  replace (py "<b>AI:</b> ") with (60%N :: py "b>AI:</b> ") by by_vm.
  replace FAILED_TO_GET_RESPONSE with (9888%N :: tl FAILED_TO_GET_RESPONSE) by by_vm.
  split; cbn [app]; intros [= H]; discriminate H.
Qed.

(** X14.  [AIAssistant.ask_question] of app.py sends nothing for a blank
    question.  Otherwise it sends exactly one request, about the PDF text
    if there is one and about the last clipboard text if not, and appends
    the question and one more block: the answer when the server gave one
    that is not empty, the failure line in every other case.  Its own
    error line is never shown, because [get_ollama_response] raises
    nothing.  The answer, empty or not, becomes [latest_answer]; a failed
    request leaves [latest_answer] alone.  After [on_pdf_loaded] with an
    empty text the questions are about the clipboard text again. *)
Theorem gui_question_outcome (cfg : App.Config) (w : App.World) (py_str : json -> str)
    (st : App.AIAssistant) (latest input_field language : str) :
  let q := strip input_field in
  let asked := App.append st ([LF; LF] ++ py "<b>You:</b> " ++ q) in
  (q = [] ->
   App.ask_question cfg w py_str st latest input_field language = ([], Returns (st, latest)))
  /\ (q <> [] ->
      trace (App.ask_question cfg w py_str st latest input_field language)
      = [App.requests_post (App.OLLAMA_URL cfg ++ py "/api/generate")
           (App.prompt_of py_str q (JStr (gui_context st)) (JStr language))]
      /\ exists block,
          result (App.ask_question cfg w py_str st latest input_field language)
          = Returns (App.append asked block,
                     match answer_of w with Some a => a | None => latest end)
          /\ block = match answer_of w with
                     | Some a => if truthy a then py "<b>AI:</b> " ++ a
                                 else FAILED_TO_GET_RESPONSE
                     | None => FAILED_TO_GET_RESPONSE
                     end
          /\ forall e, block <> py "❌ Error: " ++ exc_str e)
  /\ (forall text, gui_context (App.on_pdf_loaded st text)
                   = if truthy text then text else App.last_clip st).
Proof.
  cbv zeta. unfold App.ask_question. cbv zeta.
  destruct (truthy (strip input_field)) eqn:Q; cbn [negb].
  - apply truthy_true in Q. split; [intros E; contradiction|]. split; [|reflexivity].
    intros _. rewrite get_ollama_response_cases.
    change (App.pdf_text (App.append st ?b)) with (App.pdf_text st).
    change (App.last_clip (App.append st ?b)) with (App.last_clip st).
    fold (gui_context st).
    destruct (answer_of w) as [a|].
    + run_simpl. destruct (truthy a) eqn:A.
      * split; [reflexivity|]. eexists. split; [reflexivity|]. split; [reflexivity|].
        intros e. apply error_block_differs.
      * split; [reflexivity|]. eexists. split; [reflexivity|]. split; [reflexivity|].
        intros e. apply (error_block_differs e a).
    + run_simpl. split; [reflexivity|]. eexists. split; [reflexivity|].
      split; [reflexivity|]. intros e. apply (error_block_differs e []).
  - apply truthy_false in Q. split; [reflexivity|]. split; [|reflexivity].
    intros N. contradiction.
Qed.

Lemma gui_question_outcome_witness :
  result (App.ask_question app_config two_line_answer no_str
            (App.on_pdf_loaded App.new_assistant [])
            [] (py " What is tea? ") (py "english"))
  = Returns (App.append
               (App.append (App.on_pdf_loaded App.new_assistant [])
                  ([LF; LF] ++ py "<b>You:</b> What is tea?"))
               (py "<b>AI:</b> " ++ match answer_of two_line_answer with
                                    | Some a => a | None => [] end),
             match answer_of two_line_answer with Some a => a | None => [] end).
Proof.
  pose proof (@gui_question_outcome app_config two_line_answer no_str
                (App.on_pdf_loaded App.new_assistant [])
                [] (py " What is tea? ") (py "english")) as H.
  cbv zeta in H. destruct H as (_ & H & _).
  destruct (H ltac:(vm_compute; discriminate)) as (_ & block & R & B & _).
  rewrite R, B. by_vm.
Defined.

(** ** A question about the copied text *)

Lemma check_clipboard_last_clip (st : Finalbot.Popup) (p : outcome str) :
  Finalbot.last_clip (fst (Finalbot.check_clipboard st p))
  = match p with
    | Returns clip => if truthy (strip clip) then strip clip else Finalbot.last_clip st
    | Raises _ => Finalbot.last_clip st
    end.
Proof.
  destruct p as [clip|e]; [|reflexivity].
  unfold Finalbot.check_clipboard. cbv zeta.
  destruct (truthy (strip clip)); cbn [negb]; [|reflexivity].
  destruct (str_eqb (strip clip) (Finalbot.last_clip st)) eqn:E.
  - apply str_eqb_eq in E. now rewrite E.
  - destruct (negb (Finalbot.ollama_checked st)); reflexivity.
Qed.

Lemma after_ticks_last_clip (pastes : list (outcome str)) (st : Finalbot.Popup) :
  Finalbot.last_clip (after_ticks st pastes)
  = latest_copied (Finalbot.last_clip st) pastes.
Proof.
  revert st. induction pastes as [|p pastes IH]; intros st; [reflexivity|].
  unfold after_ticks, latest_copied. cbn [fold_left].
  fold (after_ticks (fst (Finalbot.check_clipboard st p)) pastes).
  rewrite IH, check_clipboard_last_clip. reflexivity.
Qed.

(** X15.  After any ticks of the clipboard timer the translator popup
    holds the last text read that was not blank, stripped (a failed or
    blank read changes nothing, and a text read twice is kept).
    [TranslatorPopup.ask_ollama] then sends a request exactly when the
    question, stripped, is not empty and such a text exists; the system
    prompt carries that text and the language chosen.  With a question
    but no text the popup shows one warning and sends nothing. *)
Theorem question_about_latest_copy (repr_list : list json -> str)
    (st : Finalbot.Popup) (pastes : list (outcome str))
    (input_box target_lang : str) (score : option nat)
    (post : outcome Finalbot.Response) :
  let popup := after_ticks st pastes in
  let copied := latest_copied (Finalbot.last_clip st) pastes in
  let msg := strip input_box in
  Finalbot.last_clip popup = copied
  /\ (msg <> [] -> copied <> [] ->
      snd (Finalbot.ask_ollama repr_list popup input_box target_lang score post)
      = Some (Finalbot.copied_system_prompt target_lang copied, msg))
  /\ (msg = [] ->
      Finalbot.ask_ollama repr_list popup input_box target_lang score post = ([], None))
  /\ (msg <> [] -> copied = [] ->
      Finalbot.ask_ollama repr_list popup input_box target_lang score post
      = ([py "⚠️ No copied text to ask about. Copy some text and try again."], None)).
Proof.
  cbv zeta. split; [apply after_ticks_last_clip|].
  unfold Finalbot.ask_ollama. cbv zeta. rewrite after_ticks_last_clip.
  destruct (truthy (strip input_box)) eqn:Q; cbn [negb].
  - apply truthy_true in Q.
    destruct (truthy (latest_copied (Finalbot.last_clip st) pastes)) eqn:C; cbn [negb].
    + apply truthy_true in C. split; [reflexivity|].
      split; [intros E; contradiction|]. intros _ E. contradiction.
    + apply truthy_false in C. split; [intros _ N; contradiction|].
      split; [intros E; contradiction|]. reflexivity.
  - apply truthy_false in Q. split; [intros N; contradiction|].
    split; [reflexivity|]. intros N. contradiction.
Qed.

Lemma question_about_latest_copy_witness :
  snd (Finalbot.ask_ollama (fun _ => [])
         (after_ticks (translator_mode [])
            [Returns (py " tea "); Raises no_credentials; Returns (py "  ")])
         (py " What? ") (py "hindi") None (Returns chat_answer))
  = Some (Finalbot.copied_system_prompt (py "hindi") (py "tea"), py "What?").
Proof.
  pose proof (@question_about_latest_copy (fun _ => []) (translator_mode [])
                [Returns (py " tea "); Raises no_credentials; Returns (py "  ")]
                (py " What? ") (py "hindi") None (Returns chat_answer)) as H.
  cbv zeta in H. destruct H as (_ & H & _).
  specialize (H ltac:(vm_compute; discriminate) ltac:(vm_compute; discriminate)).
  computed H.
Defined.
